(** * EvoFlow network descriptors: genomes, shape arithmetic, mutation operators

    A shallow embedding of [Network.py]: the descriptor classes
    [NetworkDescriptor], [MLPDescriptor], [ConvDescriptor], [TConvDescriptor]
    and the function [compute_output], followed by the properties of the
    specification that are stated about them.

    Conventions of the embedding.
    - Python integers are [Z], and so are numpy's 64-bit integers as long as
      no value leaves [Py.int64]: there the arithmetic of the two agrees with
      that of [Z].  Where numpy converts a Python integer into an item of an
      existing integer array the conversion is modelled with its
      [OverflowError] ([Py.to_int64]).  Arithmetic that would leave the range
      wraps or turns to floating point in numpy and is not described: a
      property that states what such arithmetic returns, or that needs its
      value to promise a result, carries the bounds that keep the values
      inside [Py.int64].
    - A Python exception is [None]; the state a raising call leaves behind is
      not described.
    - [np.random] is a stream of raw draws that the calls consume in program
      order, so every theorem quantified over the stream holds for every
      outcome of the generator. *)

From Stdlib Require Import ZArith QArith Lia.
From stdpp Require Import base tactics option list.

Local Open Scope Z_scope.

(** ** Python and numpy sequence primitives *)

Module Py.

(** Resolution of a subscript [l[i]] against a sequence of [len] items:
    negative subscripts count from the end, anything else out of range is an
    [IndexError]. *)
Definition subscript (len : nat) (i : Z) : option nat :=
  if bool_decide (0 <= i < Z.of_nat len) then Some (Z.to_nat i)
  else if bool_decide (- Z.of_nat len <= i < 0) then Some (Z.to_nat (Z.of_nat len + i))
  else None.

(** [l[i]] *)
Definition getitem {A} (l : list A) (i : Z) : option A :=
  j ← subscript (length l) i; l !! j.

(** [l[i] = x] *)
Definition setitem {A} (l : list A) (i : Z) (x : A) : option (list A) :=
  j ← subscript (length l) i; Some (<[j := x]> l).

(** [l.insert(i, x)]: never raises, the position is clipped to the list. *)
Definition list_insert {A} (i : Z) (x : A) (l : list A) : list A :=
  let len := Z.of_nat (length l) in
  let j := Z.to_nat (if bool_decide (i < 0) then Z.max 0 (len + i) else Z.min i len) in
  take j l ++ x :: drop j l.

(** [l.pop(i)], keeping the shortened list. *)
Definition list_pop {A} (i : Z) (l : list A) : option (list A) :=
  j ← subscript (length l) i; Some (delete j l).

(** [np.insert(arr, obj, value)] for a scalar [obj]: [-len <= obj <= len]. *)
Definition np_insert {A} (arr : list A) (obj : Z) (value : A) : option (list A) :=
  let len := Z.of_nat (length arr) in
  if bool_decide (obj < - len \/ len < obj) then None
  else
    let j := Z.to_nat (if bool_decide (obj < 0) then obj + len else obj) in
    Some (take j arr ++ value :: drop j arr).

(** [np.delete(arr, obj)] for a scalar [obj]: [-len <= obj < len]. *)
Definition np_delete {A} (arr : list A) (obj : Z) : option (list A) :=
  let len := Z.of_nat (length arr) in
  if bool_decide (obj < - len \/ len <= obj) then None
  else Some (delete (Z.to_nat (if bool_decide (obj < 0) then obj + len else obj)) arr).

(** [[x] * k]: empty when [k <= 0]. *)
Definition list_repeat {A} (x : A) (k : Z) : list A := replicate (Z.to_nat k) x.

(** [l.index(x)]: position of the first equal item, [ValueError] if none. *)
Fixpoint list_index `{EqDecision A} (x : A) (l : list A) : option Z :=
  match l with
  | [] => None
  | y :: l' => if decide (x = y) then Some 0 else Z.succ <$> list_index x l'
  end.

(** The range of numpy's default integer type. *)
Definition int64 (z : Z) : Prop := - 2 ^ 63 <= z < 2 ^ 63.

#[global] Instance int64_dec (z : Z) : Decision (int64 z).
Proof. unfold int64. apply _. Defined.

(** The conversion of a Python integer to an item of an [int64] array, as an
    item assignment or [np.insert] performs it: [OverflowError] outside the
    range. *)
Definition to_int64 (z : Z) : option Z :=
  if bool_decide (int64 z) then Some z else None.

(** A value that is a Python list or a one-dimensional [int64] ndarray.  The
    two differ under [+]: lists concatenate, an ndarray operand makes the sum
    element-wise with broadcasting.  They differ under item assignment too: a
    list takes any integer, an array converts it ([to_int64]).  [np.array]
    turns a list of integers of the range into such an array. *)
Inductive seq := PyList (xs : list Z) | NdArray (xs : list Z).

Definition items (s : seq) : list Z :=
  match s with PyList xs | NdArray xs => xs end.

Definition broadcast_add (a b : list Z) : option (list Z) :=
  if bool_decide (length a = length b) then Some (zip_with Z.add a b)
  else match a, b with
       | [x], _ => Some (Z.add x <$> b)
       | _, [y] => Some ((fun x => x + y) <$> a)
       | _, _ => None
       end.

(** [a + b] *)
Definition add (a b : seq) : option seq :=
  match a, b with
  | PyList xs, PyList ys => Some (PyList (xs ++ ys))
  | _, _ => NdArray <$> broadcast_add (items a) (items b)
  end.

End Py.

(** ** The random source *)

Module Random.

(** The raw draws still to come. *)
Definition rng := nat -> Z.

(** A computation that draws from the source and may raise. *)
Definition M (A : Type) : Type := rng -> option (A * rng).

Definition ret {A} (x : A) : M A := fun g => Some (x, g).

Definition bind {A B} (m : M A) (k : A -> M B) : M B :=
  fun g => match m g with Some (x, g') => k x g' | None => None end.

(** An exception-or-value of the pure fragment, inside [M]. *)
Definition lift {A} (o : option A) : M A :=
  fun g => match o with Some x => Some (x, g) | None => None end.

(** [np.random.randint(low, high)]: uniform on [low, high), [ValueError]
    when the range is empty.  numpy also refuses bounds outside its 64-bit
    range ([low < -2^63] or [high > 2^63]); that test is not part of this
    definition, and the properties that promise a draw from bounds a caller
    supplies state [high <= 2^63] among their hypotheses. *)
Definition randint (low high : Z) : M Z :=
  fun g => if bool_decide (low < high)
           then Some (low + g 0%nat `mod` (high - low), fun n => g (S n))
           else None.

(** [np.random.choice(a)] *)
Definition choice {A} (a : list A) : M A :=
  bind (randint 0 (Z.of_nat (length a))) (fun i => lift (a !! Z.to_nat i)).


(** [np.random.choice(a, size=len(a), replace=False)]: the items of [a] in a
    drawn order. *)
Fixpoint draw_all (k : nat) (pool : list Z) : M (list Z) :=
  match k with
  | O => ret []
  | S k' =>
      bind (randint 0 (Z.of_nat (length pool))) (fun i =>
      bind (lift (pool !! Z.to_nat i)) (fun x =>
      bind (draw_all k' (delete (Z.to_nat i) pool)) (fun rest =>
      ret (x :: rest))))
  end.

Definition shuffled (a : list Z) : M (list Z) := draw_all (length a) a.

(** [np.random.choice(a, size=k)]: [k] independent draws. *)
Fixpoint choices {A} (a : list A) (k : nat) : M (list A) :=
  match k with
  | O => ret []
  | S k' => bind (choice a) (fun x => bind (choices a k') (fun xs => ret (x :: xs)))
  end.

(** [np.random.rand(k)]: [k] draws from the 53-bit grid of [0, 1). *)
Fixpoint rand (k : nat) : M (list Q) :=
  match k with
  | O => ret []
  | S k' =>
      bind (randint 0 (2 ^ 53)) (fun r =>
      bind (rand k') (fun rs => ret (Qmake r (2 ^ 53) :: rs)))
  end.

(** A source that replays [l] and then yields zeros. *)
Definition replay (l : list Z) : rng := fun n => nth n l 0.

End Random.

Import Random.

#[global] Instance M_ret : MRet M := @Random.ret.
#[global] Instance M_bind : MBind M := fun A B k m => Random.bind m k.

(** ** Catalogs *)

(** [activations = [None, relu, elu, softplus, softsign, sigmoid, tanh]] *)
Inductive activation := relu | elu | softplus | softsign | sigmoid | tanh.

Definition activations : list (option activation) :=
  [None; Some relu; Some elu; Some softplus; Some softsign; Some sigmoid; Some tanh].

(** [initializations = [RandomNormal, RandomUniform, GlorotNormal, GlorotUniform]] *)
Inductive initialization := RandomNormal | RandomUniform | GlorotNormal | GlorotUniform.

Definition initializations : list (option initialization) :=
  [Some RandomNormal; Some RandomUniform; Some GlorotNormal; Some GlorotUniform].

#[global] Instance activation_eq_dec : EqDecision activation.
Proof. solve_decision. Defined.

#[global] Instance initialization_eq_dec : EqDecision initialization.
Proof. solve_decision. Defined.

(** ** ShapeArithmetic *)

(** [np.array(x[:2])] as an operand of the element-wise expression of
    [compute_output]: two items, a single item being broadcast; an empty
    operand cannot be broadcast against the filter's two sides. *)
Definition spatial (x : list Z) : option (Z * Z) :=
  match x with
  | [] => None
  | [a] => Some (a, a)
  | a :: b :: _ => Some (a, b)
  end.

(** [compute_output(input_shape, layer_type, filter_size, stride)].  The
    contractive branch yields the three-item array (side, side, channels), the
    expansive branch the two-item list of sides.  The contractive branch
    computes on [int64] arrays ([//] is the floor division), the expansive
    branch on the items as they are, Python or numpy integers: the result
    below is theirs as long as the operands, the differences, the products and
    the sums all lie in [Py.int64]. *)
Definition compute_output (input_shape : list Z) (layer_type : Z)
    (filter_size stride : list Z) : option (list Z) :=
  if bool_decide (layer_type < 3) then
    '(i0, i1) ← spatial input_shape;
    '(s0, s1) ← spatial stride;
    match filter_size with
    | f0 :: f1 :: channels :: _ =>
        let output_shape := ((i0 - f0 + 1) `div` s0, (i1 - f1 + 1) `div` s1) in
        Some [Z.max output_shape.1 1; Z.max output_shape.2 1; channels]
    | _ => None
    end
  else
    i0 ← input_shape !! 0%nat; s0 ← stride !! 0%nat; f0 ← filter_size !! 0%nat;
    i1 ← input_shape !! 1%nat; s1 ← stride !! 1%nat; f1 ← filter_size !! 1%nat;
    Some [(i0 - 1) * s0 + f0; (i1 - 1) * s1 + f1].

(** ** NetworkDescriptor: the fields and edits every genome shares *)

Module NetworkDescriptor.

(** [input_dim] and [output_dim] are declared by the families, each with the
    kind of value it stores there. *)
Record t := mk {
  number_hidden_layers : Z;
  init_functions : list (option initialization);
  act_functions : list (option activation);
  batch_norm : bool;
  dropout : bool;
  dropout_probs : list Q
}.

Definition with_number_hidden_layers (n : Z) (d : t) : t :=
  mk n (init_functions d) (act_functions d) (batch_norm d) (dropout d) (dropout_probs d).
Definition with_init_functions (v : list (option initialization)) (d : t) : t :=
  mk (number_hidden_layers d) v (act_functions d) (batch_norm d) (dropout d) (dropout_probs d).
Definition with_act_functions (v : list (option activation)) (d : t) : t :=
  mk (number_hidden_layers d) (init_functions d) v (batch_norm d) (dropout d) (dropout_probs d).
Definition with_batch_norm (v : bool) (d : t) : t :=
  mk (number_hidden_layers d) (init_functions d) (act_functions d) v (dropout d) (dropout_probs d).
Definition with_dropout (v : bool) (d : t) : t :=
  mk (number_hidden_layers d) (init_functions d) (act_functions d) (batch_norm d) v (dropout_probs d).
Definition with_dropout_probs (v : list Q) (d : t) : t :=
  mk (number_hidden_layers d) (init_functions d) (act_functions d) (batch_norm d) (dropout d) v.

(** [change_activation(layer_pos, new_act_fn)] *)
Definition change_activation (d : t) (layer_pos : Z) (new_act_fn : option activation)
    : option t :=
  if bool_decide (layer_pos < 0 \/ number_hidden_layers d < layer_pos) then Some d
  else v ← Py.setitem (act_functions d) layer_pos new_act_fn; Some (with_act_functions v d).

(** [change_weight_init(layer_pos, new_weight_fn)] *)
Definition change_weight_init (d : t) (layer_pos : Z) (new_weight_fn : option initialization)
    : option t :=
  if bool_decide (layer_pos < 0 \/ number_hidden_layers d < layer_pos) then Some d
  else v ← Py.setitem (init_functions d) layer_pos new_weight_fn; Some (with_init_functions v d).

(** [change_dropout()] *)
Definition change_dropout (d : t) : t := with_dropout (negb (dropout d)) d.

(** [change_batch_norm()] *)
Definition change_batch_norm (d : t) : t := with_batch_norm (negb (batch_norm d)) d.

(** [remove_layer(_)]: the placeholder that the families replace. *)
Definition remove_layer (d : t) (_ : Z) : option t := Some d.

(** [remove_random_layer()]; [count] and [remove] are [number_hidden_layers]
    and [remove_layer] of the class of [self]. *)
Definition remove_random_layer {D : Type} (count : D -> Z) (remove : D -> Z -> option D)
    (d : D) : M D :=
  layer_pos ← randint 0 (count d);
  lift (remove d layer_pos).

(** [change_dropout_prob()]; [np.random.rand] refuses a negative size. *)
Definition change_dropout_prob (d : t) : M t :=
  if bool_decide (number_hidden_layers d + 1 < 0) then lift None
  else
    probs ← rand (Z.to_nat (number_hidden_layers d + 1));
    mret (with_dropout_probs probs d).

End NetworkDescriptor.

(** ** MLPDescriptor *)

Module MLPDescriptor.

(** [dims] is a plain list when [random_init] builds it and an ndarray once
    [np.insert] or [np.delete] has rebuilt it. *)
Record t := mk {
  base : NetworkDescriptor.t;
  input_dim : Z;
  output_dim : Z;
  dims : Py.seq
}.

Definition number_hidden_layers (d : t) := NetworkDescriptor.number_hidden_layers (base d).
Definition init_functions (d : t) := NetworkDescriptor.init_functions (base d).
Definition act_functions (d : t) := NetworkDescriptor.act_functions (base d).
Definition dropout_probs (d : t) := NetworkDescriptor.dropout_probs (base d).

Definition with_base (b : NetworkDescriptor.t) (d : t) : t :=
  mk b (input_dim d) (output_dim d) (dims d).
Definition with_dims (v : Py.seq) (d : t) : t :=
  mk (base d) (input_dim d) (output_dim d) v.

(** A size argument of [random_init]: a number or an iterable of numbers. *)
Inductive size := Scalar (n : Z) | Shape (ns : list Z).

(** [reduce(lambda x, y: x*y, input_size)] for an iterable, the number itself
    otherwise; [reduce] raises on an empty iterable. *)
Definition flatten (sz : size) : option Z :=
  match sz with
  | Scalar n => Some n
  | Shape [] => None
  | Shape (n :: ns) => Some (foldl Z.mul n ns)
  end.

(** [[np.random.randint(4, max_layer_size) + 1 for _ in range(k)]] *)
Fixpoint draw_dims (max_layer_size : Z) (k : nat) : M (list Z) :=
  match k with
  | O => mret []
  | S k' =>
      w ← randint 4 max_layer_size;
      ws ← draw_dims max_layer_size k';
      mret (w + 1 :: ws)
  end.

(** [random_init(input_size, output_size, nlayers, max_layer_size, _, __,
    no_drop, no_batch)]; an argument left at [None] is [None]. *)
Definition random_init (d : t) (input_size output_size : option size)
    (nlayers max_layer_size : option Z) (no_drop no_batch : option bool) : M t :=
  d ← match input_size with
      | Some sz => n ← lift (flatten sz); mret (mk (base d) n (output_dim d) (dims d))
      | None => mret d
      end;
  d ← match output_size with
      | Some sz => n ← lift (flatten sz); mret (mk (base d) (input_dim d) n (dims d))
      | None => mret d
      end;
  d ← match nlayers, max_layer_size with
      | Some nlayers, Some max_layer_size =>
          r ← randint 0 nlayers;
          let n := r + 1 in
          ws ← draw_dims max_layer_size (Z.to_nat n);
          inits ← choices initializations (Z.to_nat (n + 1));
          acts ← choices activations (Z.to_nat (n + 1));
          mret (with_base
                  (NetworkDescriptor.with_act_functions acts
                    (NetworkDescriptor.with_init_functions inits
                      (NetworkDescriptor.with_number_hidden_layers n (base d))))
                  (with_dims (Py.PyList ws) d))
      | _, _ => mret d
      end;
  d ← match no_batch with
      | Some false =>
          b ← choice [true; false];
          mret (with_base (NetworkDescriptor.with_batch_norm b (base d)) d)
      | _ => mret d
      end;
  match no_drop with
  | Some false =>
      b ← choice [true; false];
      probs ← rand (Z.to_nat (number_hidden_layers d + 1));
      mret (with_base
              (NetworkDescriptor.with_dropout_probs probs
                (NetworkDescriptor.with_dropout b (base d))) d)
  | _ => mret d
  end.

(** [add_layer(layer_pos, lay_dims, init_w_function, init_a_function,
    dropout, drop_prob, batch_norm)]; the two flags are not read.
    [np.insert] converts the new width to the type of the array of widths. *)
Definition add_layer (d : t) (layer_pos lay_dims : Z)
    (init_w_function : option initialization) (init_a_function : option activation)
    (drop_prob : Q) : option t :=
  if bool_decide (layer_pos < 0 \/ number_hidden_layers d <= layer_pos) then Some d
  else
    width ← Py.to_int64 lay_dims;
    new_dims ← Py.np_insert (Py.items (dims d)) layer_pos width;
    new_init ← Py.np_insert (init_functions d) layer_pos init_w_function;
    new_act ← Py.np_insert (act_functions d) layer_pos init_a_function;
    new_probs ← Py.np_insert (dropout_probs d) layer_pos drop_prob;
    Some (with_base
            (NetworkDescriptor.with_dropout_probs new_probs
              (NetworkDescriptor.with_number_hidden_layers (number_hidden_layers d + 1)
                (NetworkDescriptor.with_act_functions new_act
                  (NetworkDescriptor.with_init_functions new_init (base d)))))
            (with_dims (Py.NdArray new_dims) d)).

(** [remove_layer(layer_pos)] *)
Definition remove_layer (d : t) (layer_pos : Z) : option t :=
  if bool_decide (layer_pos <= 1 \/ number_hidden_layers d < layer_pos) then Some d
  else
    new_dims ← Py.np_delete (Py.items (dims d)) layer_pos;
    new_init ← Py.np_delete (init_functions d) layer_pos;
    new_act ← Py.np_delete (act_functions d) layer_pos;
    new_probs ← Py.np_delete (dropout_probs d) layer_pos;
    Some (with_base
            (NetworkDescriptor.with_number_hidden_layers (number_hidden_layers d - 1)
              (NetworkDescriptor.with_dropout_probs new_probs
                (NetworkDescriptor.with_act_functions new_act
                  (NetworkDescriptor.with_init_functions new_init (base d)))))
            (with_dims (Py.NdArray new_dims) d)).

(** Inherited from [NetworkDescriptor]. *)
Definition change_activation (d : t) (layer_pos : Z) (fn : option activation) : option t :=
  b ← NetworkDescriptor.change_activation (base d) layer_pos fn; Some (with_base b d).
Definition change_weight_init (d : t) (layer_pos : Z) (fn : option initialization) : option t :=
  b ← NetworkDescriptor.change_weight_init (base d) layer_pos fn; Some (with_base b d).

(** [codify_components(max_hidden_layers, ref_list_init_functions,
    ref_list_act_functions)] *)
Definition codify_components (d : t) (max_hidden_layers : Z)
    (ref_list_init_functions : list (option initialization))
    (ref_list_act_functions : list (option activation)) : option Py.seq :=
  let max_total_layers := max_hidden_layers + 1 in
  let code := Py.PyList [number_hidden_layers d] in
  code ← Py.add code (dims d);
  code ← Py.add code
    (Py.PyList (Py.list_repeat (-1) (max_total_layers - Z.of_nat (length (Py.items (dims d))))));
  aux_f ← mapM (fun init_f => Py.list_index init_f ref_list_init_functions) (init_functions d);
  code ← Py.add code (Py.PyList aux_f);
  code ← Py.add code
    (Py.PyList (Py.list_repeat (-1) (max_total_layers - Z.of_nat (length aux_f))));
  aux_a ← mapM (fun act_f => Py.list_index act_f ref_list_act_functions) (act_functions d);
  code ← Py.add code (Py.PyList aux_a);
  Py.add code
    (Py.PyList (Py.list_repeat (-1) (max_total_layers - Z.of_nat (length aux_a)))).

(** Inherited [remove_random_layer()], which reaches [remove_layer] above. *)
Definition remove_random_layer (d : t) : M t :=
  NetworkDescriptor.remove_random_layer number_hidden_layers remove_layer d.

(** Inherited [change_dropout_prob()]. *)
Definition change_dropout_prob (d : t) : M t :=
  b ← NetworkDescriptor.change_dropout_prob (base d); mret (with_base b d).

(** [change_layer_dimension(new_dim)]: an item assignment, on the list or on
    the array that [dims] is; the array converts the new width to its type. *)
Definition change_layer_dimension (d : t) (new_dim : Z) : M t :=
  layer_pos ← randint 0 (number_hidden_layers d);
  match dims d with
  | Py.PyList xs =>
      v ← lift (Py.setitem xs layer_pos new_dim);
      mret (with_dims (Py.PyList v) d)
  | Py.NdArray xs =>
      width ← lift (Py.to_int64 new_dim);
      v ← lift (Py.setitem xs layer_pos width);
      mret (with_dims (Py.NdArray v) d)
  end.

End MLPDescriptor.

(** ** Layer parameters *)

(** The [lay_params] argument of the [add_layer] methods: stride, kernel side,
    activation and initializer ([lay_params[0]] to [lay_params[3]]). *)
Record lay_params := params {
  new_stride : Z;
  new_kernel : Z;
  new_act : option activation;
  new_init : option initialization
}.

(** ** ConvDescriptor *)

Module ConvDescriptor.

(** One item of [filters] or of [strides].  [random_init] stores the pair
    (convolution array, companion pooling array or [None]); [add_layer]
    stores the flat list [[side, side, channels]]. *)
Inductive entry :=
| Triple (v : list Z)
| Paired (conv : list Z) (pool : option (list Z)).

(** [output_dim] is the integer that [np.prod(shape)] is compared with: the
    target of a [ConvDescriptor] is taken as one number.  With a target of
    several entries, as the default of the constructor is, that comparison has
    no truth value and [random_init] raises as soon as a layer passes the two
    tests on its sides; such a target is not represented, and the properties
    of [random_init] are those of a call with a number for target. *)
Record t := mk {
  base : NetworkDescriptor.t;
  input_dim : list Z;
  output_dim : Z;
  layers : list Z;
  filters : list entry;
  strides : list entry;
  shapes : list (list Z)
}.

Definition number_hidden_layers (d : t) := NetworkDescriptor.number_hidden_layers (base d).
Definition init_functions (d : t) := NetworkDescriptor.init_functions (base d).
Definition act_functions (d : t) := NetworkDescriptor.act_functions (base d).

Definition with_base (b : NetworkDescriptor.t) (d : t) : t :=
  mk b (input_dim d) (output_dim d) (layers d) (filters d) (strides d) (shapes d).
Definition with_dims (i : list Z) (o : Z) (d : t) : t :=
  mk (base d) i o (layers d) (filters d) (strides d) (shapes d).
Definition with_layers (v : list Z) (d : t) : t :=
  mk (base d) (input_dim d) (output_dim d) v (filters d) (strides d) (shapes d).
Definition with_filters (v : list entry) (d : t) : t :=
  mk (base d) (input_dim d) (output_dim d) (layers d) v (strides d) (shapes d).
Definition with_strides (v : list entry) (d : t) : t :=
  mk (base d) (input_dim d) (output_dim d) (layers d) (filters d) v (shapes d).
Definition with_shapes (v : list (list Z)) (d : t) : t :=
  mk (base d) (input_dim d) (output_dim d) (layers d) (filters d) (strides d) v.
Definition with_number_hidden_layers (n : Z) (d : t) : t :=
  with_base (NetworkDescriptor.with_number_hidden_layers n (base d)) d.
Definition with_init_functions (v : list (option initialization)) (d : t) : t :=
  with_base (NetworkDescriptor.with_init_functions v (base d)) d.
Definition with_act_functions (v : list (option activation)) (d : t) : t :=
  with_base (NetworkDescriptor.with_act_functions v (base d)) d.

(** An item of [filters] or [strides] as the [filter_size] or [stride]
    argument of [compute_output].  Only a flat triple is one: with a pair,
    [x[:2]] is the two arrays and [x[2]] does not exist, and the call
    raises. *)
Definition operand (e : entry) : option (list Z) :=
  match e with
  | Triple v => Some v
  | Paired _ _ => None
  end.

(** The loop of [reset_shapes]: [lays] are the indices still to visit,
    [shape] the running shape, [acc] the rebuilt [self.shapes]. *)
Fixpoint reset_shapes_loop (lays : list nat) (shape : list Z) (d : t)
    (acc : list (list Z)) : option (list (list Z)) :=
  match lays with
  | [] => Some acc
  | lay :: lays' =>
      f ← filters d !! lay;
      s ← strides d !! lay;
      filter_size ← operand f;
      stride ← operand s;
      shape' ← compute_output shape 0 filter_size stride;
      reset_shapes_loop lays' shape' d (acc ++ [shape'])
  end.

(** [reset_shapes()] *)
Definition reset_shapes (d : t) : option t :=
  acc ← reset_shapes_loop (seq 0 (Z.to_nat (number_hidden_layers d))) (input_dim d) d [];
  Some (with_shapes acc d).

(** [shape[0] < 2 or shape[1] < 2 or np.prod(shape) < self.output_dim] *)
Definition too_small (shape : list Z) (d : t) : option bool :=
  h ← shape !! 0%nat;
  if bool_decide (h < 2) then Some true
  else
    w ← shape !! 1%nat;
    if bool_decide (w < 2) then Some true
    else Some (bool_decide (foldr Z.mul 1 shape < output_dim d)).

(** [np.array([randint(1, max_stride)] * 2 + [1])] and
    [np.array([randint(2, max_filter)] * 2 + [randint(3, 64.5)])]; the
    fractional bound is truncated by [randint]. *)
Definition draw_strides_filters (max_stride max_filter : Z) : M (list Z * list Z) :=
  s ← randint 1 max_stride;
  k ← randint 2 max_filter;
  c ← randint 3 64;
  mret ([s; s; 1], [k; k; c]).

(** The rejection exit of the loop of [random_init]. *)
Definition truncate (i : Z) (d : t) : t :=
  with_layers (removelast (layers d)) (with_number_hidden_layers i d).

(** The tail of an accepted iteration of the loop of [random_init]. *)
Definition accept (conv_strides conv_filters : list Z)
    (pool_strides pool_filters : option (list Z)) (shape : list Z) (d : t) : M t :=
  let d := with_strides (strides d ++ [Paired conv_strides pool_strides]) d in
  let d := with_filters (filters d ++ [Paired conv_filters pool_filters]) d in
  let d := with_shapes (shapes d ++ [shape]) d in
  init ← choice (drop 1 initializations);
  let d := with_init_functions (init_functions d ++ [init]) d in
  act ← choice activations;
  mret (with_act_functions (act_functions d ++ [act]) d).

(** The companion pooling of an iteration whose kind is not 2: the drawn
    strides and filters and the shape they lead to, or [None] when that shape
    is too small. *)
Definition companion (kind : Z) (shape : list Z) (max_stride max_filter : Z) (d : t)
    : M (option (option (list Z) * option (list Z) * list Z)) :=
  if bool_decide (kind <> 2) then
    '(pool_strides, pool_filters) ← draw_strides_filters max_stride max_filter;
    shape ← lift (compute_output shape 0 pool_filters pool_strides);
    small ← lift (too_small shape d);
    mret (if (small : bool) then None else Some (Some pool_strides, Some pool_filters, shape))
  else mret (Some (None, None, shape)).

(** The loop of [random_init]: [todo] iterations remain of the [nlayers],
    [i] layers are accepted, [shape] is the running shape. *)
Fixpoint random_init_loop (todo : nat) (i : Z) (shape : list Z)
    (max_stride max_filter : Z) (d : t) : M t :=
  match todo with
  | O => mret d
  | S todo' =>
      kind ← choice [0; 1; 2];
      let d := with_layers (layers d ++ [kind]) d in
      '(conv_strides, conv_filters) ← draw_strides_filters max_stride max_filter;
      shape ← lift (compute_output shape 0 conv_filters conv_strides);
      small ← lift (too_small shape d);
      if (small : bool) then mret (truncate i d)
      else
        pooled ← companion kind shape max_stride max_filter d;
        match pooled with
        | None => mret (truncate i d)
        | Some (pool_strides, pool_filters, shape) =>
            d ← accept conv_strides conv_filters pool_strides pool_filters shape d;
            random_init_loop todo' (i + 1) shape max_stride max_filter d
        end
  end.

(** [random_init(input_size, output_size, nlayers, _, max_stride, max_filter,
    no_drop, no_batch)]; [no_drop] is not read, [no_batch = None] is
    Python's [None]. *)
Definition random_init (d : t) (input_size : list Z) (output_size : Z)
    (nlayers max_stride max_filter : Z) (no_batch : option bool) : M t :=
  let d := with_dims input_size output_size d in
  r ← randint 0 nlayers;
  let d := with_number_hidden_layers (r + 1) d in
  let d := with_act_functions [] (with_init_functions [] d) in
  let d := with_filters [] (with_strides [] (with_layers [] d)) in
  d ← random_init_loop (Z.to_nat nlayers) 0 (input_dim d) max_stride max_filter d;
  match no_batch with
  | Some false =>
      b ← choice [true; false];
      mret (with_base (NetworkDescriptor.with_batch_norm b (base d)) d)
  | _ => mret d
  end.

(** [add_layer(layer_pos, lay_type, lay_params)], with the returned status. *)
Definition add_layer (d : t) (layer_pos lay_type : Z) (p : lay_params) : M (t * Z) :=
  let d := with_layers (Py.list_insert layer_pos lay_type (layers d)) d in
  last ← lift (Py.getitem (shapes d) (-1));
  h ← lift (last !! 0%nat);
  feasible ← (if bool_decide (h > 2) then
                w ← lift (last !! 1%nat); mret (bool_decide (w > 2))
              else mret false);
  if (feasible : bool) then
    let d := with_number_hidden_layers (number_hidden_layers d + 1) d in
    d ← (if bool_decide (lay_type < 2) then
           let d := with_filters
             (Py.list_insert layer_pos (Triple [new_kernel p; new_kernel p; 1]) (filters d)) d in
           let d := with_act_functions (Py.list_insert layer_pos None (act_functions d)) d in
           let d := with_init_functions (Py.list_insert layer_pos None (init_functions d)) d in
           mret (with_strides
             (Py.list_insert layer_pos (Triple [new_stride p; new_stride p; 1]) (strides d)) d)
         else if bool_decide (lay_type = 2) then
           let d := with_strides
             (Py.list_insert layer_pos (Triple [new_stride p; new_stride p; 1]) (strides d)) d in
           channels ← randint 0 65;
           let d := with_filters
             (Py.list_insert layer_pos (Triple [new_kernel p; new_kernel p; channels])
                (filters d)) d in
           let d := with_act_functions
             (Py.list_insert layer_pos (new_act p) (act_functions d)) d in
           mret (with_init_functions
             (Py.list_insert layer_pos (new_init p) (init_functions d)) d)
         else mret d);
    d ← lift (reset_shapes d);
    mret (d, 0)
  else mret (d, 1).

(** [remove_layer(layer_pos)] *)
Definition remove_layer (d : t) (layer_pos : Z) : option t :=
  new_filters ← Py.list_pop layer_pos (filters d);
  new_act ← Py.list_pop layer_pos (act_functions d);
  new_init ← Py.list_pop layer_pos (init_functions d);
  new_strides ← Py.list_pop layer_pos (strides d);
  let d := with_filters new_filters d in
  let d := with_act_functions new_act d in
  let d := with_init_functions new_init d in
  let d := with_strides new_strides d in
  reset_shapes (with_number_hidden_layers (number_hidden_layers d - 1) d).

(** [remove_random_layer()], with the returned status. *)
Definition remove_random_layer (d : t) : M (t * Z) :=
  if bool_decide (number_hidden_layers d > 1) then
    layer_pos ← randint 0 (Z.of_nat (length (filters d)));
    d ← lift (remove_layer d layer_pos);
    mret (d, 0)
  else mret (d, -1).

(** [x[0] = a; x[1] = a] and, for a filter, [x[2] = c], on the item at
    [layer_pos]; a pair is a tuple and cannot be assigned to. *)
Definition assign_sides (l : list entry) (layer_pos : Z) (a : Z) (c : option Z)
    : option (list entry) :=
  e ← Py.getitem l layer_pos;
  v ← operand e;
  v ← Py.setitem v 0 a;
  v ← Py.setitem v 1 a;
  v ← (match c with Some c => Py.setitem v 2 c | None => Some v end);
  Py.setitem l layer_pos (Triple v).

(** [change_filters(layer_pos, new_kernel_size, new_channel)] *)
Definition change_filters (d : t) (layer_pos new_kernel_size new_channel : Z) : option t :=
  v ← assign_sides (filters d) layer_pos new_kernel_size (Some new_channel);
  reset_shapes (with_filters v d).

(** [change_stride(layer_pos, new_stride)] *)
Definition change_stride (d : t) (layer_pos new_stride : Z) : option t :=
  v ← assign_sides (strides d) layer_pos new_stride None;
  reset_shapes (with_strides v d).

(** Inherited from [NetworkDescriptor]. *)
Definition change_activation (d : t) (layer_pos : Z) (fn : option activation) : option t :=
  b ← NetworkDescriptor.change_activation (base d) layer_pos fn; Some (with_base b d).
Definition change_weight_init (d : t) (layer_pos : Z) (fn : option initialization) : option t :=
  b ← NetworkDescriptor.change_weight_init (base d) layer_pos fn; Some (with_base b d).

End ConvDescriptor.

(** ** TConvDescriptor *)

Module TConvDescriptor.

(** Every item of [filters] and [strides] is one flat triple; an item of
    [output_shapes] is [[-1, side, side, channels]]. *)
Record t := mk {
  base : NetworkDescriptor.t;
  input_dim : list Z;
  output_dim : list Z;
  filters : list (list Z);
  strides : list (list Z);
  output_shapes : list (list Z)
}.

Definition number_hidden_layers (d : t) := NetworkDescriptor.number_hidden_layers (base d).
Definition init_functions (d : t) := NetworkDescriptor.init_functions (base d).
Definition act_functions (d : t) := NetworkDescriptor.act_functions (base d).

Definition with_base (b : NetworkDescriptor.t) (d : t) : t :=
  mk b (input_dim d) (output_dim d) (filters d) (strides d) (output_shapes d).
Definition with_dims (i o : list Z) (d : t) : t :=
  mk (base d) i o (filters d) (strides d) (output_shapes d).
Definition with_filters (v : list (list Z)) (d : t) : t :=
  mk (base d) (input_dim d) (output_dim d) v (strides d) (output_shapes d).
Definition with_strides (v : list (list Z)) (d : t) : t :=
  mk (base d) (input_dim d) (output_dim d) (filters d) v (output_shapes d).
Definition with_output_shapes (v : list (list Z)) (d : t) : t :=
  mk (base d) (input_dim d) (output_dim d) (filters d) (strides d) v.
Definition with_number_hidden_layers (n : Z) (d : t) : t :=
  with_base (NetworkDescriptor.with_number_hidden_layers n (base d)) d.
Definition with_init_functions (v : list (option initialization)) (d : t) : t :=
  with_base (NetworkDescriptor.with_init_functions v (base d)) d.
Definition with_act_functions (v : list (option activation)) (d : t) : t :=
  with_base (NetworkDescriptor.with_act_functions v (base d)) d.

(** The body of the [if] that ends the loop of [random_init]; [shape] is the
    list that [output_shapes[-1]] holds.  The last filter is the [int64]
    array that the loop has just stored, so the target's channel count is
    converted on the way in. *)
Definition finish (i : Z) (shape : list Z) (d : t) : option t :=
  channels ← output_dim d !! 2%nat;
  last ← Py.getitem (filters d) (-1);
  item ← Py.to_int64 channels;
  last ← Py.setitem last 2 item;
  new_filters ← Py.setitem (filters d) (-1) last;
  shape ← Py.setitem shape (-1) channels;
  new_shapes ← Py.setitem (output_shapes d) (-1) shape;
  Some (with_number_hidden_layers (i + 1)
          (with_output_shapes new_shapes (with_filters new_filters d))).

(** [shape[1] >= self.output_dim[0] and shape[2] >= self.output_dim[1]] *)
Definition reached (shape : list Z) (d : t) : option bool :=
  h ← shape !! 1%nat;
  t0 ← output_dim d !! 0%nat;
  if bool_decide (h >= t0) then
    w ← shape !! 2%nat;
    t1 ← output_dim d !! 1%nat;
    Some (bool_decide (w >= t1))
  else Some false.

(** The loop of [random_init]: [todo] of the 300 attempts remain, [i] is the
    loop variable, [shape] the running [[-1, side, side, channels]].  The
    flag tells whether the loop was left through [break]. *)
Fixpoint random_init_loop (todo : nat) (i : Z) (shape : list Z)
    (max_stride max_filter : Z) (d : t) : M (t * bool) :=
  match todo with
  | O => mret (d, false)
  | S todo' =>
      s ← randint 1 max_stride;
      let d := with_strides (strides d ++ [[s; s; 1]]) d in
      k ← randint 2 max_filter;
      c ← randint 3 65;
      let d := with_filters (filters d ++ [[k; k; c]]) d in
      last_filter ← lift (Py.getitem (filters d) (-1));
      last_stride ← lift (Py.getitem (strides d) (-1));
      sides ← lift (compute_output (drop 1 shape) 4 last_filter last_stride);
      channels ← lift (last_filter !! 2%nat);
      let shape := [-1] ++ sides ++ [channels] in
      let d := with_output_shapes (output_shapes d ++ [shape]) d in
      init ← choice (drop 1 initializations);
      let d := with_init_functions (init_functions d ++ [init]) d in
      act ← choice activations;
      let d := with_act_functions (act_functions d ++ [act]) d in
      enough ← lift (reached shape d);
      if (enough : bool) then d ← lift (finish i shape d); mret (d, true)
      else random_init_loop todo' (i + 1) shape max_stride max_filter d
  end.

(** [random_init(input_size, output_size, _, __, max_stride, max_filter,
    no_drop, no_batch)], returning the descriptor and, beside it, the flag of
    the loop. *)
Definition random_init (d : t) (input_size output_size : list Z)
    (max_stride max_filter : Z) (no_batch : option bool) : M (t * bool) :=
  let d := with_dims input_size output_size d in
  let d := with_filters [] (with_strides [] d) in
  let d := with_act_functions [] (with_init_functions [] d) in
  let shape := [-1] ++ input_dim d in
  '(d, broke) ← random_init_loop 300 0 shape max_stride max_filter d;
  match no_batch with
  | Some false =>
      b ← choice [true; false];
      mret (with_base (NetworkDescriptor.with_batch_norm b (base d)) d, broke)
  | _ => mret (d, broke)
  end.

(** The loop of [reset_shapes]. *)
Fixpoint reset_shapes_loop (lays : list nat) (shape : list Z) (d : t)
    (acc : list (list Z)) : option (list (list Z)) :=
  match lays with
  | [] => Some acc
  | lay :: lays' =>
      filter_size ← filters d !! lay;
      stride ← strides d !! lay;
      shape' ← compute_output shape 4 filter_size stride;
      channels ← filter_size !! 2%nat;
      reset_shapes_loop lays' shape' d (acc ++ [[-1] ++ shape' ++ [channels]])
  end.

(** [reset_shapes()] *)
Definition reset_shapes (d : t) : option t :=
  acc ← reset_shapes_loop (seq 0 (Z.to_nat (number_hidden_layers d))) (input_dim d) d [];
  Some (with_output_shapes acc d).

(** [add_layer(layer_pos, lay_params)], with the returned status. *)
Definition add_layer (d : t) (layer_pos : Z) (p : lay_params) : M (t * Z) :=
  let d := with_number_hidden_layers (number_hidden_layers d + 1) d in
  let d := with_strides
    (Py.list_insert layer_pos [new_stride p; new_stride p; 1] (strides d)) d in
  channels ← randint 0 65;
  let d := with_filters
    (Py.list_insert layer_pos [new_kernel p; new_kernel p; channels] (filters d)) d in
  let d := with_act_functions (Py.list_insert layer_pos (new_act p) (act_functions d)) d in
  let d := with_init_functions (Py.list_insert layer_pos (new_init p) (init_functions d)) d in
  d ← lift (reset_shapes d);
  mret (d, 0).

(** [remove_layer(layer_pos)] *)
Definition remove_layer (d : t) (layer_pos : Z) : option t :=
  new_filters ← Py.list_pop layer_pos (filters d);
  new_act ← Py.list_pop layer_pos (act_functions d);
  new_init ← Py.list_pop layer_pos (init_functions d);
  new_strides ← Py.list_pop layer_pos (strides d);
  let d := with_filters new_filters d in
  let d := with_act_functions new_act d in
  let d := with_init_functions new_init d in
  let d := with_strides new_strides d in
  reset_shapes (with_number_hidden_layers (number_hidden_layers d - 1) d).

(** The test of [remove_random_layer] on one index:
    [self.number_hidden_layers > 1 and (self.output_shapes[-1][1] - 1) /
    self.strides[layer_pos][0] - self.filters[layer_pos][0] >
    self.output_dim[0]].  The cached side is a numpy integer (the arrays
    that [random_init] stores make the sides of the cache so), hence the
    division is numpy's: by a zero stride it warns and gives [inf], [-inf] or
    [nan] by the sign of the dividend, of which only [inf] passes the test.
    Otherwise the quotient is taken on exact rationals, with which the
    floating-point test agrees for entries below [2^26] in absolute value. *)
Definition deletable (d : t) (layer_pos : Z) : option bool :=
  if bool_decide (number_hidden_layers d > 1) then
    last ← Py.getitem (output_shapes d) (-1);
    h ← last !! 1%nat;
    stride ← Py.getitem (strides d) layer_pos;
    s ← stride !! 0%nat;
    filter_size ← Py.getitem (filters d) layer_pos;
    f ← filter_size !! 0%nat;
    target ← output_dim d !! 0%nat;
    Some (if bool_decide (s = 0) then bool_decide (0 < h - 1)
          else negb (Qle_bool (Qminus (Qdiv (inject_Z (h - 1)) (inject_Z s)) (inject_Z f))
                              (inject_Z target)))
  else Some false.

(** The [for] of [remove_random_layer] over the drawn order. *)
Fixpoint remove_first_deletable (d : t) (order : list Z) : option (t * Z) :=
  match order with
  | [] => Some (d, -1)
  | layer_pos :: order' =>
      ok ← deletable d layer_pos;
      if (ok : bool) then d' ← remove_layer d layer_pos; Some (d', 0)
      else remove_first_deletable d order'
  end.

(** [remove_random_layer()], with the returned status. *)
Definition remove_random_layer (d : t) : M (t * Z) :=
  order ← shuffled (Z.of_nat <$> seq 0 (length (filters d)));
  lift (remove_first_deletable d order).

(** [change_activation(layer_pos, new_act_fn)], overriding the inherited
    method. *)
Definition change_activation (d : t) (layer_pos : Z) (new_act_fn : option activation)
    : option t :=
  v ← Py.setitem (act_functions d) layer_pos new_act_fn; Some (with_act_functions v d).

(** [change_weight_init(layer_pos, new_weight_fn)], overriding the inherited
    method. *)
Definition change_weight_init (d : t) (layer_pos : Z)
    (new_weight_fn : option initialization) : option t :=
  v ← Py.setitem (init_functions d) layer_pos new_weight_fn; Some (with_init_functions v d).

(** [x[0] = a; x[1] = a] and, for a filter, [x[2] = c], on the item at
    [layer_pos].  An item is the [int64] array that [random_init] stored or
    the Python list that [add_layer] inserted; the record does not keep which,
    so the conversion that an array applies to the new values is left out
    here and the properties of the two callers take the new values in
    [Py.int64], which both kinds of item accept. *)
Definition assign_sides (l : list (list Z)) (layer_pos : Z) (a : Z) (c : option Z)
    : option (list (list Z)) :=
  v ← Py.getitem l layer_pos;
  v ← Py.setitem v 0 a;
  v ← Py.setitem v 1 a;
  v ← (match c with Some c => Py.setitem v 2 c | None => Some v end);
  Py.setitem l layer_pos v.

(** [change_filters(layer_pos, new_kernel_size, new_channel)] *)
Definition change_filters (d : t) (layer_pos new_kernel_size new_channel : Z) : option t :=
  v ← assign_sides (filters d) layer_pos new_kernel_size (Some new_channel);
  reset_shapes (with_filters v d).

(** [change_stride(layer_pos, new_stride)] *)
Definition change_stride (d : t) (layer_pos new_stride : Z) : option t :=
  v ← assign_sides (strides d) layer_pos new_stride None;
  reset_shapes (with_strides v d).

End TConvDescriptor.

(** ** Network: the models built from the descriptors *)

(** The Keras layers that the [building] methods ask for, with the arguments
    they pass ([padding] is always ["valid"]).  Keras is taken as the recorder
    of these requests: a tensor is the sequence of layers applied to the
    network input so far.  What Keras itself refuses is left aside: its
    constructors check their arguments (a [Dense] wants a positive Python
    integer for its units, which the [numpy.int64] items are not that [dims]
    holds once [add_layer] or [remove_layer] has rebuilt it as an array; a
    [Dropout] wants a rate within [0, 1]), so a result of [building] below
    says which layers the code asks for, in which order, and that the code
    itself does not raise before or between the requests. *)
Inductive layer :=
| Dense (units : Z) (activation : option activation)
    (kernel_initializer : option initialization)
| Dropout (rate : Q)
| BatchNormalization
| Conv2D (channels : Z) (kernel_size strides : Z * Z) (activation : option activation)
    (kernel_initializer : option initialization)
| AveragePooling2D (pool_size strides : Z * Z)
| MaxPooling2D (pool_size strides : Z * Z)
| Conv2DTranspose (channels : Z) (kernel_size strides : Z * Z)
    (activation : option activation) (kernel_initializer : option initialization).

Definition tensor := list layer.

Module MLP.

(** The loop of [building] over the hidden layers. *)
Fixpoint hidden (lays : list nat) (d : MLPDescriptor.t) (x : tensor) : option tensor :=
  match lays with
  | [] => Some x
  | lay_indx :: lays' =>
      units ← Py.items (MLPDescriptor.dims d) !! lay_indx;
      act ← MLPDescriptor.act_functions d !! lay_indx;
      init ← MLPDescriptor.init_functions d !! lay_indx;
      let x := x ++ [Dense units act init] in
      x ← (if NetworkDescriptor.dropout (MLPDescriptor.base d) then
             rate ← MLPDescriptor.dropout_probs d !! lay_indx; Some (x ++ [Dropout rate])
           else Some x);
      let x := if NetworkDescriptor.batch_norm (MLPDescriptor.base d)
               then x ++ [BatchNormalization] else x in
      hidden lays' d x
  end.

(** [building(x)].  After the loop [lay_indx] is its last value,
    [number_hidden_layers - 1], and is unbound when the loop had no turn. *)
Definition building (d : MLPDescriptor.t) (x : tensor) : option tensor :=
  let n := MLPDescriptor.number_hidden_layers d in
  x ← hidden (seq 0 (Z.to_nat n)) d x;
  act ← Py.getitem (MLPDescriptor.act_functions d) n;
  init ← Py.getitem (MLPDescriptor.init_functions d) n;
  let x := x ++ [Dense (MLPDescriptor.output_dim d) act init] in
  x ← (if NetworkDescriptor.dropout (MLPDescriptor.base d) then
         if bool_decide (1 <= n) then
           rate ← Py.getitem (MLPDescriptor.dropout_probs d) (n - 1); Some (x ++ [Dropout rate])
         else None
       else Some x);
  Some (if NetworkDescriptor.batch_norm (MLPDescriptor.base d)
        then x ++ [BatchNormalization] else x).

End MLP.

Module CNN.

(** [x[0]] for an item [x] of [filters] or [strides]: the convolution array
    of a pair; of a flat triple it is a number, which the subscripts that
    follow cannot index. *)
Definition primary (e : ConvDescriptor.entry) : option (list Z) :=
  match e with
  | ConvDescriptor.Paired conv _ => Some conv
  | ConvDescriptor.Triple _ => None
  end.

(** [x[1]]: the companion array of a pair, [None] making the subscripts that
    follow raise. *)
Definition secondary (e : ConvDescriptor.entry) : option (list Z) :=
  match e with
  | ConvDescriptor.Paired _ pool => pool
  | ConvDescriptor.Triple _ => None
  end.

(** The pooling layer that follows the convolution of layer [lay_indx]. *)
Definition pooling (d : ConvDescriptor.t) (lay_indx : nat) (x : tensor) : option tensor :=
  kind ← ConvDescriptor.layers d !! lay_indx;
  if bool_decide (kind = 0 \/ kind = 1) then
    f ← ConvDescriptor.filters d !! lay_indx;
    pf ← secondary f;
    p0 ← pf !! 0%nat;
    p1 ← pf !! 1%nat;
    s ← ConvDescriptor.strides d !! lay_indx;
    ps ← secondary s;
    s0 ← ps !! 0%nat;
    s1 ← ps !! 1%nat;
    Some (x ++ [if bool_decide (kind = 0) then AveragePooling2D (p0, p1) (s0, s1)
                else MaxPooling2D (p0, p1) (s0, s1)])
  else Some x.

(** The loop of [building]. *)
Fixpoint convolutions (lays : list nat) (d : ConvDescriptor.t) (x : tensor) : option tensor :=
  match lays with
  | [] => Some x
  | lay_indx :: lays' =>
      f ← ConvDescriptor.filters d !! lay_indx;
      cf ← primary f;
      channels ← cf !! 2%nat;
      k0 ← cf !! 0%nat;
      k1 ← cf !! 1%nat;
      s ← ConvDescriptor.strides d !! lay_indx;
      cs ← primary s;
      s0 ← cs !! 0%nat;
      s1 ← cs !! 1%nat;
      act ← ConvDescriptor.act_functions d !! lay_indx;
      init ← ConvDescriptor.init_functions d !! lay_indx;
      let x := x ++ [Conv2D channels (k0, k1) (s0, s1) act init] in
      let x := if NetworkDescriptor.batch_norm (ConvDescriptor.base d)
               then x ++ [BatchNormalization] else x in
      x ← pooling d lay_indx x;
      convolutions lays' d x
  end.

(** [building(x)] *)
Definition building (d : ConvDescriptor.t) (x : tensor) : option tensor :=
  convolutions (seq 0 (Z.to_nat (ConvDescriptor.number_hidden_layers d))) d x.

End CNN.

Module TCNN.

(** The loop of [building]. *)
Fixpoint transposed (lays : list nat) (d : TConvDescriptor.t) (x : tensor) : option tensor :=
  match lays with
  | [] => Some x
  | lay_indx :: lays' =>
      f ← TConvDescriptor.filters d !! lay_indx;
      channels ← f !! 2%nat;
      k0 ← f !! 0%nat;
      k1 ← f !! 1%nat;
      s ← TConvDescriptor.strides d !! lay_indx;
      s0 ← s !! 0%nat;
      s1 ← s !! 1%nat;
      act ← TConvDescriptor.act_functions d !! lay_indx;
      init ← TConvDescriptor.init_functions d !! lay_indx;
      transposed lays' d (x ++ [Conv2DTranspose channels (k0, k1) (s0, s1) act init])
  end.

(** [building(x)] *)
Definition building (d : TConvDescriptor.t) (x : tensor) : option tensor :=
  transposed (seq 0 (Z.to_nat (TConvDescriptor.number_hidden_layers d))) d x.

End TCNN.

(** * Vocabulary of the properties *)

(** [q] is the floor of the quotient of [a] by the positive [s]. *)
Definition is_floor (q a s : Z) : Prop := s * q <= a < s * (q + 1).

(** A [TConvDescriptor] whose sequences cover its layer count and hold
    triples, over an input shape with two sides. *)
Definition tconv_consistent (d : TConvDescriptor.t) : Prop :=
  (Z.to_nat (TConvDescriptor.number_hidden_layers d) <= length (TConvDescriptor.filters d))%nat /\
  (Z.to_nat (TConvDescriptor.number_hidden_layers d) <= length (TConvDescriptor.strides d))%nat /\
  Forall (fun f => (3 <= length f)%nat) (TConvDescriptor.filters d) /\
  Forall (fun s => (2 <= length s)%nat) (TConvDescriptor.strides d) /\
  (2 <= length (TConvDescriptor.input_dim d))%nat.

(** A [TConvDescriptor] with its four parallel sequences as long as its layer
    count, no zero stride, and a cache whose last shape has its sides. *)
Definition tconv_cached (d : TConvDescriptor.t) : Prop :=
  TConvDescriptor.number_hidden_layers d = Z.of_nat (length (TConvDescriptor.filters d)) /\
  length (TConvDescriptor.strides d) = length (TConvDescriptor.filters d) /\
  length (TConvDescriptor.act_functions d) = length (TConvDescriptor.filters d) /\
  length (TConvDescriptor.init_functions d) = length (TConvDescriptor.filters d) /\
  Forall (fun f => (3 <= length f)%nat) (TConvDescriptor.filters d) /\
  Forall (fun s => (2 <= length s)%nat /\ s !! 0%nat <> Some 0) (TConvDescriptor.strides d) /\
  (2 <= length (TConvDescriptor.input_dim d))%nat /\
  (1 <= length (TConvDescriptor.output_dim d))%nat /\
  exists last, Py.getitem (TConvDescriptor.output_shapes d) (-1) = Some last /\
               (2 <= length last)%nat.

(** An item of [filters] (three items at least) or of [strides] (one item at
    least) in the flat layout of [ConvDescriptor.add_layer]. *)
Definition flat_entry (k : nat) (e : ConvDescriptor.entry) : Prop :=
  exists v, e = ConvDescriptor.Triple v /\ (k <= length v)%nat.

(** An item in the paired layout of [ConvDescriptor.random_init]. *)
Definition paired_entry (e : ConvDescriptor.entry) : Prop :=
  exists conv pool, e = ConvDescriptor.Paired conv pool.

(** A [ConvDescriptor] in the flat layout, its four parallel sequences as long
    as its layer count. *)
Definition conv_flat (d : ConvDescriptor.t) : Prop :=
  ConvDescriptor.number_hidden_layers d = Z.of_nat (length (ConvDescriptor.filters d)) /\
  length (ConvDescriptor.strides d) = length (ConvDescriptor.filters d) /\
  length (ConvDescriptor.act_functions d) = length (ConvDescriptor.filters d) /\
  length (ConvDescriptor.init_functions d) = length (ConvDescriptor.filters d) /\
  Forall (flat_entry 3) (ConvDescriptor.filters d) /\
  Forall (flat_entry 1) (ConvDescriptor.strides d) /\
  (1 <= length (ConvDescriptor.input_dim d))%nat.

(** An [MLPDescriptor] as [random_init] shapes it: [dims] a plain list with
    one width per hidden layer, one initializer and one activation more. *)
Definition mlp_listed (d : MLPDescriptor.t) : Prop :=
  exists widths,
    MLPDescriptor.dims d = Py.PyList widths /\
    Z.of_nat (length widths) = MLPDescriptor.number_hidden_layers d /\
    Z.of_nat (length (MLPDescriptor.init_functions d)) = MLPDescriptor.number_hidden_layers d + 1 /\
    Z.of_nat (length (MLPDescriptor.act_functions d)) = MLPDescriptor.number_hidden_layers d + 1.

(** An [MLPDescriptor] whose widths, initializers and activations run in step
    with its layer count, [dims] being a list or an array: one width per
    hidden layer, one initializer and one activation more for the output
    layer. *)
Definition mlp_in_step (d : MLPDescriptor.t) : Prop :=
  Z.of_nat (length (Py.items (MLPDescriptor.dims d))) = MLPDescriptor.number_hidden_layers d /\
  Z.of_nat (length (MLPDescriptor.init_functions d)) = MLPDescriptor.number_hidden_layers d + 1 /\
  Z.of_nat (length (MLPDescriptor.act_functions d)) = MLPDescriptor.number_hidden_layers d + 1.

(** The same with one dropout rate per layer, the output layer included. *)
Definition mlp_aligned (d : MLPDescriptor.t) : Prop :=
  mlp_in_step d /\
  Z.of_nat (length (MLPDescriptor.dropout_probs d)) = MLPDescriptor.number_hidden_layers d + 1.

(** The arguments of a requested [Dense] layer, the rate of a requested
    [Dropout], a requested [BatchNormalization]. *)
Definition dense_of (l : layer) : option (Z * option activation * option initialization) :=
  match l with Dense units act init => Some (units, act, init) | _ => None end.

Definition rate_of (l : layer) : option Q :=
  match l with Dropout rate => Some rate | _ => None end.

Definition norm_of (l : layer) : option unit :=
  match l with BatchNormalization => Some () | _ => None end.

(** A shape that [ConvDescriptor.random_init] accepts: both sides at 2 or
    more and a volume of [out] or more. *)
Definition roomy (out : Z) (shape : list Z) : Prop :=
  exists h w c, shape = [h; w; c] /\ 2 <= h /\ 2 <= w /\ out <= h * w * c.

(** The items that [ConvDescriptor.random_init] stores for one layer: a kind
    among 0, 1 and 2, the pair of the convolution filter [[side, side,
    channels]] and of its stride [[stride, stride, 1]] with the arrays of the
    pooling companion, which are there exactly when the kind is not 2. *)
Definition drawn_layer (kind : Z) (f s : ConvDescriptor.entry) : Prop :=
  0 <= kind <= 2 /\
  exists k c st pf ps,
    f = ConvDescriptor.Paired [k; k; c] pf /\
    s = ConvDescriptor.Paired [st; st; 1] ps /\
    2 <= k /\ 1 <= st /\ 3 <= c < 64 /\
    if bool_decide (kind = 2) then pf = None /\ ps = None
    else exists k' c' st',
      pf = Some [k'; k'; c'] /\ ps = Some [st'; st'; 1] /\ 2 <= k' /\ 1 <= st'.

(** The arguments of a requested [Conv2D] layer; the kind, 0 or 1, of a
    requested pooling layer. *)
Definition conv_of (l : layer)
    : option (Z * (Z * Z) * (Z * Z) * option activation * option initialization) :=
  match l with
  | Conv2D channels kernel_size strides act init =>
      Some (channels, kernel_size, strides, act, init)
  | _ => None
  end.

Definition pool_of (l : layer) : option Z :=
  match l with
  | AveragePooling2D _ _ => Some 0
  | MaxPooling2D _ _ => Some 1
  | _ => None
  end.

(** The largest side that [n] attempts of [TConvDescriptor.random_init] can
    make of [side]: one attempt makes [(side - 1) * stride + kernel] of it,
    with [stride < max_stride] and [kernel < max_filter]. *)
Fixpoint furthest (max_stride max_filter : Z) (n : nat) (side : Z) : Z :=
  match n with
  | O => side
  | S n' =>
      furthest max_stride max_filter n' ((side - 1) * (max_stride - 1) + (max_filter - 1))
  end.

(** ** Sample descriptors *)

(** A [ConvDescriptor] before [random_init]: the shape cache is the empty
    list of the constructor; [random_init] overwrites the other fields that
    the operations read. *)
Definition conv_blank : ConvDescriptor.t :=
  ConvDescriptor.mk (NetworkDescriptor.mk 2 [] [] false false []) [28; 28; 3] 49 [] [] [] [].

(** [random_init((3, 3, 1), 1, 1, _, 2, 3, ...)] drawing a convolution without
    companion: one accepted layer, cached shape (2, 2, 3). *)
Definition conv_small : option (ConvDescriptor.t * rng) :=
  ConvDescriptor.random_init conv_blank [3; 3; 1] 1 1 2 3 None (replay [0; 2]).

(** [random_init((28, 28, 3), 10, 1, _, 2, 3, ...)] with every draw at the
    bottom of its range: one accepted layer with an average-pooling
    companion. *)
Definition conv_one : option (ConvDescriptor.t * rng) :=
  ConvDescriptor.random_init conv_blank [28; 28; 3] 10 1 2 3 None (replay []).

(** The same call with [nlayers = 2] and a first draw of 0: the layer count
    is set to 1 and two layers are accepted. *)
Definition conv_two_count_one : option (ConvDescriptor.t * rng) :=
  ConvDescriptor.random_init conv_blank [28; 28; 3] 10 2 2 3 None (replay []).

(** The same call with a first draw of 1: the layer count is set to 2 and two
    layers are accepted. *)
Definition conv_two : option (ConvDescriptor.t * rng) :=
  ConvDescriptor.random_init conv_blank [28; 28; 3] 10 2 2 3 None (replay [1]).

(** A [ConvDescriptor] in the flat layout: two convolutions over (28, 28, 3). *)
Definition conv_flat_two : ConvDescriptor.t :=
  ConvDescriptor.mk
    (NetworkDescriptor.mk 2 [Some GlorotNormal; Some GlorotUniform] [Some relu; None]
       false false [])
    [28; 28; 3] 49 [2; 2]
    [ConvDescriptor.Triple [3; 3; 8]; ConvDescriptor.Triple [3; 3; 16]]
    [ConvDescriptor.Triple [1; 1; 1]; ConvDescriptor.Triple [2; 2; 1]]
    [[26; 26; 8]; [12; 12; 16]].

(** An [MLPDescriptor] before [random_init]; [dims] and the two sequences of
    choices, unset by the constructor, are empty. *)
Definition mlp_blank : MLPDescriptor.t :=
  MLPDescriptor.mk (NetworkDescriptor.mk 1 [] [] false false []) 1 1 (Py.PyList []).

(** [random_init((28, 28), 10, 3, 20, _, _, False, False)] with a first draw
    of 1: two hidden layers of widths 8 and 12, dropout rates drawn. *)
Definition mlp_drawn : option (MLPDescriptor.t * rng) :=
  MLPDescriptor.random_init mlp_blank (Some (MLPDescriptor.Shape [28; 28]))
    (Some (MLPDescriptor.Scalar 10)) (Some 3) (Some 20) (Some false) (Some false)
    (replay [1; 3; 7; 0; 2; 1; 1; 0; 6; 0; 1; 2 ^ 52; 2 ^ 51; 3 * 2 ^ 51]).

(** An [MLPDescriptor] with two hidden layers. *)
Definition mlp_two : MLPDescriptor.t :=
  MLPDescriptor.mk
    (NetworkDescriptor.mk 2 [Some RandomNormal; Some GlorotNormal; Some RandomUniform]
       [Some relu; None; Some tanh] false false [1 # 2; 1 # 4; 3 # 4])
    784 10 (Py.PyList [5; 6]).

(** An [MLPDescriptor] with four hidden layers. *)
Definition mlp_four : MLPDescriptor.t :=
  MLPDescriptor.mk
    (NetworkDescriptor.mk 4
       [Some RandomNormal; Some GlorotNormal; Some RandomUniform; Some GlorotUniform;
        Some RandomNormal]
       [Some relu; None; Some tanh; Some elu; None] false false
       [1 # 2; 1 # 4; 3 # 4; 1 # 8; 1 # 3])
    784 10 (Py.PyList [5; 6; 7; 8]).

(** A [TConvDescriptor] before [random_init]. *)
Definition tconv_blank : TConvDescriptor.t :=
  TConvDescriptor.mk (NetworkDescriptor.mk 2 [] [] false false []) [7; 7; 50] [28; 28; 3] [] [] [].

(** A [TConvDescriptor] with two layers of stride 2 and kernel side 3, taking
    (7, 7, 50) to (31, 31, 3). *)
Definition tconv_two : TConvDescriptor.t :=
  TConvDescriptor.mk
    (NetworkDescriptor.mk 2 [Some GlorotNormal; Some GlorotUniform] [None; Some relu]
       false false [])
    [7; 7; 50] [28; 28; 3]
    [[3; 3; 16]; [3; 3; 3]] [[2; 2; 1]; [2; 2; 1]]
    [[-1; 15; 15; 16]; [-1; 31; 31; 3]].

(** The parameters of a convolution of stride 1 and kernel side 3. *)
Definition sample_params : lay_params := params 1 3 (Some relu) (Some GlorotUniform).

(** * Properties *)

(** Field access through the record updates. *)
Ltac base_fields :=
  unfold NetworkDescriptor.with_number_hidden_layers, NetworkDescriptor.with_init_functions,
    NetworkDescriptor.with_act_functions, NetworkDescriptor.with_batch_norm,
    NetworkDescriptor.with_dropout, NetworkDescriptor.with_dropout_probs in *;
  cbn [NetworkDescriptor.number_hidden_layers NetworkDescriptor.init_functions
       NetworkDescriptor.act_functions NetworkDescriptor.batch_norm
       NetworkDescriptor.dropout NetworkDescriptor.dropout_probs] in *.

Ltac mlp_fields :=
  unfold MLPDescriptor.number_hidden_layers, MLPDescriptor.init_functions,
    MLPDescriptor.act_functions, MLPDescriptor.dropout_probs,
    MLPDescriptor.with_base, MLPDescriptor.with_dims in *;
  cbn [MLPDescriptor.base MLPDescriptor.input_dim MLPDescriptor.output_dim
       MLPDescriptor.dims] in *;
  base_fields.

Ltac conv_fields :=
  unfold ConvDescriptor.number_hidden_layers, ConvDescriptor.init_functions,
    ConvDescriptor.act_functions, ConvDescriptor.with_number_hidden_layers,
    ConvDescriptor.with_init_functions, ConvDescriptor.with_act_functions,
    ConvDescriptor.with_base, ConvDescriptor.with_dims, ConvDescriptor.with_layers,
    ConvDescriptor.with_filters, ConvDescriptor.with_strides, ConvDescriptor.with_shapes in *;
  cbn [ConvDescriptor.base ConvDescriptor.input_dim ConvDescriptor.output_dim
       ConvDescriptor.layers ConvDescriptor.filters ConvDescriptor.strides
       ConvDescriptor.shapes] in *;
  base_fields.

Ltac tconv_fields :=
  unfold TConvDescriptor.number_hidden_layers, TConvDescriptor.init_functions,
    TConvDescriptor.act_functions, TConvDescriptor.with_number_hidden_layers,
    TConvDescriptor.with_init_functions, TConvDescriptor.with_act_functions,
    TConvDescriptor.with_base, TConvDescriptor.with_dims, TConvDescriptor.with_filters,
    TConvDescriptor.with_strides, TConvDescriptor.with_output_shapes in *;
  cbn [TConvDescriptor.base TConvDescriptor.input_dim TConvDescriptor.output_dim
       TConvDescriptor.filters TConvDescriptor.strides TConvDescriptor.output_shapes] in *;
  base_fields.

(** A hypothesis that lists [Py.int64] numbers, as bounds on each. *)
Ltac open_int64 H :=
  repeat (apply Forall_cons_1 in H as [? H]); clear H; unfold Py.int64 in *.

(** Goals that ask for concrete numbers to lie in [Py.int64]. *)
Ltac solve_int64 :=
  repeat first [apply Forall_nil_2 | apply Forall_cons_2];
  unfold Py.int64; lia.

(** ** Sequence primitives *)

Section py_lemmas.
Context {A : Type}.
Implicit Types (l : list A) (x : A) (i : Z).

Lemma subscript_inside (len : nat) i :
  0 <= i < Z.of_nat len -> Py.subscript len i = Some (Z.to_nat i).
Proof. intros H. unfold Py.subscript. by rewrite bool_decide_eq_true_2. Qed.

Lemma subscript_last (len : nat) : Py.subscript (S len) (-1) = Some len.
Proof.
  unfold Py.subscript.
  rewrite bool_decide_eq_false_2 by lia.
  rewrite bool_decide_eq_true_2 by lia.
  f_equal. lia.
Qed.

Lemma subscript_outside (len : nat) i :
  i < - Z.of_nat len \/ Z.of_nat len <= i -> Py.subscript len i = None.
Proof.
  intros H. unfold Py.subscript.
  rewrite !bool_decide_eq_false_2 by lia. done.
Qed.

Lemma getitem_last l x : Py.getitem (l ++ [x]) (-1) = Some x.
Proof.
  unfold Py.getitem. rewrite length_app, Nat.add_1_r, subscript_last. simpl.
  by rewrite lookup_app_r, Nat.sub_diag.
Qed.

Lemma setitem_last l x y : Py.setitem (l ++ [x]) (-1) y = Some (l ++ [y]).
Proof.
  unfold Py.setitem. rewrite length_app, Nat.add_1_r, subscript_last. simpl.
  f_equal. rewrite insert_app_r_alt, Nat.sub_diag by lia. done.
Qed.

Lemma setitem_inside l i x :
  0 <= i < Z.of_nat (length l) -> Py.setitem l i x = Some (<[Z.to_nat i := x]> l).
Proof. intros H. unfold Py.setitem. by rewrite subscript_inside. Qed.

Lemma list_insert_inside l i x :
  0 <= i <= Z.of_nat (length l) ->
  Py.list_insert i x l = take (Z.to_nat i) l ++ x :: drop (Z.to_nat i) l.
Proof.
  intros H. unfold Py.list_insert.
  rewrite bool_decide_eq_false_2 by lia.
  by rewrite Z.min_l by lia.
Qed.

Lemma length_list_insert l i x : length (Py.list_insert i x l) = S (length l).
Proof.
  unfold Py.list_insert. rewrite length_app. simpl.
  rewrite length_take, length_drop. lia.
Qed.

Lemma delete_middle (j : nat) l x :
  (j <= length l)%nat -> delete j (take j l ++ x :: drop j l) = l.
Proof.
  intros H. rewrite delete_take_drop.
  rewrite take_app_length' by (rewrite length_take; lia).
  rewrite cons_middle, app_assoc, drop_app_length'
    by (rewrite length_app, length_take; simpl; lia).
  apply take_drop.
Qed.

(** [l.insert(i, x)] followed by [l.pop(i)] gives [l] back for a position
    inside the list or at its end. *)
Lemma list_pop_insert l i x :
  0 <= i <= Z.of_nat (length l) -> Py.list_pop i (Py.list_insert i x l) = Some l.
Proof.
  intros H. unfold Py.list_pop.
  rewrite length_list_insert, subscript_inside by lia. simpl.
  rewrite list_insert_inside by done.
  f_equal. apply delete_middle. lia.
Qed.

Lemma np_insert_inside l i x :
  0 <= i <= Z.of_nat (length l) ->
  Py.np_insert l i x = Some (take (Z.to_nat i) l ++ x :: drop (Z.to_nat i) l).
Proof.
  intros H. unfold Py.np_insert.
  by rewrite !bool_decide_eq_false_2 by lia.
Qed.

(** [np.insert] followed by [np.delete] at the same position. *)
Lemma np_delete_insert l l' i x :
  0 <= i -> Py.np_insert l i x = Some l' -> Py.np_delete l' i = Some l.
Proof.
  intros Hi. unfold Py.np_insert, Py.np_delete.
  case_bool_decide as Hr; [done|]. intros [= <-].
  rewrite (bool_decide_eq_false_2 (i < 0)) by lia.
  rewrite length_app. simpl. rewrite length_take, length_drop.
  rewrite bool_decide_eq_false_2 by lia.
  f_equal. apply delete_middle. lia.
Qed.

Lemma Forall_list_insert (P : A -> Prop) l i x :
  P x -> Forall P l -> Forall P (Py.list_insert i x l).
Proof.
  intros Hx Hl. unfold Py.list_insert.
  apply Forall_app. split; [by apply Forall_take|].
  constructor; [done | by apply Forall_drop].
Qed.

End py_lemmas.

Lemma to_int64_inside (z : Z) : Py.int64 z -> Py.to_int64 z = Some z.
Proof. intros H. unfold Py.to_int64. by rewrite bool_decide_eq_true_2. Qed.

Lemma to_int64_outside (z : Z) : ~ Py.int64 z -> Py.to_int64 z = None.
Proof. intros H. unfold Py.to_int64. by rewrite bool_decide_eq_false_2. Qed.

Lemma to_int64_Some (z v : Z) : Py.to_int64 z = Some v -> v = z /\ Py.int64 z.
Proof. unfold Py.to_int64. case_bool_decide; [|done]. by intros [= <-]. Qed.

(** ** ShapeArithmetic *)

Lemma div_is_floor a s : 0 < s -> is_floor (a `div` s) a s.
Proof.
  intros Hs. unfold is_floor.
  pose proof (Z.div_mod a s ltac:(lia)).
  pose proof (Z.mod_pos_bound a s Hs). lia.
Qed.

(** C6.  For shapes, filters and strides that are [int64] integers, with
    positive strides.  The contractive kinds (below 3) give in each spatial
    dimension the larger of 1 and the floor of (input - filter + 1) / stride,
    and the filter's channel parameter as channel count, whenever the
    differences the code forms lie in [int64]; the result then does too.  The
    expansive kind gives (input - 1) * stride + filter whenever the products
    and sums the code forms lie in [int64].  With stride 1 and filter side 1
    either kind returns the sides of a shape of positive sides unchanged. *)
Theorem compute_output_formulas
    (h w : Z) (rest : list Z) (f0 f1 c : Z) (frest : list Z) (s0 s1 : Z) (srest : list Z)
    (kind : Z) :
  0 < s0 -> 0 < s1 ->
  Forall Py.int64 [h; w; f0; f1; c; s0; s1] ->
  (kind < 3 ->
     Forall Py.int64 [h - f0; h - f0 + 1; w - f1; w - f1 + 1] ->
     exists q0 q1,
       is_floor q0 (h - f0 + 1) s0 /\ is_floor q1 (w - f1 + 1) s1 /\
       compute_output (h :: w :: rest) kind (f0 :: f1 :: c :: frest) (s0 :: s1 :: srest)
       = Some [Z.max 1 q0; Z.max 1 q1; c] /\
       Forall Py.int64 [Z.max 1 q0; Z.max 1 q1; c]) /\
  (3 <= kind ->
     Forall Py.int64 [h - 1; (h - 1) * s0; (h - 1) * s0 + f0;
                      w - 1; (w - 1) * s1; (w - 1) * s1 + f1] ->
     compute_output (h :: w :: rest) kind (f0 :: f1 :: c :: frest) (s0 :: s1 :: srest)
     = Some [(h - 1) * s0 + f0; (w - 1) * s1 + f1]) /\
  (0 < h -> 0 < w ->
     compute_output (h :: w :: rest) kind (1 :: 1 :: c :: frest) (1 :: 1 :: srest)
     = Some (if bool_decide (kind < 3) then [h; w; c] else [h; w])).
Proof.
  intros Hs0 Hs1 Hin. unfold compute_output. split; [|split].
  - intros Hk Hmid. rewrite bool_decide_eq_true_2 by done. simpl.
    exists ((h - f0 + 1) `div` s0), ((w - f1 + 1) `div` s1).
    pose proof (div_is_floor (h - f0 + 1) s0 Hs0) as F0.
    pose proof (div_is_floor (w - f1 + 1) s1 Hs1) as F1.
    split; [exact F0|]. split; [exact F1|].
    split; [by rewrite !(Z.max_comm 1)|].
    open_int64 Hin. open_int64 Hmid. unfold is_floor in F0, F1.
    repeat (apply Forall_cons_2 || apply Forall_nil_2); unfold Py.int64; nia.
  - intros Hk _. rewrite bool_decide_eq_false_2 by lia. done.
  - intros Hh Hw. case_bool_decide; simpl.
    + rewrite !Z.div_1_r. do 3 f_equal; [|f_equal]; lia.
    + do 3 f_equal; [|f_equal]; lia.
Qed.

Lemma compute_output_formulas_witness :
  (exists q0 q1,
     is_floor q0 (28 - 3 + 1) 1 /\ is_floor q1 (28 - 3 + 1) 1 /\
     compute_output [28; 28; 3] 0 [3; 3; 16] [1; 1; 1] = Some [Z.max 1 q0; Z.max 1 q1; 16]) /\
  compute_output [7; 7; 50] 4 [3; 3; 16] [2; 2; 1] = Some [(7 - 1) * 2 + 3; (7 - 1) * 2 + 3] /\
  compute_output [28; 28; 3] 0 [1; 1; 16] [1; 1; 1] = Some [28; 28; 16].
Proof.
  destruct (compute_output_formulas 28 28 [3] 3 3 16 [] 1 1 [1] 0) as (H1 & _ & _);
    [lia | lia | solve_int64 |].
  destruct (compute_output_formulas 7 7 [50] 3 3 16 [] 2 2 [1] 4) as (_ & H2 & _);
    [lia | lia | solve_int64 |].
  destruct (compute_output_formulas 28 28 [3] 1 1 16 [] 1 1 [1] 0) as (_ & _ & H3);
    [lia | lia | solve_int64 |].
  split; [|split].
  - destruct H1 as (q0 & q1 & F0 & F1 & Hrun & _); [lia | solve_int64 |].
    by exists q0, q1.
  - apply H2; [lia | solve_int64].
  - apply H3; lia.
Defined.

Example compute_output_valid_3x3 :
  compute_output [28; 28] 0 [3; 3; 8] [1; 1] = Some [26; 26; 8].
Proof. reflexivity. Qed.

(** ** Activation and initializer edits *)

Lemma base_change_activation_inside (d : NetworkDescriptor.t) pos fn :
  0 <= pos <= NetworkDescriptor.number_hidden_layers d ->
  pos < Z.of_nat (length (NetworkDescriptor.act_functions d)) ->
  NetworkDescriptor.change_activation d pos fn
  = Some (NetworkDescriptor.with_act_functions
            (<[Z.to_nat pos := fn]> (NetworkDescriptor.act_functions d)) d).
Proof.
  intros Hn Hlen. unfold NetworkDescriptor.change_activation.
  rewrite bool_decide_eq_false_2 by lia.
  by rewrite setitem_inside by lia.
Qed.

Lemma base_change_weight_init_inside (d : NetworkDescriptor.t) pos fn :
  0 <= pos <= NetworkDescriptor.number_hidden_layers d ->
  pos < Z.of_nat (length (NetworkDescriptor.init_functions d)) ->
  NetworkDescriptor.change_weight_init d pos fn
  = Some (NetworkDescriptor.with_init_functions
            (<[Z.to_nat pos := fn]> (NetworkDescriptor.init_functions d)) d).
Proof.
  intros Hn Hlen. unfold NetworkDescriptor.change_weight_init.
  rewrite bool_decide_eq_false_2 by lia.
  by rewrite setitem_inside by lia.
Qed.

Lemma base_change_outside (d : NetworkDescriptor.t) pos :
  pos < 0 \/ NetworkDescriptor.number_hidden_layers d < pos ->
  (forall fn, NetworkDescriptor.change_activation d pos fn = Some d) /\
  (forall fn, NetworkDescriptor.change_weight_init d pos fn = Some d).
Proof.
  intros H. unfold NetworkDescriptor.change_activation, NetworkDescriptor.change_weight_init.
  by rewrite bool_decide_eq_true_2.
Qed.

(** The overriding methods of [TConvDescriptor] are plain subscript
    assignments. *)
Lemma tconv_setitem_cases {A} (l : list A) pos (x : A) :
  (0 <= pos < Z.of_nat (length l) -> Py.setitem l pos x = Some (<[Z.to_nat pos := x]> l)) /\
  (- Z.of_nat (length l) <= pos < 0 ->
     Py.setitem l pos x = Some (<[Z.to_nat (Z.of_nat (length l) + pos) := x]> l)) /\
  (pos < - Z.of_nat (length l) \/ Z.of_nat (length l) <= pos -> Py.setitem l pos x = None).
Proof.
  unfold Py.setitem, Py.subscript. repeat split; intros H.
  - by rewrite bool_decide_eq_true_2.
  - rewrite bool_decide_eq_false_2 by lia. by rewrite bool_decide_eq_true_2.
  - by rewrite !bool_decide_eq_false_2 by lia.
Qed.

(** C7, as the code has it.  The methods inherited by [MLPDescriptor] and
    [ConvDescriptor] overwrite the entry at [pos] when [0 <= pos <=
    hidden_layer_count] and the sequence has an entry there, and return
    without effect or error when [pos] is outside that range.  The methods
    that [TConvDescriptor] puts in their place compare [pos] with nothing:
    they overwrite the entry that the subscript [pos] selects (counted from
    the end when negative) and raise when it selects none. *)
Theorem change_activation_and_init_bounds :
  (forall (d : NetworkDescriptor.t) pos act init,
     (0 <= pos <= NetworkDescriptor.number_hidden_layers d ->
      pos < Z.of_nat (length (NetworkDescriptor.act_functions d)) ->
      NetworkDescriptor.change_activation d pos act
      = Some (NetworkDescriptor.with_act_functions
                (<[Z.to_nat pos := act]> (NetworkDescriptor.act_functions d)) d)) /\
     (0 <= pos <= NetworkDescriptor.number_hidden_layers d ->
      pos < Z.of_nat (length (NetworkDescriptor.init_functions d)) ->
      NetworkDescriptor.change_weight_init d pos init
      = Some (NetworkDescriptor.with_init_functions
                (<[Z.to_nat pos := init]> (NetworkDescriptor.init_functions d)) d)) /\
     (pos < 0 \/ NetworkDescriptor.number_hidden_layers d < pos ->
      NetworkDescriptor.change_activation d pos act = Some d /\
      NetworkDescriptor.change_weight_init d pos init = Some d)) /\
  (forall (d : TConvDescriptor.t) pos act init,
     let acts := TConvDescriptor.act_functions d in
     let inits := TConvDescriptor.init_functions d in
     (0 <= pos < Z.of_nat (length acts) ->
      TConvDescriptor.change_activation d pos act
      = Some (TConvDescriptor.with_act_functions (<[Z.to_nat pos := act]> acts) d)) /\
     (- Z.of_nat (length acts) <= pos < 0 ->
      TConvDescriptor.change_activation d pos act
      = Some (TConvDescriptor.with_act_functions
                (<[Z.to_nat (Z.of_nat (length acts) + pos) := act]> acts) d)) /\
     (pos < - Z.of_nat (length acts) \/ Z.of_nat (length acts) <= pos ->
      TConvDescriptor.change_activation d pos act = None) /\
     (0 <= pos < Z.of_nat (length inits) ->
      TConvDescriptor.change_weight_init d pos init
      = Some (TConvDescriptor.with_init_functions (<[Z.to_nat pos := init]> inits) d)) /\
     (- Z.of_nat (length inits) <= pos < 0 ->
      TConvDescriptor.change_weight_init d pos init
      = Some (TConvDescriptor.with_init_functions
                (<[Z.to_nat (Z.of_nat (length inits) + pos) := init]> inits) d)) /\
     (pos < - Z.of_nat (length inits) \/ Z.of_nat (length inits) <= pos ->
      TConvDescriptor.change_weight_init d pos init = None)).
Proof.
  split.
  - intros d pos act init. split; [|split].
    + apply base_change_activation_inside.
    + apply base_change_weight_init_inside.
    + intros H. destruct (base_change_outside d pos H) as [Ha Hi]. by rewrite Ha, Hi.
  - intros d pos act init acts inits.
    unfold TConvDescriptor.change_activation, TConvDescriptor.change_weight_init.
    destruct (tconv_setitem_cases acts pos act) as (Ha1 & Ha2 & Ha3).
    destruct (tconv_setitem_cases inits pos init) as (Hi1 & Hi2 & Hi3).
    fold acts inits.
    repeat split; intros H;
      first [ by rewrite Ha1 | by rewrite Ha2 | by rewrite Ha3
            | by rewrite Hi1 | by rewrite Hi2 | by rewrite Hi3 ].
Qed.

Lemma change_activation_and_init_bounds_witness :
  NetworkDescriptor.change_activation (MLPDescriptor.base mlp_two) 2 (Some elu)
  = Some (NetworkDescriptor.with_act_functions [Some relu; None; Some elu]
            (MLPDescriptor.base mlp_two)) /\
  NetworkDescriptor.change_weight_init (MLPDescriptor.base mlp_two) 3 (Some GlorotUniform)
  = Some (MLPDescriptor.base mlp_two) /\
  TConvDescriptor.change_activation tconv_two (-1) (Some elu)
  = Some (TConvDescriptor.with_act_functions [None; Some elu] tconv_two) /\
  TConvDescriptor.change_weight_init tconv_two 2 (Some GlorotUniform) = None.
Proof.
  destruct change_activation_and_init_bounds as [Hbase Htconv].
  destruct (Hbase (MLPDescriptor.base mlp_two) 2 (Some elu) None) as (H1 & _ & _).
  destruct (Hbase (MLPDescriptor.base mlp_two) 3 None (Some GlorotUniform)) as (_ & _ & H2).
  destruct (Htconv tconv_two (-1) (Some elu) None) as (_ & H3 & _).
  destruct (Htconv tconv_two 2 None (Some GlorotUniform)) as (_ & _ & _ & _ & _ & H4).
  split; [apply H1; simpl; lia|].
  split; [apply H2; simpl; lia|].
  split; [apply H3; simpl; lia|].
  apply H4; simpl; lia.
Defined.

(** C7 as stated fails.  On a [TConvDescriptor] with two layers, position -1
    is outside [[0, hidden_layer_count]] and the call overwrites the last
    activation; position 5 is outside and the call raises.  On the
    [ConvDescriptor] that [random_init] builds with two layers, position 2 is
    inside the inclusive range and the call raises instead of overwriting. *)
Lemma change_activation_unchecked_or_raising :
  TConvDescriptor.number_hidden_layers tconv_two = 2 /\
  TConvDescriptor.change_activation tconv_two (-1) (Some tanh)
  = Some (TConvDescriptor.with_act_functions [None; Some tanh] tconv_two) /\
  TConvDescriptor.change_activation tconv_two (-1) (Some tanh) <> Some tconv_two /\
  TConvDescriptor.change_activation tconv_two 5 (Some tanh) = None /\
  TConvDescriptor.change_weight_init tconv_two 5 (Some RandomUniform) = None /\
  exists d g,
    conv_two = Some (d, g) /\
    ConvDescriptor.number_hidden_layers d = 2 /\
    ConvDescriptor.change_activation d 2 (Some tanh) = None /\
    ConvDescriptor.change_weight_init d 2 (Some RandomUniform) = None.
Proof.
  do 2 (split; [reflexivity|]). split; [discriminate|]. do 2 (split; [reflexivity|]).
  eexists _, _. split; [vm_compute; reflexivity|]. by vm_compute.
Qed.

(** ** The random source *)

Ltac unfold_M :=
  unfold mbind, mret, M_bind, M_ret, Random.bind, Random.ret, Random.lift in *.

Lemma randint_inside (low high : Z) (g : rng) :
  low < high ->
  exists v, low <= v < high /\ randint low high g = Some (v, fun n => g (S n)).
Proof.
  intros H. exists (low + g 0%nat `mod` (high - low)). split.
  - pose proof (Z.mod_pos_bound (g 0%nat) (high - low)). lia.
  - unfold randint. by rewrite bool_decide_eq_true_2.
Qed.

Lemma choice_inside {A} (a : list A) (g : rng) :
  a <> [] -> exists x, x ∈ a /\ choice a g = Some (x, fun n => g (S n)).
Proof.
  intros Ha. unfold choice, Random.bind, Random.lift.
  destruct (randint_inside 0 (Z.of_nat (length a)) g) as (i & Hi & ->).
  { destruct a; [done | simpl; lia]. }
  destruct (lookup_lt_is_Some_2 a (Z.to_nat i)) as [x Hx]; [lia|].
  exists x. rewrite Hx. split; [by eapply list_elem_of_lookup_2 | done].
Qed.

(** ** TConvDescriptor: the recomputed cache and [add_layer] *)

Lemma tconv_reset_loop_frame lays shape d v acc :
  TConvDescriptor.reset_shapes_loop lays shape (TConvDescriptor.with_output_shapes v d) acc
  = TConvDescriptor.reset_shapes_loop lays shape d acc.
Proof.
  revert shape acc. induction lays as [|lay lays IH]; intros shape acc; [done|].
  simpl. destruct (TConvDescriptor.filters d !! lay) as [f|]; [|done]. simpl.
  destruct (TConvDescriptor.strides d !! lay) as [s|]; [|done]. simpl.
  destruct (compute_output shape 4 f s) as [shape'|]; [|done]. simpl.
  destruct (f !! 2%nat); [|done]. simpl. apply IH.
Qed.

Lemma tconv_reset_loop_total lays shape d acc :
  (2 <= length shape)%nat ->
  Forall (fun lay => (lay < length (TConvDescriptor.filters d))%nat /\
                     (lay < length (TConvDescriptor.strides d))%nat) lays ->
  Forall (fun f => (3 <= length f)%nat) (TConvDescriptor.filters d) ->
  Forall (fun s => (2 <= length s)%nat) (TConvDescriptor.strides d) ->
  exists acc',
    TConvDescriptor.reset_shapes_loop lays shape d acc = Some acc' /\
    length acc' = (length acc + length lays)%nat.
Proof.
  intros Hshape Hlays Hf Hs. revert shape acc Hshape.
  induction Hlays as [|lay lays [Hlf Hls] _ IH]; intros shape acc Hshape.
  { exists acc. simpl. split; [done | lia]. }
  simpl.
  destruct (lookup_lt_is_Some_2 _ _ Hlf) as [f Hf_at].
  destruct (lookup_lt_is_Some_2 _ _ Hls) as [s Hs_at].
  rewrite Hf_at, Hs_at. simpl.
  pose proof (Forall_lookup_1 _ _ _ _ Hf Hf_at) as Hflen.
  pose proof (Forall_lookup_1 _ _ _ _ Hs Hs_at) as Hslen. simpl in Hflen, Hslen.
  destruct f as [|f0 [|f1 [|c f]]]; simpl in Hflen; try lia.
  destruct s as [|s0 [|s1 s]]; simpl in Hslen; try lia.
  destruct shape as [|i0 [|i1 shape]]; simpl in Hshape; try lia.
  simpl.
  destruct (IH [(i0 - 1) * s0 + f0; (i1 - 1) * s1 + f1]
              (acc ++ [[-1; (i0 - 1) * s0 + f0; (i1 - 1) * s1 + f1; c]]))
    as (acc' & Hloop & Hlen); [simpl; lia|].
  exists acc'. split; [exact Hloop|].
  rewrite Hlen, length_app. simpl. lia.
Qed.

Lemma tconv_reset_shapes_total d :
  tconv_consistent d ->
  exists acc,
    TConvDescriptor.reset_shapes d = Some (TConvDescriptor.with_output_shapes acc d) /\
    length acc = Z.to_nat (TConvDescriptor.number_hidden_layers d).
Proof.
  intros (Hnf & Hns & Hf & Hs & Hin). unfold TConvDescriptor.reset_shapes.
  destruct (tconv_reset_loop_total
              (seq 0 (Z.to_nat (TConvDescriptor.number_hidden_layers d)))
              (TConvDescriptor.input_dim d) d []) as (acc & Hloop & Hlen); try done.
  { apply Forall_forall. intros lay Hlay. apply elem_of_seq in Hlay. lia. }
  exists acc. rewrite Hloop. simpl. split; [done|].
  rewrite Hlen, length_seq. simpl. lia.
Qed.

Lemma tconv_reset_shapes_idempotent d d' :
  TConvDescriptor.reset_shapes d = Some d' -> TConvDescriptor.reset_shapes d' = Some d'.
Proof.
  unfold TConvDescriptor.reset_shapes. intros H.
  destruct (TConvDescriptor.reset_shapes_loop _ _ d []) as [acc|] eqn:Hloop; [|done].
  simpl in H. injection H as <-.
  change (TConvDescriptor.number_hidden_layers (TConvDescriptor.with_output_shapes acc d))
    with (TConvDescriptor.number_hidden_layers d).
  change (TConvDescriptor.input_dim (TConvDescriptor.with_output_shapes acc d))
    with (TConvDescriptor.input_dim d).
  by rewrite tconv_reset_loop_frame, Hloop.
Qed.




(** ** TConvDescriptor: [random_init] *)

(** On a square shape every attempt adds one at least to the side, so the loop
    is left through its [break] before the side's distance to 28 is used up;
    the last step starts from a side below 28, which bounds the side it
    reaches, and with it every side that is cached on the way. *)
Lemma tconv_random_init_loop_reaches (todo : nat) :
  forall (i h c0 max_stride max_filter : Z) (d : TConvDescriptor.t) (g : rng),
  2 <= max_stride -> 3 <= max_filter ->
  TConvDescriptor.output_dim d = [28; 28; 3] ->
  1 <= h <= 27 ->
  28 - h <= Z.of_nat todo ->
  exists d' g' (j : nat) new,
    Z.of_nat j + 1 <= 28 - h /\
    TConvDescriptor.random_init_loop todo i [-1; h; h; c0] max_stride max_filter d g
    = Some ((d', true), g') /\
    TConvDescriptor.number_hidden_layers d' = i + Z.of_nat j + 1 /\
    length (TConvDescriptor.filters d') = (length (TConvDescriptor.filters d) + j + 1)%nat /\
    length (TConvDescriptor.strides d') = (length (TConvDescriptor.strides d) + j + 1)%nat /\
    (exists f, Py.getitem (TConvDescriptor.filters d') (-1) = Some [f; f; 3]) /\
    (exists side, Py.getitem (TConvDescriptor.output_shapes d') (-1) = Some [-1; side; side; 3] /\
                  28 <= side <= 26 * (max_stride - 1) + (max_filter - 1)) /\
    TConvDescriptor.output_shapes d' = TConvDescriptor.output_shapes d ++ new /\
    Forall (fun shape => exists side c,
              shape = [-1; side; side; c] /\ 3 <= c < 65 /\
              h < side <= 26 * (max_stride - 1) + (max_filter - 1)) new.
Proof.
  induction todo as [|todo IH]; intros i h c0 ms mf d g Hms Hmf Hout Hh Hfuel; [lia|].
  destruct (randint_inside 1 ms g) as (s & Hs & Hdraw_s); [lia|].
  destruct (randint_inside 2 mf (fun n => g (S n))) as (k & Hk & Hdraw_k); [lia|].
  destruct (randint_inside 3 65 (fun n => g (S (S n)))) as (c & Hc & Hdraw_c); [lia|].
  destruct (choice_inside (drop 1 initializations) (fun n => g (S (S (S n)))))
    as (ini & _ & Hdraw_i); [done|].
  destruct (choice_inside activations (fun n => g (S (S (S (S n))))))
    as (ac & _ & Hdraw_a); [done|].
  cbn [TConvDescriptor.random_init_loop]. unfold_M.
  rewrite Hdraw_s, Hdraw_k, Hdraw_c.
  tconv_fields. rewrite !getitem_last.
  replace (compute_output (drop 1 [-1; h; h; c0]) 4 [k; k; c] [s; s; 1])
    with (Some [(h - 1) * s + k; (h - 1) * s + k]) by reflexivity.
  cbn [lookup list_lookup]. rewrite Hdraw_i, Hdraw_a.
  set (h1 := (h - 1) * s + k).
  assert (h + 1 <= h1 <= 26 * (ms - 1) + (mf - 1)) as Hh1 by (unfold h1; nia).
  unfold TConvDescriptor.reached. tconv_fields. rewrite Hout.
  cbn [app lookup list_lookup mbind option_bind].
  set (d1 := TConvDescriptor.mk _ _ _ _ _ _).
  destruct (decide (h1 >= 28)) as [Hreach|Hshort].
  - rewrite !bool_decide_eq_true_2 by done.
    unfold TConvDescriptor.finish, d1. tconv_fields.
    cbn [lookup list_lookup mbind option_bind].
    rewrite !getitem_last. cbn [mbind option_bind].
    rewrite (to_int64_inside 3) by solve_int64. cbn [mbind option_bind].
    replace (Py.setitem [k; k; c] 2 3) with (Some [k; k; 3]) by reflexivity.
    replace (Py.setitem [-1; h1; h1; c] (-1) 3) with (Some [-1; h1; h1; 3]) by reflexivity.
    cbn [mbind option_bind]. rewrite !setitem_last. cbn [mbind option_bind].
    eexists _, _, 0%nat, [[-1; h1; h1; 3]]. split; [lia|]. split; [reflexivity|].
    tconv_fields. rewrite !length_app, !getitem_last. simpl.
    split; [lia|]. split; [lia|]. split; [lia|]. split; [by exists k|].
    split; [exists h1; split; [done | lia]|]. split; [done|].
    apply Forall_singleton. exists h1, 3. split; [done|]. lia.
  - rewrite (bool_decide_eq_false_2 (h1 >= 28)) by done.
    destruct (IH (i + 1) h1 c ms mf d1 (fun n => g (S (S (S (S (S n)))))))
      as (d' & g' & j & new & Hj & Hrun & Hn & Hlf & Hls & Hlast & Hshape & Hnew & Hall);
      try done; [lia..|].
    exists d', g', (S j), ([-1; h1; h1; c] :: new). split; [lia|]. split; [exact Hrun|].
    unfold d1 in Hlf, Hls, Hnew. tconv_fields.
    rewrite length_app in Hlf, Hls. simpl in Hlf, Hls.
    split; [lia|]. split; [lia|]. split; [lia|]. split; [done|]. split; [done|].
    split; [by rewrite Hnew, <- app_assoc|].
    constructor.
    + exists h1, c. split; [done|]. lia.
    + eapply Forall_impl; [exact Hall|].
      intros shape (side & c' & -> & Hc' & Hside). exists side, c'. split; [done|]. lia.
Qed.

(** C5.  From an input shape (7, 7, k), towards the output shape (28, 28, 3)
    and with bounds [max_stride >= 2] and [max_filter >= 3] that keep one step
    from a side of 27 inside [int64]
    ([26 * (max_stride - 1) + (max_filter - 1) < 2^63], which also keeps the
    bounds among those that [np.random.randint] accepts), [random_init]
    leaves its loop through the [break], after 21 attempts at most of the
    300; the last filter then has channel parameter 3 and the last cached
    shape has both sides at 28 or more.  Every shape it has cached has sides
    from 8 up to that one step from 27, so all of them are [int64]
    integers. *)
Theorem tconv_random_init_reaches_target (d : TConvDescriptor.t)
    (k max_stride max_filter : Z) (no_batch : option bool) (g : rng) :
  2 <= max_stride -> 3 <= max_filter ->
  26 * (max_stride - 1) + (max_filter - 1) < 2 ^ 63 ->
  exists d' g',
    TConvDescriptor.random_init d [7; 7; k] [28; 28; 3] max_stride max_filter no_batch g
    = Some ((d', true), g') /\
    1 <= TConvDescriptor.number_hidden_layers d' <= 21 /\
    Z.of_nat (length (TConvDescriptor.filters d')) = TConvDescriptor.number_hidden_layers d' /\
    Z.of_nat (length (TConvDescriptor.strides d')) = TConvDescriptor.number_hidden_layers d' /\
    (exists f, Py.getitem (TConvDescriptor.filters d') (-1) = Some [f; f; 3]) /\
    (exists h w, Py.getitem (TConvDescriptor.output_shapes d') (-1) = Some [-1; h; w; 3] /\
                 28 <= h <= 26 * (max_stride - 1) + (max_filter - 1) /\
                 28 <= w <= 26 * (max_stride - 1) + (max_filter - 1)) /\
    (exists new,
       TConvDescriptor.output_shapes d' = TConvDescriptor.output_shapes d ++ new /\
       Forall (fun shape => exists side c,
                 shape = [-1; side; side; c] /\ 8 <= side < 2 ^ 63 /\ 3 <= c < 65) new /\
       Forall (Forall Py.int64) new).
Proof.
  intros Hms Hmf Hbound. unfold TConvDescriptor.random_init.
  match goal with
  | |- context [TConvDescriptor.random_init_loop _ _ _ _ _ ?x] => set (d0 := x)
  end.
  destruct (tconv_random_init_loop_reaches 300 0 7 k max_stride max_filter d0 g)
    as (d1 & g1 & j & new & Hj & Hrun & Hn & Hlf & Hls & Hlast & (side & Hshape & Hside)
        & Hnew & Hall);
    try done; [lia..|].
  change ([-1] ++ TConvDescriptor.input_dim d0) with [-1; 7; 7; k].
  unfold_M. rewrite Hrun.
  unfold d0 in Hlf, Hls, Hnew. tconv_fields. simpl in Hlf, Hls.
  assert (Hfinal : exists h w,
    Py.getitem (TConvDescriptor.output_shapes d1) (-1) = Some [-1; h; w; 3] /\
    28 <= h <= 26 * (max_stride - 1) + (max_filter - 1) /\
    28 <= w <= 26 * (max_stride - 1) + (max_filter - 1)) by (by exists side, side).
  assert (Hcache : exists new,
    TConvDescriptor.output_shapes d1 = TConvDescriptor.output_shapes d ++ new /\
    Forall (fun shape => exists side c,
              shape = [-1; side; side; c] /\ 8 <= side < 2 ^ 63 /\ 3 <= c < 65) new /\
    Forall (Forall Py.int64) new).
  { exists new. split; [exact Hnew|]. split.
    - eapply Forall_impl; [exact Hall|].
      intros shape (a & c & -> & Hc & Ha). exists a, c. split; [done|]. lia.
    - eapply Forall_impl; [exact Hall|].
      intros shape (a & c & -> & Hc & Ha).
      repeat (apply Forall_cons_2 || apply Forall_nil_2); unfold Py.int64; lia. }
  destruct no_batch as [[|]|].
  - exists d1, g1. repeat split; try done; lia.
  - destruct (choice_inside [true; false] g1) as (b & _ & ->); [done|].
    eexists _, _. split; [reflexivity|]. tconv_fields.
    repeat split; try done; lia.
  - exists d1, g1. repeat split; try done; lia.
Qed.

Lemma tconv_random_init_reaches_target_witness :
  exists d' g',
    TConvDescriptor.random_init tconv_blank [7; 7; 50] [28; 28; 3] 2 3 None (replay [])
    = Some ((d', true), g') /\
    1 <= TConvDescriptor.number_hidden_layers d' <= 21 /\
    (exists f, Py.getitem (TConvDescriptor.filters d') (-1) = Some [f; f; 3]) /\
    (exists h w, Py.getitem (TConvDescriptor.output_shapes d') (-1) = Some [-1; h; w; 3] /\
                 28 <= h /\ 28 <= w).
Proof.
  destruct (tconv_random_init_reaches_target tconv_blank 50 2 3 None (replay []))
    as (d' & g' & Hrun & Hn & _ & _ & Hf & (h & w & Hs & Hh & Hw) & _); [lia | lia | lia |].
  exists d', g'. split; [exact Hrun|]. split; [lia|]. split; [exact Hf|].
  exists h, w. split; [exact Hs | lia].
Defined.

(** The sample [tconv_two] is what [random_init] builds from (7, 7, 50)
    towards (28, 28, 3) when it draws stride 2 and kernel side 3 twice. *)
Example tconv_two_from_random_init :
  fst <$> TConvDescriptor.random_init tconv_blank [7; 7; 50] [28; 28; 3] 3 4 None
            (replay [1; 1; 13; 1; 0; 1; 1; 0; 2; 1])
  = Some (tconv_two, true).
Proof. reflexivity. Qed.

(** ** ConvDescriptor: the recomputed cache *)

Lemma conv_reset_loop_total lays shape d acc :
  (1 <= length shape)%nat ->
  Forall (fun lay => (lay < length (ConvDescriptor.filters d))%nat /\
                     (lay < length (ConvDescriptor.strides d))%nat) lays ->
  Forall (flat_entry 3) (ConvDescriptor.filters d) ->
  Forall (flat_entry 1) (ConvDescriptor.strides d) ->
  exists acc',
    ConvDescriptor.reset_shapes_loop lays shape d acc = Some acc' /\
    length acc' = (length acc + length lays)%nat.
Proof.
  intros Hshape Hlays Hf Hs. revert shape acc Hshape.
  induction Hlays as [|lay lays [Hlf Hls] _ IH]; intros shape acc Hshape.
  { exists acc. simpl. split; [done | lia]. }
  simpl.
  destruct (lookup_lt_is_Some_2 _ _ Hlf) as [f Hf_at].
  destruct (lookup_lt_is_Some_2 _ _ Hls) as [s Hs_at].
  rewrite Hf_at, Hs_at. simpl.
  destruct (Forall_lookup_1 _ _ _ _ Hf Hf_at) as (fv & -> & Hflen).
  destruct (Forall_lookup_1 _ _ _ _ Hs Hs_at) as (sv & -> & Hslen).
  simpl.
  assert (exists a b c, compute_output shape 0 fv sv = Some [a; b; c]) as (a & b & c & Hout).
  { unfold compute_output. rewrite bool_decide_eq_true_2 by lia.
    destruct fv as [|f0 [|f1 [|ch fv]]]; simpl in Hflen; try lia.
    destruct shape as [|i0 [|i1 shape]]; simpl in Hshape; try lia;
      destruct sv as [|s0 [|s1 sv]]; simpl in Hslen; try lia; simpl; eauto. }
  rewrite Hout. simpl.
  destruct (IH [a; b; c] (acc ++ [[a; b; c]])) as (acc' & Hloop & Hlen); [simpl; lia|].
  exists acc'. split; [exact Hloop|].
  rewrite Hlen, length_app. simpl. lia.
Qed.

(** The loop reads [filters] and [strides] only. *)
Lemma conv_reset_loop_ext lays shape d d' acc :
  ConvDescriptor.filters d' = ConvDescriptor.filters d ->
  ConvDescriptor.strides d' = ConvDescriptor.strides d ->
  ConvDescriptor.reset_shapes_loop lays shape d' acc
  = ConvDescriptor.reset_shapes_loop lays shape d acc.
Proof.
  intros Hf Hs. revert shape acc.
  induction lays as [|lay lays IH]; intros shape acc; [done|].
  simpl. rewrite Hf, Hs.
  destruct (ConvDescriptor.filters d !! lay) as [f|]; [|done]. simpl.
  destruct (ConvDescriptor.strides d !! lay) as [s|]; [|done]. simpl.
  destruct (ConvDescriptor.operand f) as [fv|]; [|done]. simpl.
  destruct (ConvDescriptor.operand s) as [sv|]; [|done]. simpl.
  destruct (compute_output shape 0 fv sv) as [shape'|]; [|done]. simpl. apply IH.
Qed.

Lemma conv_reset_shapes_total d :
  (Z.to_nat (ConvDescriptor.number_hidden_layers d) <= length (ConvDescriptor.filters d))%nat ->
  (Z.to_nat (ConvDescriptor.number_hidden_layers d) <= length (ConvDescriptor.strides d))%nat ->
  Forall (flat_entry 3) (ConvDescriptor.filters d) ->
  Forall (flat_entry 1) (ConvDescriptor.strides d) ->
  (1 <= length (ConvDescriptor.input_dim d))%nat ->
  exists acc,
    ConvDescriptor.reset_shapes d = Some (ConvDescriptor.with_shapes acc d) /\
    length acc = Z.to_nat (ConvDescriptor.number_hidden_layers d).
Proof.
  intros Hnf Hns Hf Hs Hin. unfold ConvDescriptor.reset_shapes.
  destruct (conv_reset_loop_total
              (seq 0 (Z.to_nat (ConvDescriptor.number_hidden_layers d)))
              (ConvDescriptor.input_dim d) d []) as (acc & Hloop & Hlen); try done.
  { apply Forall_forall. intros lay Hlay. apply elem_of_seq in Hlay. lia. }
  exists acc. rewrite Hloop. simpl. split; [done|].
  rewrite Hlen, length_seq. simpl. lia.
Qed.

(** A pair met by the loop makes [reset_shapes] raise. *)
Lemma conv_reset_shapes_paired d conv pool :
  0 < ConvDescriptor.number_hidden_layers d ->
  ConvDescriptor.filters d !! 0%nat = Some (ConvDescriptor.Paired conv pool) ->
  ConvDescriptor.reset_shapes d = None.
Proof.
  intros Hn Hf. unfold ConvDescriptor.reset_shapes.
  destruct (Z.to_nat (ConvDescriptor.number_hidden_layers d)) as [|n] eqn:Hk; [lia|].
  simpl. rewrite Hf. simpl. by destruct (ConvDescriptor.strides d !! 0%nat).
Qed.

(** ** Insertion followed by removal *)

Lemma mlp_add_then_remove (d : MLPDescriptor.t) (pos width : Z)
    (init : option initialization) (act : option activation) (rate : Q) :
  2 <= pos < MLPDescriptor.number_hidden_layers d ->
  pos <= Z.of_nat (length (Py.items (MLPDescriptor.dims d))) ->
  pos <= Z.of_nat (length (MLPDescriptor.init_functions d)) ->
  pos <= Z.of_nat (length (MLPDescriptor.act_functions d)) ->
  pos <= Z.of_nat (length (MLPDescriptor.dropout_probs d)) ->
  Py.int64 width ->
  exists d1,
    MLPDescriptor.add_layer d pos width init act rate = Some d1 /\
    MLPDescriptor.number_hidden_layers d1 = MLPDescriptor.number_hidden_layers d + 1 /\
    MLPDescriptor.remove_layer d1 pos
    = Some (MLPDescriptor.with_dims (Py.NdArray (Py.items (MLPDescriptor.dims d))) d).
Proof.
  destruct d as [[n inits acts bn drop probs] input output dims].
  unfold MLPDescriptor.add_layer, MLPDescriptor.remove_layer. mlp_fields.
  intros Hpos Hd Hi Ha Hp Hwidth.
  rewrite bool_decide_eq_false_2 by lia.
  rewrite (to_int64_inside width Hwidth). cbn [mbind option_bind].
  destruct (Py.np_insert (Py.items dims) pos width) as [dims1|] eqn:E1;
    [|by rewrite np_insert_inside in E1 by lia].
  destruct (Py.np_insert inits pos init) as [init1|] eqn:E2;
    [|by rewrite np_insert_inside in E2 by lia].
  destruct (Py.np_insert acts pos act) as [act1|] eqn:E3;
    [|by rewrite np_insert_inside in E3 by lia].
  destruct (Py.np_insert probs pos rate) as [probs1|] eqn:E4;
    [|by rewrite np_insert_inside in E4 by lia].
  cbn [mbind option_bind].
  eexists. split; [reflexivity|].
  mlp_fields. split; [done|].
  rewrite bool_decide_eq_false_2 by lia. cbn [Py.items].
  rewrite (np_delete_insert _ _ pos _ ltac:(lia) E1), (np_delete_insert _ _ pos _ ltac:(lia) E2),
    (np_delete_insert _ _ pos _ ltac:(lia) E3), (np_delete_insert _ _ pos _ ltac:(lia) E4).
  cbn [mbind option_bind]. mlp_fields.
  replace (n + 1 - 1) with n by lia. done.
Qed.

Lemma conv_inserted_then_removed (d : ConvDescriptor.t) (pos kind : Z)
    (fe se : ConvDescriptor.entry) (ae : option activation) (ie : option initialization) :
  conv_flat d ->
  0 <= pos <= ConvDescriptor.number_hidden_layers d ->
  flat_entry 3 fe -> flat_entry 1 se ->
  let b := ConvDescriptor.base d in
  let d1 :=
    ConvDescriptor.mk
      (NetworkDescriptor.mk (NetworkDescriptor.number_hidden_layers b + 1)
         (Py.list_insert pos ie (NetworkDescriptor.init_functions b))
         (Py.list_insert pos ae (NetworkDescriptor.act_functions b))
         (NetworkDescriptor.batch_norm b) (NetworkDescriptor.dropout b)
         (NetworkDescriptor.dropout_probs b))
      (ConvDescriptor.input_dim d) (ConvDescriptor.output_dim d)
      (Py.list_insert pos kind (ConvDescriptor.layers d))
      (Py.list_insert pos fe (ConvDescriptor.filters d))
      (Py.list_insert pos se (ConvDescriptor.strides d))
      (ConvDescriptor.shapes d) in
  exists acc d2,
    ConvDescriptor.reset_shapes d1 = Some (ConvDescriptor.with_shapes acc d1) /\
    ConvDescriptor.remove_layer (ConvDescriptor.with_shapes acc d1) pos = Some d2 /\
    ConvDescriptor.filters d2 = ConvDescriptor.filters d /\
    ConvDescriptor.strides d2 = ConvDescriptor.strides d /\
    ConvDescriptor.init_functions d2 = ConvDescriptor.init_functions d /\
    ConvDescriptor.act_functions d2 = ConvDescriptor.act_functions d /\
    ConvDescriptor.number_hidden_layers d2 = ConvDescriptor.number_hidden_layers d.
Proof.
  intros (Hn & Hls & Hla & Hli & Hf & Hs & Hin) Hpos Hfe Hse b d1. subst b.
  destruct (conv_reset_shapes_total d1) as (acc & Hreset & _).
  { unfold d1. conv_fields. rewrite length_list_insert. lia. }
  { unfold d1. conv_fields. rewrite length_list_insert. lia. }
  { by apply Forall_list_insert. }
  { by apply Forall_list_insert. }
  { done. }
  exists acc. rewrite Hreset.
  unfold ConvDescriptor.remove_layer, d1. conv_fields.
  rewrite !list_pop_insert by lia. cbn [mbind option_bind].
  match goal with
  | |- context [ConvDescriptor.reset_shapes ?x] => set (d2 := x)
  end.
  destruct (conv_reset_shapes_total d2) as (acc2 & Hreset2 & _);
    try (unfold d2; conv_fields; first [lia | done]).
  eexists. split; [reflexivity|]. split; [exact Hreset2|].
  unfold d2. conv_fields. repeat split; try done. lia.
Qed.

Lemma conv_add_then_remove (d : ConvDescriptor.t) (pos kind : Z) (p : lay_params) (g : rng)
    (h w : Z) (rest : list Z) :
  conv_flat d ->
  0 <= pos <= ConvDescriptor.number_hidden_layers d ->
  0 <= kind <= 2 ->
  Py.getitem (ConvDescriptor.shapes d) (-1) = Some (h :: w :: rest) -> 2 < h -> 2 < w ->
  exists d1 g1 d2,
    ConvDescriptor.add_layer d pos kind p g = Some ((d1, 0), g1) /\
    ConvDescriptor.number_hidden_layers d1 = ConvDescriptor.number_hidden_layers d + 1 /\
    ConvDescriptor.remove_layer d1 pos = Some d2 /\
    ConvDescriptor.filters d2 = ConvDescriptor.filters d /\
    ConvDescriptor.strides d2 = ConvDescriptor.strides d /\
    ConvDescriptor.init_functions d2 = ConvDescriptor.init_functions d /\
    ConvDescriptor.act_functions d2 = ConvDescriptor.act_functions d /\
    ConvDescriptor.number_hidden_layers d2 = ConvDescriptor.number_hidden_layers d.
Proof.
  intros Hflat Hpos Hkind Hlast Hh Hw.
  unfold ConvDescriptor.add_layer. unfold_M.
  change (ConvDescriptor.shapes (ConvDescriptor.with_layers _ d))
    with (ConvDescriptor.shapes d).
  rewrite Hlast. cbn [lookup list_lookup].
  rewrite !bool_decide_eq_true_2 by lia.
  destruct (decide (kind < 2)) as [Hpool|Hconv].
  - rewrite (bool_decide_eq_true_2 (kind < 2)) by done.
    destruct (conv_inserted_then_removed d pos kind
                (ConvDescriptor.Triple [new_kernel p; new_kernel p; 1])
                (ConvDescriptor.Triple [new_stride p; new_stride p; 1]) None None)
      as (acc & d2 & Hreset & Hrem & Hfields); try done.
    { eexists. split; [done | simpl; lia]. }
    { eexists. split; [done | simpl; lia]. }
    conv_fields. rewrite Hreset.
    eexists _, _, d2. split; [reflexivity|]. split; [done|]. split; [exact Hrem | exact Hfields].
  - rewrite (bool_decide_eq_false_2 (kind < 2)) by done.
    rewrite (bool_decide_eq_true_2 (kind = 2)) by lia.
    destruct (randint_inside 0 65 g) as (channels & Hc & ->); [lia|].
    destruct (conv_inserted_then_removed d pos kind
                (ConvDescriptor.Triple [new_kernel p; new_kernel p; channels])
                (ConvDescriptor.Triple [new_stride p; new_stride p; 1])
                (new_act p) (new_init p))
      as (acc & d2 & Hreset & Hrem & Hfields); try done.
    { eexists. split; [done | simpl; lia]. }
    { eexists. split; [done | simpl; lia]. }
    conv_fields. rewrite Hreset.
    eexists _, _, d2. split; [reflexivity|]. split; [done|]. split; [exact Hrem | exact Hfields].
Qed.

Lemma tconv_reset_loop_ext lays shape d d' acc :
  TConvDescriptor.filters d' = TConvDescriptor.filters d ->
  TConvDescriptor.strides d' = TConvDescriptor.strides d ->
  TConvDescriptor.reset_shapes_loop lays shape d' acc
  = TConvDescriptor.reset_shapes_loop lays shape d acc.
Proof.
  intros Hf Hs. revert shape acc.
  induction lays as [|lay lays IH]; intros shape acc; [done|].
  simpl. rewrite Hf, Hs.
  destruct (TConvDescriptor.filters d !! lay) as [f|]; [|done]. simpl.
  destruct (TConvDescriptor.strides d !! lay) as [s|]; [|done]. simpl.
  destruct (compute_output shape 4 f s) as [shape'|]; [|done]. simpl.
  destruct (f !! 2%nat); [|done]. simpl. apply IH.
Qed.

Lemma tconv_inserted_then_removed (d : TConvDescriptor.t) (pos : Z) (fe se : list Z)
    (ae : option activation) (ie : option initialization) (acc1 : list (list Z)) :
  0 <= pos <= Z.of_nat (length (TConvDescriptor.filters d)) ->
  pos <= Z.of_nat (length (TConvDescriptor.strides d)) ->
  pos <= Z.of_nat (length (TConvDescriptor.act_functions d)) ->
  pos <= Z.of_nat (length (TConvDescriptor.init_functions d)) ->
  TConvDescriptor.remove_layer
    (TConvDescriptor.mk
       (NetworkDescriptor.mk (TConvDescriptor.number_hidden_layers d + 1)
          (Py.list_insert pos ie (TConvDescriptor.init_functions d))
          (Py.list_insert pos ae (TConvDescriptor.act_functions d))
          (NetworkDescriptor.batch_norm (TConvDescriptor.base d))
          (NetworkDescriptor.dropout (TConvDescriptor.base d))
          (NetworkDescriptor.dropout_probs (TConvDescriptor.base d)))
       (TConvDescriptor.input_dim d) (TConvDescriptor.output_dim d)
       (Py.list_insert pos fe (TConvDescriptor.filters d))
       (Py.list_insert pos se (TConvDescriptor.strides d)) acc1) pos
  = TConvDescriptor.reset_shapes d.
Proof.
  destruct d as [[n inits acts bn drop probs] input output filters strides shapes].
  unfold TConvDescriptor.remove_layer, TConvDescriptor.number_hidden_layers,
    TConvDescriptor.init_functions, TConvDescriptor.act_functions.
  cbn [TConvDescriptor.base TConvDescriptor.filters TConvDescriptor.strides
       NetworkDescriptor.number_hidden_layers NetworkDescriptor.init_functions
       NetworkDescriptor.act_functions NetworkDescriptor.batch_norm NetworkDescriptor.dropout
       NetworkDescriptor.dropout_probs TConvDescriptor.input_dim TConvDescriptor.output_dim].
  intros Hpf Hps Hpa Hpi.
  rewrite !list_pop_insert by lia. cbn [mbind option_bind].
  unfold TConvDescriptor.reset_shapes, TConvDescriptor.with_number_hidden_layers,
    TConvDescriptor.with_filters, TConvDescriptor.with_strides,
    TConvDescriptor.with_act_functions, TConvDescriptor.with_init_functions,
    TConvDescriptor.with_base, TConvDescriptor.with_output_shapes,
    TConvDescriptor.number_hidden_layers,
    NetworkDescriptor.with_number_hidden_layers, NetworkDescriptor.with_act_functions,
    NetworkDescriptor.with_init_functions.
  cbn [TConvDescriptor.base TConvDescriptor.filters TConvDescriptor.strides
       TConvDescriptor.output_shapes
       NetworkDescriptor.number_hidden_layers NetworkDescriptor.init_functions
       NetworkDescriptor.act_functions NetworkDescriptor.batch_norm NetworkDescriptor.dropout
       NetworkDescriptor.dropout_probs TConvDescriptor.input_dim TConvDescriptor.output_dim].
  replace (n + 1 - 1) with n by lia.
  match goal with
  | |- context [TConvDescriptor.reset_shapes_loop ?l ?sh ?a []] =>
      rewrite (tconv_reset_loop_ext l sh
                 (TConvDescriptor.mk (NetworkDescriptor.mk n inits acts bn drop probs)
                    input output filters strides shapes) a []) by done
  end.
  by destruct (TConvDescriptor.reset_shapes_loop _ _ _ []).
Qed.

Lemma tconv_add_then_remove (d : TConvDescriptor.t) (pos : Z) (p : lay_params) (g : rng) :
  tconv_consistent d ->
  0 <= pos <= Z.of_nat (length (TConvDescriptor.filters d)) ->
  pos <= Z.of_nat (length (TConvDescriptor.strides d)) ->
  pos <= Z.of_nat (length (TConvDescriptor.act_functions d)) ->
  pos <= Z.of_nat (length (TConvDescriptor.init_functions d)) ->
  exists d1 g1 d2,
    TConvDescriptor.add_layer d pos p g = Some ((d1, 0), g1) /\
    TConvDescriptor.number_hidden_layers d1 = TConvDescriptor.number_hidden_layers d + 1 /\
    TConvDescriptor.remove_layer d1 pos = Some d2 /\
    TConvDescriptor.reset_shapes d = Some d2 /\
    TConvDescriptor.filters d2 = TConvDescriptor.filters d /\
    TConvDescriptor.strides d2 = TConvDescriptor.strides d /\
    TConvDescriptor.init_functions d2 = TConvDescriptor.init_functions d /\
    TConvDescriptor.act_functions d2 = TConvDescriptor.act_functions d /\
    TConvDescriptor.number_hidden_layers d2 = TConvDescriptor.number_hidden_layers d.
Proof.
  intros Hd Hpf Hps Hpa Hpi. pose proof Hd as (Hnf & Hns & Hf & Hs & Hin).
  destruct (randint_inside 0 65 g) as (channels & Hc & Hdraw); [lia|].
  destruct (tconv_reset_shapes_total d Hd) as (acc & Hreset & _).
  unfold TConvDescriptor.add_layer. unfold_M. rewrite Hdraw.
  match goal with
  | |- context [TConvDescriptor.reset_shapes ?x] => set (d1 := x)
  end.
  assert (tconv_consistent d1) as Hd1.
  { unfold tconv_consistent, d1. tconv_fields.
    rewrite !length_list_insert.
    split; [lia|]. split; [lia|].
    split; [apply Forall_list_insert; [simpl; lia | done]|].
    split; [apply Forall_list_insert; [simpl; lia | done] | done]. }
  destruct (tconv_reset_shapes_total d1 Hd1) as (acc1 & Hreset1 & _).
  rewrite Hreset1.
  exists (TConvDescriptor.with_output_shapes acc1 d1), (fun n => g (S n)),
    (TConvDescriptor.with_output_shapes acc d).
  split; [reflexivity|]. split; [reflexivity|]. split; [|by split].
  rewrite <- Hreset.
  exact (tconv_inserted_then_removed d pos [new_kernel p; new_kernel p; channels]
           [new_stride p; new_stride p; 1] (new_act p) (new_init p) acc1 Hpf Hps Hpa Hpi).
Qed.

(** C4, as the code has it.  On an [MLPDescriptor] whose widths lie in
    [int64], at a position [pos] with [2 <= pos < hidden_layer_count] that
    every sequence reaches and for a new width in [int64], [add_layer]
    followed by [remove_layer] at [pos] gives the descriptor back with the
    widths, the initializer and activation choices, the dropout rates and the
    layer count it had; the widths come back as an ndarray, also when they
    were a list.  On a [ConvDescriptor] in the flat layout whose last cached
    shape has both sides above 2, at a position
    [0 <= pos <= hidden_layer_count] and for a kind in 0..2, [add_layer]
    returns 0 and [remove_layer] at [pos] then restores the filters, the
    strides, the initializer and activation choices and the layer count.  On a
    [TConvDescriptor] whose filters and strides cover its layer count with
    triples, at a position inside or at the end of its four sequences,
    [add_layer] returns 0 and [remove_layer] at [pos] then restores the
    filters, the strides, the initializer and activation choices and the layer
    count, with the cache recomputed. *)
Theorem add_then_remove_restores :
  (forall (d : MLPDescriptor.t) (pos width : Z) (init : option initialization)
          (act : option activation) (rate : Q),
     2 <= pos < MLPDescriptor.number_hidden_layers d ->
     pos <= Z.of_nat (length (Py.items (MLPDescriptor.dims d))) ->
     pos <= Z.of_nat (length (MLPDescriptor.init_functions d)) ->
     pos <= Z.of_nat (length (MLPDescriptor.act_functions d)) ->
     pos <= Z.of_nat (length (MLPDescriptor.dropout_probs d)) ->
     Forall Py.int64 (Py.items (MLPDescriptor.dims d)) ->
     Py.int64 width ->
     exists d1 d2,
       MLPDescriptor.add_layer d pos width init act rate = Some d1 /\
       MLPDescriptor.number_hidden_layers d1 = MLPDescriptor.number_hidden_layers d + 1 /\
       MLPDescriptor.remove_layer d1 pos = Some d2 /\
       d2 = MLPDescriptor.with_dims (Py.NdArray (Py.items (MLPDescriptor.dims d))) d /\
       MLPDescriptor.dims d2 = Py.NdArray (Py.items (MLPDescriptor.dims d)) /\
       MLPDescriptor.init_functions d2 = MLPDescriptor.init_functions d /\
       MLPDescriptor.act_functions d2 = MLPDescriptor.act_functions d /\
       MLPDescriptor.dropout_probs d2 = MLPDescriptor.dropout_probs d /\
       MLPDescriptor.number_hidden_layers d2 = MLPDescriptor.number_hidden_layers d) /\
  (forall (d : ConvDescriptor.t) (pos kind : Z) (p : lay_params) (g : rng)
          (h w : Z) (rest : list Z),
     conv_flat d ->
     0 <= pos <= ConvDescriptor.number_hidden_layers d ->
     0 <= kind <= 2 ->
     Py.getitem (ConvDescriptor.shapes d) (-1) = Some (h :: w :: rest) -> 2 < h -> 2 < w ->
     exists d1 g1 d2,
       ConvDescriptor.add_layer d pos kind p g = Some ((d1, 0), g1) /\
       ConvDescriptor.number_hidden_layers d1 = ConvDescriptor.number_hidden_layers d + 1 /\
       ConvDescriptor.remove_layer d1 pos = Some d2 /\
       ConvDescriptor.filters d2 = ConvDescriptor.filters d /\
       ConvDescriptor.strides d2 = ConvDescriptor.strides d /\
       ConvDescriptor.init_functions d2 = ConvDescriptor.init_functions d /\
       ConvDescriptor.act_functions d2 = ConvDescriptor.act_functions d /\
       ConvDescriptor.number_hidden_layers d2 = ConvDescriptor.number_hidden_layers d) /\
  (forall (d : TConvDescriptor.t) (pos : Z) (p : lay_params) (g : rng),
     tconv_consistent d ->
     0 <= pos <= Z.of_nat (length (TConvDescriptor.filters d)) ->
     pos <= Z.of_nat (length (TConvDescriptor.strides d)) ->
     pos <= Z.of_nat (length (TConvDescriptor.act_functions d)) ->
     pos <= Z.of_nat (length (TConvDescriptor.init_functions d)) ->
     exists d1 g1 d2,
       TConvDescriptor.add_layer d pos p g = Some ((d1, 0), g1) /\
       TConvDescriptor.number_hidden_layers d1 = TConvDescriptor.number_hidden_layers d + 1 /\
       TConvDescriptor.remove_layer d1 pos = Some d2 /\
       TConvDescriptor.filters d2 = TConvDescriptor.filters d /\
       TConvDescriptor.strides d2 = TConvDescriptor.strides d /\
       TConvDescriptor.init_functions d2 = TConvDescriptor.init_functions d /\
       TConvDescriptor.act_functions d2 = TConvDescriptor.act_functions d /\
       TConvDescriptor.number_hidden_layers d2 = TConvDescriptor.number_hidden_layers d).
Proof.
  split; [|split].
  - intros d pos width init act rate Hpos Hd Hi Ha Hp _ Hwidth.
    destruct (mlp_add_then_remove d pos width init act rate Hpos Hd Hi Ha Hp Hwidth)
      as (d1 & Hadd & Hn & Hrem).
    exists d1, (MLPDescriptor.with_dims (Py.NdArray (Py.items (MLPDescriptor.dims d))) d).
    by repeat split.
  - apply conv_add_then_remove.
  - intros d pos p g Hd Hpf Hps Hpa Hpi.
    destruct (tconv_add_then_remove d pos p g Hd Hpf Hps Hpa Hpi)
      as (d1 & g1 & d2 & Hadd & Hn & Hdel & _ & Hfields).
    by exists d1, g1, d2.
Qed.

Lemma conv_flat_two_is_flat : conv_flat conv_flat_two.
Proof.
  unfold conv_flat, conv_flat_two, flat_entry. simpl.
  split; [done|]. split; [done|]. split; [done|]. split; [done|].
  split; [|split; [|lia]];
    repeat constructor; eexists; (split; [reflexivity | simpl; lia]).
Qed.

Lemma tconv_two_consistent : tconv_consistent tconv_two.
Proof.
  unfold tconv_consistent. simpl.
  repeat split; try lia; repeat constructor; simpl; lia.
Defined.

Lemma add_then_remove_restores_witness :
  (exists d1 d2,
     MLPDescriptor.add_layer mlp_four 2 9 (Some GlorotNormal) (Some elu) (1 # 5) = Some d1 /\
     MLPDescriptor.remove_layer d1 2 = Some d2 /\
     MLPDescriptor.dims d2 = Py.NdArray [5; 6; 7; 8] /\
     MLPDescriptor.number_hidden_layers d2 = 4) /\
  (exists d1 g1 d2,
     ConvDescriptor.add_layer conv_flat_two 1 2 sample_params (replay [7]) = Some ((d1, 0), g1) /\
     ConvDescriptor.remove_layer d1 1 = Some d2 /\
     ConvDescriptor.filters d2 = ConvDescriptor.filters conv_flat_two /\
     ConvDescriptor.number_hidden_layers d2 = 2) /\
  (exists d1 g1 d2,
     TConvDescriptor.add_layer tconv_two 1 sample_params (replay [7]) = Some ((d1, 0), g1) /\
     TConvDescriptor.remove_layer d1 1 = Some d2 /\
     TConvDescriptor.filters d2 = TConvDescriptor.filters tconv_two /\
     TConvDescriptor.number_hidden_layers d2 = 2).
Proof.
  destruct add_then_remove_restores as (Hmlp & Hconv & Htconv). split; [|split].
  - destruct (Hmlp mlp_four 2 9 (Some GlorotNormal) (Some elu) (1 # 5))
      as (d1 & d2 & Hadd & _ & Hrem & _ & Hdims & _ & _ & _ & Hn);
      [unfold mlp_four; mlp_fields; simpl; lia.. | solve_int64 | solve_int64 |].
    exists d1, d2. split; [exact Hadd|]. split; [exact Hrem|]. split; [exact Hdims | exact Hn].
  - destruct (Hconv conv_flat_two 1 2 sample_params (replay [7]) 12 12 [16])
      as (d1 & g1 & d2 & Hadd & _ & Hrem & Hf & _ & _ & _ & Hn);
      [exact conv_flat_two_is_flat | unfold conv_flat_two; conv_fields; lia | lia
      | reflexivity | lia | lia |].
    exists d1, g1, d2. split; [exact Hadd|]. split; [exact Hrem|]. split; [exact Hf | exact Hn].
  - destruct (Htconv tconv_two 1 sample_params (replay [7]) tconv_two_consistent)
      as (d1 & g1 & d2 & Hadd & _ & Hrem & Hf & _ & _ & _ & Hn); [simpl; lia..|].
    exists d1, g1, d2. split; [exact Hadd|]. split; [exact Hrem|]. split; [exact Hf | exact Hn].
Defined.

(** C4 as stated fails.  On an [MLPDescriptor] with two hidden layers,
    [add_layer] at position 0 inserts and [remove_layer] at position 0 returns
    without removing: three widths and a layer count of 3 remain.  With no
    dropout rates stored, [add_layer] at position 2 of four layers raises, and
    so it does for the width [2^63], which the array of widths cannot hold.
    Where the pair of calls does restore the values, at position 2 of four
    layers, the widths that were a list are an ndarray afterwards.  On a
    [ConvDescriptor] in the flat layout whose last cached shape is
    (12, 12, 16), [add_layer] at position 0 returns 0 and [remove_layer] at
    position 0 leaves three layer kinds where two were.  On the descriptor
    that [random_init] builds with one layer and cached shape (26, 26, 3),
    [add_layer] raises. *)
Lemma add_then_remove_keeps_the_layer :
  (exists d1,
     MLPDescriptor.add_layer mlp_two 0 9 (Some GlorotNormal) (Some elu) (1 # 5) = Some d1 /\
     MLPDescriptor.remove_layer d1 0 = Some d1 /\
     Py.items (MLPDescriptor.dims d1) = [9; 5; 6] /\
     Py.items (MLPDescriptor.dims mlp_two) = [5; 6] /\
     MLPDescriptor.number_hidden_layers d1 = 3 /\
     MLPDescriptor.number_hidden_layers mlp_two = 2) /\
  MLPDescriptor.add_layer
    (MLPDescriptor.with_base
       (NetworkDescriptor.with_dropout_probs [] (MLPDescriptor.base mlp_four)) mlp_four)
    2 9 (Some GlorotNormal) (Some elu) (1 # 5) = None /\
  MLPDescriptor.add_layer mlp_four 2 (2 ^ 63) (Some GlorotNormal) (Some elu) (1 # 5) = None /\
  (exists d1 d2,
     MLPDescriptor.add_layer mlp_four 2 9 (Some GlorotNormal) (Some elu) (1 # 5) = Some d1 /\
     MLPDescriptor.remove_layer d1 2 = Some d2 /\
     MLPDescriptor.dims mlp_four = Py.PyList [5; 6; 7; 8] /\
     MLPDescriptor.dims d2 = Py.NdArray [5; 6; 7; 8]) /\
  (exists d1 g1 d2,
     ConvDescriptor.add_layer conv_flat_two 0 2 sample_params (replay [7]) = Some ((d1, 0), g1) /\
     ConvDescriptor.remove_layer d1 0 = Some d2 /\
     ConvDescriptor.layers d2 = [2; 2; 2] /\
     ConvDescriptor.layers conv_flat_two = [2; 2]) /\
  (exists d g,
     conv_one = Some (d, g) /\
     ConvDescriptor.shapes d = [[26; 26; 3]] /\
     ConvDescriptor.add_layer d 0 2 sample_params g = None).
Proof.
  split; [|split; [|split; [|split; [|split]]]].
  - eexists. split; [vm_compute; reflexivity|]. by vm_compute.
  - reflexivity.
  - by vm_compute.
  - eexists _, _. split; [vm_compute; reflexivity|]. split; [vm_compute; reflexivity|].
    by vm_compute.
  - eexists _, _, _. split; [vm_compute; reflexivity|]. split; [vm_compute; reflexivity|].
    by vm_compute.
  - eexists _, _. split; [vm_compute; reflexivity|]. by vm_compute.
Qed.

(** ** ConvDescriptor: [add_layer] *)

(** What [add_layer] does with a cache whose last shape is (h, w, ...): the
    kind is inserted before the sides are looked at; the status is 1 when a
    side is 2 or less and nothing but the kinds has changed then; with both
    sides above 2 the only status is 0, on one more layer. *)
Lemma conv_add_layer_status (d : ConvDescriptor.t) (pos kind : Z) (p : lay_params) (g : rng)
    (h w : Z) (rest : list Z) :
  Py.getitem (ConvDescriptor.shapes d) (-1) = Some (h :: w :: rest) ->
  (~ (2 < h /\ 2 < w) ->
     ConvDescriptor.add_layer d pos kind p g
     = Some ((ConvDescriptor.with_layers (Py.list_insert pos kind (ConvDescriptor.layers d)) d,
              1), g)) /\
  (2 < h /\ 2 < w ->
     forall d' status g',
       ConvDescriptor.add_layer d pos kind p g = Some ((d', status), g') ->
       status = 0 /\
       ConvDescriptor.number_hidden_layers d' = ConvDescriptor.number_hidden_layers d + 1 /\
       ConvDescriptor.layers d' = Py.list_insert pos kind (ConvDescriptor.layers d)).
Proof.
  intros Hlast. unfold ConvDescriptor.add_layer. unfold_M.
  change (ConvDescriptor.shapes (ConvDescriptor.with_layers _ d))
    with (ConvDescriptor.shapes d).
  rewrite Hlast. cbn [lookup list_lookup]. split.
  - intros Hsmall. case_bool_decide; [|done].
    by rewrite bool_decide_eq_false_2 by lia.
  - intros [Hh Hw] d' status g'. rewrite !bool_decide_eq_true_2 by lia.
    match goal with
    | |- context [match ?branch g with _ => _ end] =>
        assert (Hbranch : forall d1 g1, branch g = Some (d1, g1) ->
                  ConvDescriptor.number_hidden_layers d1
                  = ConvDescriptor.number_hidden_layers d + 1 /\
                  ConvDescriptor.layers d1
                  = Py.list_insert pos kind (ConvDescriptor.layers d));
        [|destruct (branch g) as [[d1 g1]|]; [|done]]
    end.
    { intros d1 g1. repeat case_bool_decide.
      - by intros [= <- <-].
      - destruct (randint 0 65 g) as [[c g2]|]; [|done]. by intros [= <- <-].
      - by intros [= <- <-]. }
    destruct (Hbranch d1 g1 eq_refl) as [Hn Hl].
    unfold ConvDescriptor.reset_shapes.
    destruct (ConvDescriptor.reset_shapes_loop _ _ d1 []) as [acc|]; [|done].
    simpl. intros [= <- <- <-]. by conv_fields.
Qed.

(** C1 at a descriptor that [random_init] builds: one convolution over
    (3, 3, 1), cached shape (2, 2, 3).  [add_layer(0, 2, ...)] returns 1 and
    the sequence of layer kinds has grown from one entry to two. *)
Lemma conv_add_layer_failure_grows_kinds :
  exists d g,
    conv_small = Some (d, g) /\
    ConvDescriptor.shapes d = [[2; 2; 3]] /\
    ConvDescriptor.layers d = [2] /\
    exists d',
      ConvDescriptor.add_layer d 0 2 sample_params g = Some ((d', 1), g) /\
      ConvDescriptor.layers d' = [2; 2] /\
      d' <> d.
Proof.
  eexists _, _. split; [vm_compute; reflexivity|].
  split; [reflexivity|]. split; [reflexivity|].
  eexists. split; [vm_compute; reflexivity|]. split; [reflexivity | discriminate].
Qed.

(** ** ConvDescriptor: what [random_init] leaves *)

Lemma conv_accept_fields cs cf ps pf shape d g d' g' :
  ConvDescriptor.accept cs cf ps pf shape d g = Some (d', g') ->
  ConvDescriptor.filters d' = ConvDescriptor.filters d ++ [ConvDescriptor.Paired cf pf] /\
  ConvDescriptor.strides d' = ConvDescriptor.strides d ++ [ConvDescriptor.Paired cs ps] /\
  ConvDescriptor.shapes d' = ConvDescriptor.shapes d ++ [shape] /\
  ConvDescriptor.layers d' = ConvDescriptor.layers d /\
  ConvDescriptor.number_hidden_layers d' = ConvDescriptor.number_hidden_layers d.
Proof.
  unfold ConvDescriptor.accept. unfold_M.
  destruct (choice (drop 1 initializations) g) as [[init g1]|]; [|done].
  destruct (choice activations g1) as [[act g2]|]; [|done].
  by intros [= <- <-].
Qed.

(** The loop stores pairs only; kinds, filters and strides stay equally long;
    the layer count is either untouched, after [todo] accepted layers, or the
    number of accepted layers, after a rejection. *)
Lemma conv_random_init_loop_layout (todo : nat) :
  forall (i : Z) (shape : list Z) (max_stride max_filter : Z) (d : ConvDescriptor.t) (g : rng)
         (d' : ConvDescriptor.t) (g' : rng),
  ConvDescriptor.random_init_loop todo i shape max_stride max_filter d g = Some (d', g') ->
  Forall paired_entry (ConvDescriptor.filters d) ->
  Z.of_nat (length (ConvDescriptor.filters d)) = i ->
  length (ConvDescriptor.layers d) = length (ConvDescriptor.filters d) ->
  length (ConvDescriptor.strides d) = length (ConvDescriptor.filters d) ->
  Forall paired_entry (ConvDescriptor.filters d') /\
  length (ConvDescriptor.layers d') = length (ConvDescriptor.filters d') /\
  length (ConvDescriptor.strides d') = length (ConvDescriptor.filters d') /\
  ((ConvDescriptor.number_hidden_layers d' = ConvDescriptor.number_hidden_layers d /\
    length (ConvDescriptor.filters d') = (length (ConvDescriptor.filters d) + todo)%nat) \/
   ConvDescriptor.number_hidden_layers d' = Z.of_nat (length (ConvDescriptor.filters d'))).
Proof.
  induction todo as [|todo IH]; intros i shape ms mf d g d' g' Hrun Hp Hi Hl Hs.
  { simpl in Hrun. injection Hrun as <- <-. repeat split; try done. left. split; [done | lia]. }
  cbn [ConvDescriptor.random_init_loop] in Hrun. unfold_M.
  destruct (choice [0; 1; 2] g) as [[kind g1]|]; [|done].
  set (d1 := ConvDescriptor.with_layers (ConvDescriptor.layers d ++ [kind]) d) in *.
  assert (Htrunc : forall g0, Some (ConvDescriptor.truncate i d1, g0) = Some (d', g') ->
    Forall paired_entry (ConvDescriptor.filters d') /\
    length (ConvDescriptor.layers d') = length (ConvDescriptor.filters d') /\
    length (ConvDescriptor.strides d') = length (ConvDescriptor.filters d') /\
    ((ConvDescriptor.number_hidden_layers d' = ConvDescriptor.number_hidden_layers d /\
      length (ConvDescriptor.filters d') = (length (ConvDescriptor.filters d) + S todo)%nat) \/
     ConvDescriptor.number_hidden_layers d' = Z.of_nat (length (ConvDescriptor.filters d')))).
  { intros g0 [= <- <-]. unfold ConvDescriptor.truncate, d1. conv_fields.
    rewrite removelast_last. repeat split; try done. by right. }
  destruct (ConvDescriptor.draw_strides_filters ms mf g1) as [[[cs cf] g2]|]; [|done].
  destruct (compute_output shape 0 cf cs) as [shape1|]; [|done].
  destruct (ConvDescriptor.too_small shape1 d1) as [[|]|]; [by eapply Htrunc| |done].
  destruct (ConvDescriptor.companion kind shape1 ms mf d1 g2) as [[[[[ps pf] shape2]|] g3]|];
    [|by eapply Htrunc|done].
  destruct (ConvDescriptor.accept cs cf ps pf shape2 d1 g3) as [[d2 g4]|] eqn:Hacc; [|done].
  destruct (conv_accept_fields _ _ _ _ _ _ _ _ _ Hacc) as (Hf2 & Hs2 & _ & Hl2 & Hn2).
  unfold d1 in Hf2, Hs2, Hl2, Hn2. conv_fields.
  destruct (IH _ _ _ _ _ _ _ _ Hrun) as (Hp' & Hl' & Hs' & Hn').
  - rewrite Hf2. apply Forall_app. split; [done|]. repeat constructor. by eexists _, _.
  - rewrite Hf2, length_app. simpl. lia.
  - rewrite Hf2, Hl2, !length_app. simpl. lia.
  - rewrite Hf2, Hs2, !length_app. simpl. lia.
  - split; [done|]. split; [done|]. split; [done|].
    destruct Hn' as [[Hn' Hlen]|Hn']; [left|by right].
    rewrite Hn', Hn2, Hlen, Hf2, length_app. simpl. split; [done | lia].
Qed.

(** After [random_init], kinds, filters and strides are equally long and hold
    pairs; the layer count is that length after a rejection and otherwise the
    first draw plus one, which the length may exceed. *)
Lemma conv_random_init_layout (d : ConvDescriptor.t) (input_size : list Z)
    (output_size nlayers max_stride max_filter : Z) (no_batch : option bool) (g : rng)
    (d' : ConvDescriptor.t) (g' : rng) :
  ConvDescriptor.random_init d input_size output_size nlayers max_stride max_filter no_batch g
  = Some (d', g') ->
  Forall paired_entry (ConvDescriptor.filters d') /\
  length (ConvDescriptor.layers d') = length (ConvDescriptor.filters d') /\
  length (ConvDescriptor.strides d') = length (ConvDescriptor.filters d') /\
  ((1 <= ConvDescriptor.number_hidden_layers d' <= nlayers /\
    Z.of_nat (length (ConvDescriptor.filters d')) = nlayers) \/
   ConvDescriptor.number_hidden_layers d' = Z.of_nat (length (ConvDescriptor.filters d'))).
Proof.
  unfold ConvDescriptor.random_init. unfold_M.
  destruct (randint 0 nlayers g) as [[r g1]|] eqn:Hr; [|done].
  assert (0 <= r < nlayers) as Hrange.
  { unfold randint in Hr. case_bool_decide; [|done]. injection Hr as <- <-.
    pose proof (Z.mod_pos_bound (g 0%nat) (nlayers - 0)). lia. }
  match goal with
  | |- context [ConvDescriptor.random_init_loop _ _ _ _ _ ?x g1] => set (d0 := x)
  end.
  destruct (ConvDescriptor.random_init_loop _ _ _ _ _ d0 g1) as [[d1 g2]|] eqn:Hloop; [|done].
  destruct (conv_random_init_loop_layout _ _ _ _ _ _ _ _ _ Hloop) as (Hp & Hl & Hs & Hn);
    try done.
  assert (Hgoal : Forall paired_entry (ConvDescriptor.filters d1) /\
    length (ConvDescriptor.layers d1) = length (ConvDescriptor.filters d1) /\
    length (ConvDescriptor.strides d1) = length (ConvDescriptor.filters d1) /\
    ((1 <= ConvDescriptor.number_hidden_layers d1 <= nlayers /\
      Z.of_nat (length (ConvDescriptor.filters d1)) = nlayers) \/
     ConvDescriptor.number_hidden_layers d1 = Z.of_nat (length (ConvDescriptor.filters d1)))).
  { split; [done|]. split; [done|]. split; [done|].
    destruct Hn as [[Hn Hlen]|Hn]; [left|by right].
    unfold d0 in Hn, Hlen. conv_fields. simpl in Hlen. lia. }
  destruct no_batch as [[|]|].
  - by intros [= <- <-].
  - destruct (choice [true; false] g2) as [[b g3]|]; [|done]. by intros [= <- <-].
  - by intros [= <- <-].
Qed.

(** Whatever [random_init] returns with a positive layer count makes
    [reset_shapes] raise. *)
Lemma conv_reset_shapes_raises_after_random_init (d : ConvDescriptor.t) (input_size : list Z)
    (output_size nlayers max_stride max_filter : Z) (no_batch : option bool) (g : rng)
    (d' : ConvDescriptor.t) (g' : rng) :
  ConvDescriptor.random_init d input_size output_size nlayers max_stride max_filter no_batch g
  = Some (d', g') ->
  0 < ConvDescriptor.number_hidden_layers d' ->
  ConvDescriptor.reset_shapes d' = None.
Proof.
  intros Hrun Hpos.
  destruct (conv_random_init_layout _ _ _ _ _ _ _ _ _ _ Hrun) as (Hp & _ & _ & Hn).
  destruct (ConvDescriptor.filters d') as [|e filters] eqn:Hf.
  { simpl in Hn. lia. }
  apply Forall_cons in Hp as [(conv & pool & ->) _].
  eapply conv_reset_shapes_paired; [done|]. by rewrite Hf.
Qed.

(** C2 at a genome that [random_init] accepts: one layer over (28, 28, 3), a
    convolution and its pooling companion, cached shape (26, 26, 3).
    [reset_shapes] hands the pair to [compute_output] and raises; no sequence
    of shapes comes back to compare with the cache. *)
Lemma conv_reset_shapes_raises_on_accepted_genome :
  exists d g,
    conv_one = Some (d, g) /\
    ConvDescriptor.number_hidden_layers d = 1 /\
    ConvDescriptor.filters d = [ConvDescriptor.Paired [2; 2; 3] (Some [2; 2; 3])] /\
    ConvDescriptor.shapes d = [[26; 26; 3]] /\
    ConvDescriptor.reset_shapes d = None.
Proof.
  eexists _, _. split; [vm_compute; reflexivity|]. by vm_compute.
Qed.

(** C3 at two descriptors that [random_init] builds.  With [nlayers = 2] and a
    first draw of 0 both layers are accepted and the layer count stays 1, so
    kinds, filters and strides have two entries each.  With [nlayers = 1],
    [remove_layer(0)] empties filters and strides, brings the layer count to
    0 and leaves the one layer kind in place. *)
Lemma conv_sequences_drift_from_layer_count :
  (exists d g,
     conv_two_count_one = Some (d, g) /\
     ConvDescriptor.number_hidden_layers d = 1 /\
     length (ConvDescriptor.layers d) = 2%nat /\
     length (ConvDescriptor.filters d) = 2%nat /\
     length (ConvDescriptor.strides d) = 2%nat /\
     length (ConvDescriptor.shapes d) = 2%nat) /\
  (exists d g d',
     conv_one = Some (d, g) /\
     ConvDescriptor.remove_layer d 0 = Some d' /\
     ConvDescriptor.number_hidden_layers d' = 0 /\
     length (ConvDescriptor.layers d') = 1%nat /\
     length (ConvDescriptor.filters d') = 0%nat /\
     length (ConvDescriptor.strides d') = 0%nat).
Proof.
  split.
  - eexists _, _. split; [vm_compute; reflexivity|]. by vm_compute.
  - eexists _, _, _. split; [vm_compute; reflexivity|].
    split; [vm_compute; reflexivity|]. by vm_compute.
Qed.

(** ** [remove_random_layer] *)

(** The floor of [ConvDescriptor.remove_random_layer]: with one layer or none
    the status is -1 and the descriptor is the same. *)
Lemma conv_remove_random_layer_floor (d : ConvDescriptor.t) (g : rng) :
  ConvDescriptor.number_hidden_layers d <= 1 ->
  ConvDescriptor.remove_random_layer d g = Some ((d, -1), g).
Proof.
  intros H. unfold ConvDescriptor.remove_random_layer.
  by rewrite bool_decide_eq_false_2 by lia.
Qed.

Lemma length_list_pop {A} (l l' : list A) (i : Z) :
  Py.list_pop i l = Some l' -> S (length l') = length l.
Proof.
  unfold Py.list_pop, Py.subscript. intros H.
  repeat case_bool_decide; simplify_option_eq; rewrite length_delete;
    first [lia | apply lookup_lt_is_Some_2; lia].
Qed.

(** Whatever [ConvDescriptor.remove_random_layer] returns, the layer count
    stays at 1 or above unless it already was below: status -1 comes with the
    same descriptor, status 0 with one filter less and a count, one less, that
    is still positive. *)
Lemma conv_remove_random_layer_result (d d' : ConvDescriptor.t) (status : Z) (g g' : rng) :
  ConvDescriptor.remove_random_layer d g = Some ((d', status), g') ->
  (status = -1 /\ d' = d /\ ConvDescriptor.number_hidden_layers d <= 1) \/
  (status = 0 /\ 1 <= ConvDescriptor.number_hidden_layers d' /\
   ConvDescriptor.number_hidden_layers d' = ConvDescriptor.number_hidden_layers d - 1 /\
   S (length (ConvDescriptor.filters d')) = length (ConvDescriptor.filters d)).
Proof.
  unfold ConvDescriptor.remove_random_layer. case_bool_decide as Hn.
  - unfold_M. destruct (randint _ _ g) as [[pos g1]|]; [|done].
    unfold ConvDescriptor.remove_layer, ConvDescriptor.reset_shapes.
    destruct (Py.list_pop pos (ConvDescriptor.filters d)) as [fs|] eqn:Hpop; [|done].
    cbn [mbind option_bind].
    destruct (Py.list_pop pos (ConvDescriptor.act_functions d)); [|done].
    cbn [mbind option_bind].
    destruct (Py.list_pop pos (ConvDescriptor.init_functions d)); [|done].
    cbn [mbind option_bind].
    destruct (Py.list_pop pos (ConvDescriptor.strides d)); [|done].
    cbn [mbind option_bind].
    destruct (ConvDescriptor.reset_shapes_loop _ _ _ _); [|done].
    cbn [mbind option_bind]. intros [= <- <- <-]. right. conv_fields.
    apply length_list_pop in Hpop. repeat split; try done; lia.
  - intros [= <- <- <-]. left. repeat split; try done.
Qed.

(** [remove_layer] takes one item off filters, strides and the two sequences
    of choices and one off the layer count, and leaves the kinds as they
    are. *)
Lemma conv_remove_layer_keeps_kinds (d d' : ConvDescriptor.t) (pos : Z) :
  ConvDescriptor.remove_layer d pos = Some d' ->
  ConvDescriptor.layers d' = ConvDescriptor.layers d /\
  ConvDescriptor.number_hidden_layers d' = ConvDescriptor.number_hidden_layers d - 1 /\
  S (length (ConvDescriptor.filters d')) = length (ConvDescriptor.filters d) /\
  S (length (ConvDescriptor.strides d')) = length (ConvDescriptor.strides d) /\
  S (length (ConvDescriptor.act_functions d')) = length (ConvDescriptor.act_functions d) /\
  S (length (ConvDescriptor.init_functions d')) = length (ConvDescriptor.init_functions d).
Proof.
  unfold ConvDescriptor.remove_layer, ConvDescriptor.reset_shapes.
  destruct (Py.list_pop pos (ConvDescriptor.filters d)) as [fs|] eqn:Hf; [|done].
  cbn [mbind option_bind].
  destruct (Py.list_pop pos (ConvDescriptor.act_functions d)) as [acts|] eqn:Ha; [|done].
  cbn [mbind option_bind].
  destruct (Py.list_pop pos (ConvDescriptor.init_functions d)) as [inits|] eqn:Hi; [|done].
  cbn [mbind option_bind].
  destruct (Py.list_pop pos (ConvDescriptor.strides d)) as [ss|] eqn:Hs; [|done].
  cbn [mbind option_bind].
  destruct (ConvDescriptor.reset_shapes_loop _ _ _ _); [|done].
  cbn [mbind option_bind]. intros [= <-]. conv_fields.
  apply length_list_pop in Hf, Ha, Hi, Hs. by repeat split.
Qed.

(** C8 at a descriptor that [random_init] builds with two layers: whichever
    index is drawn, [remove_random_layer] raises, out of [reset_shapes], where
    status 0 is expected. *)
Lemma conv_remove_random_layer_raises_after_random_init :
  exists d g0,
    conv_two = Some (d, g0) /\
    ConvDescriptor.number_hidden_layers d = 2 /\
    length (ConvDescriptor.filters d) = 2%nat /\
    forall g, ConvDescriptor.remove_random_layer d g = None.
Proof.
  eexists _, _. split; [vm_compute; reflexivity|].
  split; [reflexivity|]. split; [reflexivity|].
  intros g. unfold ConvDescriptor.remove_random_layer.
  rewrite bool_decide_eq_true_2 by (vm_compute; done).
  unfold_M. cbn [ConvDescriptor.filters length].
  destruct (randint_inside 0 (Z.of_nat 2) g) as (pos & Hpos & ->); [lia|].
  assert (pos = 0 \/ pos = 1) as [-> | ->] by lia; reflexivity.
Qed.

(** [shuffled] never raises and returns the items in some order. *)
Lemma draw_all_permutation (k : nat) :
  forall (pool : list Z) (g : rng),
  length pool = k ->
  exists order g', draw_all k pool g = Some (order, g') /\ order ≡ₚ pool.
Proof.
  induction k as [|k IH]; intros pool g Hlen.
  { destruct pool; [|done]. by exists [], g. }
  cbn [draw_all]. unfold Random.bind, Random.lift, Random.ret.
  destruct (randint_inside 0 (Z.of_nat (length pool)) g) as (i & Hi & ->); [lia|].
  destruct (lookup_lt_is_Some_2 pool (Z.to_nat i)) as [x Hx]; [lia|].
  rewrite Hx.
  destruct (IH (delete (Z.to_nat i) pool) (fun n => g (S n))) as (rest & g' & -> & Hperm).
  { rewrite length_delete by eauto. lia. }
  exists (x :: rest), g'. split; [done|].
  rewrite Hperm. symmetry. by apply delete_Permutation.
Qed.

(** Below two layers no index passes the test of
    [TConvDescriptor.remove_random_layer]. *)
Lemma tconv_deletable_floor (d : TConvDescriptor.t) (pos : Z) :
  TConvDescriptor.number_hidden_layers d <= 1 -> TConvDescriptor.deletable d pos = Some false.
Proof.
  intros H. unfold TConvDescriptor.deletable. by rewrite bool_decide_eq_false_2 by lia.
Qed.

Lemma tconv_remove_first_deletable_none (d : TConvDescriptor.t) (order : list Z) :
  Forall (fun pos => TConvDescriptor.deletable d pos = Some false) order ->
  TConvDescriptor.remove_first_deletable d order = Some (d, -1).
Proof.
  induction 1 as [|pos order Hpos _ IH]; [done|].
  simpl. by rewrite Hpos.
Qed.

Lemma tconv_remove_first_deletable_result (d d' : TConvDescriptor.t) (order : list Z)
    (status : Z) :
  TConvDescriptor.remove_first_deletable d order = Some (d', status) ->
  (status = -1 /\ d' = d /\
   Forall (fun pos => TConvDescriptor.deletable d pos = Some false) order) \/
  (status = 0 /\ 1 <= TConvDescriptor.number_hidden_layers d' /\
   TConvDescriptor.number_hidden_layers d' = TConvDescriptor.number_hidden_layers d - 1 /\
   S (length (TConvDescriptor.filters d')) = length (TConvDescriptor.filters d)).
Proof.
  induction order as [|pos order IH]; simpl.
  { intros [= <- <-]. left. by repeat split. }
  destruct (TConvDescriptor.deletable d pos) as [[|]|] eqn:Hok; [|simpl|done].
  - cbn [mbind option_bind]. intros Hrem. right.
    assert (1 < TConvDescriptor.number_hidden_layers d) as Hn.
    { unfold TConvDescriptor.deletable in Hok. case_bool_decide; [lia | done]. }
    revert Hrem. unfold TConvDescriptor.remove_layer, TConvDescriptor.reset_shapes.
    destruct (Py.list_pop pos (TConvDescriptor.filters d)) as [fs|] eqn:Hpop; [|done].
    cbn [mbind option_bind].
    destruct (Py.list_pop pos (TConvDescriptor.act_functions d)); [|done].
    cbn [mbind option_bind].
    destruct (Py.list_pop pos (TConvDescriptor.init_functions d)); [|done].
    cbn [mbind option_bind].
    destruct (Py.list_pop pos (TConvDescriptor.strides d)); [|done].
    cbn [mbind option_bind].
    destruct (TConvDescriptor.reset_shapes_loop _ _ _ _); [|done].
    cbn [mbind option_bind]. intros [= <- <-]. tconv_fields.
    apply length_list_pop in Hpop. repeat split; try done; lia.
  - intros Hrest. destruct (IH Hrest) as [(-> & -> & Hall)|Hremoved]; [left|by right].
    repeat split; try done. by constructor.
Qed.

(** The floor of [TConvDescriptor.remove_random_layer]: with one layer or
    none the status is -1 and the descriptor is the same. *)
Lemma tconv_remove_random_layer_floor (d : TConvDescriptor.t) (g : rng) :
  TConvDescriptor.number_hidden_layers d <= 1 ->
  exists g', TConvDescriptor.remove_random_layer d g = Some ((d, -1), g').
Proof.
  intros Hn. unfold TConvDescriptor.remove_random_layer, shuffled. unfold_M.
  destruct (draw_all_permutation
              (length (Z.of_nat <$> seq 0 (length (TConvDescriptor.filters d))))
              (Z.of_nat <$> seq 0 (length (TConvDescriptor.filters d))) g eq_refl)
    as (order & g' & -> & _).
  exists g'. rewrite tconv_remove_first_deletable_none; [done|].
  apply Forall_forall. intros pos _. by apply tconv_deletable_floor.
Qed.

(** Whatever [TConvDescriptor.remove_random_layer] returns: status -1 comes
    with the same descriptor and no index of the filters passing the test,
    status 0 with one filter less and a count, one less, that is still
    positive. *)
Lemma tconv_remove_random_layer_result (d d' : TConvDescriptor.t) (status : Z) (g g' : rng) :
  TConvDescriptor.remove_random_layer d g = Some ((d', status), g') ->
  (status = -1 /\ d' = d /\
   forall pos : nat, (pos < length (TConvDescriptor.filters d))%nat ->
     TConvDescriptor.deletable d (Z.of_nat pos) = Some false) \/
  (status = 0 /\ 1 <= TConvDescriptor.number_hidden_layers d' /\
   TConvDescriptor.number_hidden_layers d' = TConvDescriptor.number_hidden_layers d - 1 /\
   S (length (TConvDescriptor.filters d')) = length (TConvDescriptor.filters d)).
Proof.
  unfold TConvDescriptor.remove_random_layer, shuffled. unfold_M.
  destruct (draw_all_permutation
              (length (Z.of_nat <$> seq 0 (length (TConvDescriptor.filters d))))
              (Z.of_nat <$> seq 0 (length (TConvDescriptor.filters d))) g eq_refl)
    as (order & g1 & -> & Hperm).
  destruct (TConvDescriptor.remove_first_deletable d order) as [[d1 r]|] eqn:Hrun; [|done].
  intros [= <- <- <-].
  destruct (tconv_remove_first_deletable_result _ _ _ _ Hrun) as [(-> & -> & Hall)|Hrem];
    [left|by right].
  repeat split; try done. intros pos Hpos.
  rewrite Forall_forall in Hall. apply Hall. rewrite Hperm.
  apply list_elem_of_fmap. exists pos. split; [done|]. apply elem_of_seq. lia.
Qed.

(** A removal that goes through: towards an output side of 4, index 0 of the
    two layers passes the test, since (31 - 1) / 2 - 3 = 12 > 4. *)
Example tconv_remove_random_layer_sample :
  let d := TConvDescriptor.with_dims [7; 7; 50] [4; 4; 3] tconv_two in
  exists d' g',
    TConvDescriptor.remove_random_layer d (replay []) = Some ((d', 0), g') /\
    TConvDescriptor.filters d' = [[3; 3; 3]] /\
    TConvDescriptor.number_hidden_layers d' = 1 /\
    TConvDescriptor.output_shapes d' = [[-1; 15; 15; 3]].
Proof. eexists _, _. split; [vm_compute; reflexivity|]. by vm_compute. Qed.

(** ** [remove_random_layer] where the cache can be recomputed *)

Lemma list_pop_inside {A} (l : list A) (i : Z) :
  0 <= i < Z.of_nat (length l) -> Py.list_pop i l = Some (delete (Z.to_nat i) l).
Proof. intros H. unfold Py.list_pop. by rewrite subscript_inside. Qed.

(** On the flat layout [ConvDescriptor.remove_random_layer] goes through: with
    two layers or more it returns 0, one layer removed. *)
Lemma conv_remove_random_layer_flat (d : ConvDescriptor.t) (g : rng) :
  conv_flat d ->
  1 < ConvDescriptor.number_hidden_layers d ->
  exists d' g',
    ConvDescriptor.remove_random_layer d g = Some ((d', 0), g') /\
    ConvDescriptor.number_hidden_layers d' = ConvDescriptor.number_hidden_layers d - 1 /\
    S (length (ConvDescriptor.filters d')) = length (ConvDescriptor.filters d).
Proof.
  intros (Hn & Hls & Hla & Hli & Hf & Hs & Hin) Hmore.
  unfold ConvDescriptor.remove_random_layer. rewrite bool_decide_eq_true_2 by lia.
  unfold_M.
  destruct (randint_inside 0 (Z.of_nat (length (ConvDescriptor.filters d))) g)
    as (pos & Hpos & ->); [lia|].
  unfold ConvDescriptor.remove_layer.
  rewrite !list_pop_inside by lia. cbn [mbind option_bind].
  match goal with
  | |- context [ConvDescriptor.reset_shapes ?x] => set (d1 := x)
  end.
  destruct (conv_reset_shapes_total d1) as (acc & -> & _).
  - unfold d1. conv_fields. rewrite length_delete by (apply lookup_lt_is_Some_2; lia). lia.
  - unfold d1. conv_fields. rewrite length_delete by (apply lookup_lt_is_Some_2; lia). lia.
  - unfold d1. conv_fields. by apply Forall_delete.
  - unfold d1. conv_fields. by apply Forall_delete.
  - done.
  - eexists _, _. split; [reflexivity|]. unfold d1. conv_fields.
    split; [done|]. rewrite length_delete by (apply lookup_lt_is_Some_2; lia). lia.
Qed.

Lemma tconv_deletable_total (d : TConvDescriptor.t) (pos : Z) :
  tconv_cached d ->
  0 <= pos < Z.of_nat (length (TConvDescriptor.filters d)) ->
  exists ok, TConvDescriptor.deletable d pos = Some ok.
Proof.
  intros (Hn & Hls & _ & _ & Hf & Hs & _ & Hout & last & Hlast & Hlen) Hpos.
  unfold TConvDescriptor.deletable. case_bool_decide; [|by eexists].
  rewrite Hlast. cbn [mbind option_bind].
  destruct last as [|x [|h last]]; simpl in Hlen; try lia. cbn [lookup list_lookup mbind option_bind].
  unfold Py.getitem. rewrite !subscript_inside by lia. cbn [mbind option_bind].
  destruct (lookup_lt_is_Some_2 (TConvDescriptor.strides d) (Z.to_nat pos)) as [st Hst]; [lia|].
  destruct (lookup_lt_is_Some_2 (TConvDescriptor.filters d) (Z.to_nat pos)) as [fl Hfl]; [lia|].
  rewrite Hst, Hfl. cbn [mbind option_bind].
  destruct (Forall_lookup_1 _ _ _ _ Hs Hst) as [Hstlen Hnz].
  pose proof (Forall_lookup_1 _ _ _ _ Hf Hfl) as Hfllen. simpl in Hfllen.
  destruct st as [|s st]; simpl in Hstlen; [lia|].
  destruct fl as [|f fl]; simpl in Hfllen; [lia|].
  destruct (TConvDescriptor.output_dim d) as [|t0 out]; simpl in Hout; [lia|].
  cbn [lookup list_lookup mbind option_bind].
  rewrite bool_decide_eq_false_2 by (intros ->; by apply Hnz). by eexists.
Qed.

Lemma tconv_remove_layer_total (d : TConvDescriptor.t) (pos : Z) :
  tconv_cached d ->
  0 <= pos < Z.of_nat (length (TConvDescriptor.filters d)) ->
  exists d', TConvDescriptor.remove_layer d pos = Some d'.
Proof.
  intros (Hn & Hls & Hla & Hli & Hf & Hs & Hin & _) Hpos.
  unfold TConvDescriptor.remove_layer.
  rewrite !list_pop_inside by lia. cbn [mbind option_bind].
  match goal with
  | |- context [TConvDescriptor.reset_shapes ?x] => set (d1 := x)
  end.
  destruct (tconv_reset_shapes_total d1) as (acc & -> & _); [|by eexists].
  unfold tconv_consistent, d1. tconv_fields.
  rewrite !length_delete by (apply lookup_lt_is_Some_2; lia).
  split; [lia|]. split; [lia|]. split; [by apply Forall_delete|].
  split; [|done]. apply Forall_delete.
  eapply Forall_impl; [exact Hs|]. by intros s [? _].
Qed.

(** On such a descriptor [TConvDescriptor.remove_random_layer] always returns
    a status. *)
Lemma tconv_remove_random_layer_total (d : TConvDescriptor.t) (g : rng) :
  tconv_cached d ->
  exists d' status g', TConvDescriptor.remove_random_layer d g = Some ((d', status), g').
Proof.
  intros Hd. unfold TConvDescriptor.remove_random_layer, shuffled. unfold_M.
  destruct (draw_all_permutation
              (length (Z.of_nat <$> seq 0 (length (TConvDescriptor.filters d))))
              (Z.of_nat <$> seq 0 (length (TConvDescriptor.filters d))) g eq_refl)
    as (order & g1 & -> & Hperm).
  assert (Hrange : Forall (fun pos => 0 <= pos < Z.of_nat (length (TConvDescriptor.filters d)))
                     order).
  { rewrite Hperm. apply Forall_fmap, Forall_forall. intros pos Hin.
    apply elem_of_seq in Hin. simpl. lia. }
  assert (exists r, TConvDescriptor.remove_first_deletable d order = Some r) as [[d' r] ->].
  { clear Hperm. induction Hrange as [|pos order Hpos _ IH]; [by eexists|].
    simpl. destruct (tconv_deletable_total d pos Hd Hpos) as [[|] ->]; simpl.
    - destruct (tconv_remove_layer_total d pos Hd Hpos) as [d' ->]. by eexists.
    - exact IH. }
  by eexists _, _, _.
Qed.

(** ** MLPDescriptor: [codify_components] *)

Lemma list_index_elem_of `{EqDecision A} (x : A) (l : list A) :
  x ∈ l -> exists i, Py.list_index x l = Some i /\ 0 <= i /\ l !! Z.to_nat i = Some x.
Proof.
  induction l as [|y l IH]; [by intros ?%elem_of_nil|].
  intros Hin. simpl. destruct (decide (x = y)) as [->|Hne].
  { exists 0. by repeat split. }
  apply elem_of_cons in Hin as [?|Hin]; [done|].
  destruct (IH Hin) as (i & -> & Hi & Hat). exists (Z.succ i). simpl.
  split; [done|]. split; [lia|].
  replace (Z.to_nat (Z.succ i)) with (S (Z.to_nat i)) by lia. done.
Qed.

Lemma mapM_list_index `{EqDecision A} (ref l : list A) :
  Forall (fun x => x ∈ ref) l ->
  exists idx,
    mapM (fun x => Py.list_index x ref) l = Some idx /\
    length idx = length l /\
    Forall2 (fun x i => 0 <= i /\ ref !! Z.to_nat i = Some x) l idx.
Proof.
  induction 1 as [|x l Hx _ (idx & Hidx & Hlen & Hall)].
  { exists []. by repeat split. }
  destruct (list_index_elem_of x ref Hx) as (i & Hi & Hpos & Hat).
  exists (i :: idx). simpl. rewrite Hi. simpl. rewrite Hidx. simpl.
  split; [done|]. split; [by rewrite Hlen|]. by constructor.
Qed.

(** On a descriptor whose [dims] is a plain list of [hidden_layer_count]
    widths, with one initializer and one activation more, all from the
    catalogs, and [hidden_layer_count <= max_hidden_layers], the code is the
    plain list of the layer count, the widths, the catalog positions of the
    initializers and those of the activations, each of the three blocks
    filled with -1 up to [max_hidden_layers + 1] entries: [1 + 3 *
    (max_hidden_layers + 1)] entries in all. *)
Lemma mlp_codify_listed (d : MLPDescriptor.t) (max_hidden_layers : Z)
    (ref_init : list (option initialization)) (ref_act : list (option activation)) :
  mlp_listed d ->
  MLPDescriptor.number_hidden_layers d <= max_hidden_layers ->
  Forall (fun f => f ∈ ref_init) (MLPDescriptor.init_functions d) ->
  Forall (fun f => f ∈ ref_act) (MLPDescriptor.act_functions d) ->
  exists widths aux_f aux_a code,
    MLPDescriptor.dims d = Py.PyList widths /\
    Forall2 (fun f i => 0 <= i /\ ref_init !! Z.to_nat i = Some f)
      (MLPDescriptor.init_functions d) aux_f /\
    Forall2 (fun f i => 0 <= i /\ ref_act !! Z.to_nat i = Some f)
      (MLPDescriptor.act_functions d) aux_a /\
    MLPDescriptor.codify_components d max_hidden_layers ref_init ref_act
    = Some (Py.PyList code) /\
    code = [MLPDescriptor.number_hidden_layers d]
           ++ (widths ++ Py.list_repeat (-1) (max_hidden_layers + 1 - Z.of_nat (length widths)))
           ++ (aux_f ++ Py.list_repeat (-1) (max_hidden_layers + 1 - Z.of_nat (length aux_f)))
           ++ (aux_a ++ Py.list_repeat (-1) (max_hidden_layers + 1 - Z.of_nat (length aux_a))) /\
    Z.of_nat (length code) = 1 + 3 * (max_hidden_layers + 1).
Proof.
  intros (widths & Hdims & Hw & Hi & Ha) Hmax Hfi Hfa.
  destruct (mapM_list_index ref_init _ Hfi) as (aux_f & Hmf & Hlf & Hallf).
  destruct (mapM_list_index ref_act _ Hfa) as (aux_a & Hma & Hla & Halla).
  exists widths, aux_f, aux_a. eexists.
  split; [done|]. split; [done|]. split; [done|].
  unfold MLPDescriptor.codify_components. rewrite Hdims, Hmf, Hma.
  cbn [Py.add Py.items mbind option_bind].
  split; [|split; [reflexivity|]].
  - by rewrite <- !app_assoc.
  - unfold Py.list_repeat. rewrite !length_app, !length_replicate. simpl. lia.
Qed.

(** C9 at a descriptor that [random_init] builds and [add_layer] then
    touches.  After [random_init] the code has its 19 entries.  [add_layer]
    at position 0 makes the widths the array that [np.insert] returns; the
    sums of [codify_components] are then element-wise, and the sum of three
    entries with the four initializer positions raises. *)
Lemma mlp_codify_raises_after_add_layer :
  exists d g,
    mlp_drawn = Some (d, g) /\
    MLPDescriptor.number_hidden_layers d = 2 /\
    MLPDescriptor.dims d = Py.PyList [8; 12] /\
    MLPDescriptor.codify_components d 5 initializations activations
    = Some (Py.PyList [2; 8; 12; -1; -1; -1; -1; 0; 2; 1; -1; -1; -1; 1; 0; 6; -1; -1; -1]) /\
    exists d',
      MLPDescriptor.add_layer d 0 7 (Some GlorotNormal) (Some relu) (1 # 2) = Some d' /\
      MLPDescriptor.number_hidden_layers d' = 3 /\
      MLPDescriptor.dims d' = Py.NdArray [7; 8; 12] /\
      length (MLPDescriptor.init_functions d') = 4%nat /\
      length (MLPDescriptor.act_functions d') = 4%nat /\
      MLPDescriptor.codify_components d' 5 initializations activations = None.
Proof.
  eexists _, _. split; [vm_compute; reflexivity|].
  split; [reflexivity|]. split; [reflexivity|]. split; [reflexivity|].
  eexists. split; [vm_compute; reflexivity|]. by vm_compute.
Qed.

(** ** MLPDescriptor: what [random_init] leaves *)

Lemma draw_dims_length (max_layer_size : Z) (k : nat) (g : rng) ws g' :
  MLPDescriptor.draw_dims max_layer_size k g = Some (ws, g') -> length ws = k.
Proof.
  revert g ws g'. induction k as [|k IH]; intros g ws g'; simpl; unfold_M.
  { by intros [= <- <-]. }
  destruct (randint 4 max_layer_size g) as [[w g1]|]; [|done].
  destruct (MLPDescriptor.draw_dims max_layer_size k g1) as [[ws1 g2]|] eqn:Hrec; [|done].
  intros [= <- <-]. simpl. f_equal. by eapply IH.
Qed.

Lemma choice_elem_of {A} (a : list A) (g : rng) x g' :
  choice a g = Some (x, g') -> x ∈ a.
Proof.
  unfold choice, Random.bind, Random.lift.
  destruct (randint _ _ g) as [[i g1]|]; [|done].
  destruct (a !! Z.to_nat i) as [y|] eqn:Hat; [|done].
  intros [= <- <-]. by eapply list_elem_of_lookup_2.
Qed.

Lemma choices_length_elem_of {A} (a : list A) (k : nat) (g : rng) xs g' :
  choices a k g = Some (xs, g') -> length xs = k /\ Forall (fun x => x ∈ a) xs.
Proof.
  revert g xs g'. induction k as [|k IH]; intros g xs g'; simpl;
    unfold Random.bind, Random.ret.
  { by intros [= <- <-]. }
  destruct (choice a g) as [[x g1]|] eqn:Hx; [|done].
  destruct (choices a k g1) as [[xs1 g2]|] eqn:Hrec; [|done].
  intros [= <- <-]. destruct (IH _ _ _ Hrec) as [Hlen Hall].
  split; [simpl; by f_equal|]. constructor; [by eapply choice_elem_of | done].
Qed.

(** With [nlayers] and [max_layer_size] given, [random_init] leaves a plain
    list of [hidden_layer_count] widths, one initializer and one activation
    more, all from the catalogs, and a layer count between 1 and [nlayers]. *)
Lemma mlp_random_init_listed (d : MLPDescriptor.t) (input_size output_size : option MLPDescriptor.size)
    (nlayers max_layer_size : Z) (no_drop no_batch : option bool) (g : rng)
    (d' : MLPDescriptor.t) (g' : rng) :
  MLPDescriptor.random_init d input_size output_size (Some nlayers) (Some max_layer_size)
    no_drop no_batch g = Some (d', g') ->
  mlp_listed d' /\
  1 <= MLPDescriptor.number_hidden_layers d' <= nlayers /\
  Forall (fun f => f ∈ initializations) (MLPDescriptor.init_functions d') /\
  Forall (fun f => f ∈ activations) (MLPDescriptor.act_functions d').
Proof.
  unfold MLPDescriptor.random_init. unfold_M.
  match goal with
  | |- context [match ?m g with _ => _ end] => destruct (m g) as [[d1 g1]|]; [|done]
  end.
  match goal with
  | |- context [match ?m g1 with _ => _ end] => destruct (m g1) as [[d2 g2]|]; [|done]
  end.
  destruct (randint 0 nlayers g2) as [[r g3]|] eqn:Hr; [|done].
  assert (0 <= r < nlayers) as Hrange.
  { unfold randint in Hr. case_bool_decide; [|done]. injection Hr as <- <-.
    pose proof (Z.mod_pos_bound (g2 0%nat) (nlayers - 0)). lia. }
  destruct (MLPDescriptor.draw_dims _ _ g3) as [[ws g4]|] eqn:Hws; [|done].
  destruct (choices initializations _ g4) as [[inits g5]|] eqn:Hinits; [|done].
  destruct (choices activations _ g5) as [[acts g6]|] eqn:Hacts; [|done].
  apply draw_dims_length in Hws.
  apply choices_length_elem_of in Hinits as [Hli Hini].
  apply choices_length_elem_of in Hacts as [Hla Hact].
  set (P := fun d0 : MLPDescriptor.t =>
    mlp_listed d0 /\
    1 <= MLPDescriptor.number_hidden_layers d0 <= nlayers /\
    Forall (fun f => f ∈ initializations) (MLPDescriptor.init_functions d0) /\
    Forall (fun f => f ∈ activations) (MLPDescriptor.act_functions d0)).
  match goal with |- ?run = _ -> _ => change (run = Some (d', g') -> P d') end.
  set (d3 := MLPDescriptor.with_base _ (MLPDescriptor.with_dims (Py.PyList ws) d2)).
  assert (P d3) as Hd3.
  { unfold P, mlp_listed, d3. mlp_fields. split; [|by repeat split; try lia].
    exists ws. repeat split; try done; lia. }
  assert (forall b d0, P d0 ->
    P (MLPDescriptor.with_base (NetworkDescriptor.with_batch_norm b (MLPDescriptor.base d0)) d0))
    as Hbatch by (intros b d0; unfold P, mlp_listed; by mlp_fields).
  assert (forall probs b d0, P d0 ->
    P (MLPDescriptor.with_base
         (NetworkDescriptor.with_dropout_probs probs
            (NetworkDescriptor.with_dropout b (MLPDescriptor.base d0))) d0))
    as Hdrop by (intros probs b d0; unfold P, mlp_listed; by mlp_fields).
  clearbody d3 P.
  assert (forall d4 g7,
    match no_drop with
    | Some false =>
        fun g0 : rng =>
          match choice [true; false] g0 with
          | Some (x0, g'1) =>
              match rand (Z.to_nat (MLPDescriptor.number_hidden_layers d4 + 1)) g'1 with
              | Some (x1, g'2) =>
                  Some (MLPDescriptor.with_base
                          (NetworkDescriptor.with_dropout_probs x1
                             (NetworkDescriptor.with_dropout x0 (MLPDescriptor.base d4))) d4,
                        g'2)
              | None => None
              end
          | None => None
          end
    | _ => fun g0 : rng => Some (d4, g0)
    end g7 = Some (d', g') -> P d4 -> P d') as Hlast.
  { intros d4 g7. destruct no_drop as [[|]|]; try (by intros [= <- <-]).
    destruct (choice [true; false] g7) as [[b g8]|]; [|done].
    destruct (rand _ g8) as [[probs g9]|]; [|done].
    intros [= <- <-]. apply Hdrop. }
  destruct no_batch as [[|]|]; try (intros Hrun; by eapply Hlast).
  destruct (choice [true; false] g6) as [[b g7]|]; [|done].
  intros Hrun. eapply Hlast; [exact Hrun|]. by apply Hbatch.
Qed.

(** After such a [random_init] the code has [1 + 3 * (max_hidden_layers + 1)]
    entries for every [max_hidden_layers] from [nlayers] on and the two
    catalogs of the module. *)
Lemma mlp_codify_after_random_init (d : MLPDescriptor.t)
    (input_size output_size : option MLPDescriptor.size)
    (nlayers max_layer_size : Z) (no_drop no_batch : option bool) (g : rng)
    (d' : MLPDescriptor.t) (g' : rng) (max_hidden_layers : Z) :
  MLPDescriptor.random_init d input_size output_size (Some nlayers) (Some max_layer_size)
    no_drop no_batch g = Some (d', g') ->
  nlayers <= max_hidden_layers ->
  exists code,
    MLPDescriptor.codify_components d' max_hidden_layers initializations activations
    = Some (Py.PyList code) /\
    Z.of_nat (length code) = 1 + 3 * (max_hidden_layers + 1).
Proof.
  intros Hrun Hmax.
  destruct (mlp_random_init_listed _ _ _ _ _ _ _ _ _ _ Hrun) as (Hl & Hn & Hi & Ha).
  destruct (mlp_codify_listed d' max_hidden_layers initializations activations)
    as (ws & aux_f & aux_a & code & _ & _ & _ & Hcode & _ & Hlen); try done; [lia|].
  by exists code.
Qed.

(** * Further properties of the code *)

(** ** ShapeArithmetic: bounds and round trips *)

(** X1.  For positive input sides, filter sides and strides that are
    [int64] integers (so that every difference the code forms is one too), a
    contractive layer never enlarges a side and never returns a side below 1;
    a filter side of 2 or more makes a side of 2 or more strictly smaller. *)
Theorem compute_output_contractive_shrinks
    (h w : Z) (rest : list Z) (f0 f1 c : Z) (frest : list Z) (s0 s1 : Z) (srest : list Z)
    (kind : Z) :
  kind < 3 -> 1 <= h -> 1 <= w -> 1 <= f0 -> 1 <= f1 -> 1 <= s0 -> 1 <= s1 ->
  Forall Py.int64 [h; w; f0; f1; c; s0; s1] ->
  exists h' w',
    compute_output (h :: w :: rest) kind (f0 :: f1 :: c :: frest) (s0 :: s1 :: srest)
    = Some [h'; w'; c] /\
    Forall Py.int64 [h - f0; h - f0 + 1; w - f1; w - f1 + 1] /\
    1 <= h' <= h /\ 1 <= w' <= w /\
    (2 <= f0 -> 2 <= h -> h' < h) /\
    (2 <= f1 -> 2 <= w -> w' < w).
Proof.
  intros Hk Hh Hw Hf0 Hf1 Hs0 Hs1 Hin. unfold compute_output.
  rewrite bool_decide_eq_true_2 by done. simpl.
  eexists _, _. split; [reflexivity|].
  pose proof (div_is_floor (h - f0 + 1) s0 ltac:(lia)) as F0.
  pose proof (div_is_floor (w - f1 + 1) s1 ltac:(lia)) as F1.
  unfold is_floor in F0, F1.
  split.
  { open_int64 Hin.
    repeat (apply Forall_cons_2 || apply Forall_nil_2); unfold Py.int64; lia. }
  repeat split; try intros; nia.
Qed.

Lemma compute_output_contractive_shrinks_witness :
  exists h' w',
    compute_output [28; 28; 3] 0 [3; 3; 16] [2; 2; 1] = Some [h'; w'; 16] /\
    1 <= h' <= 28 /\ 1 <= w' <= 28 /\ h' < 28 /\ w' < 28.
Proof.
  destruct (compute_output_contractive_shrinks 28 28 [3] 3 3 16 [] 2 2 [1] 0)
    as (h' & w' & Hrun & _ & Hh & Hw & Hh' & Hw'); try lia; [solve_int64|].
  exists h', w'. split; [exact Hrun|]. repeat split; try lia.
Defined.

(** X2.  Shapes and filters of positive sides, in [int64].  With stride 1,
    the expansive layer undoes a contractive layer of the same filter whenever
    the filter fits in the input, and the contractive layer undoes the
    expansive one.  With a stride of 2 or more, contracting what was expanded
    with the same filter and stride gives one less than the side that was
    expanded (and 1 at least); this for strides and expanded sides in
    [int64]. *)
Theorem compute_output_expand_contract
    (h w f0 f1 c s0 s1 : Z) (rest frest srest : list Z) :
  1 <= h -> 1 <= w -> 1 <= f0 -> 1 <= f1 ->
  Forall Py.int64 [h; w; c] ->
  (f0 <= h -> f1 <= w ->
   exists mid,
     compute_output (h :: w :: rest) 0 (f0 :: f1 :: c :: frest) (1 :: 1 :: srest) = Some mid /\
     compute_output mid 4 (f0 :: f1 :: c :: frest) (1 :: 1 :: srest) = Some [h; w]) /\
  (1 <= s0 -> 1 <= s1 ->
   Forall Py.int64 [s0; s1; (h - 1) * s0 + f0; (w - 1) * s1 + f1] ->
   exists mid,
     compute_output (h :: w :: rest) 4 (f0 :: f1 :: c :: frest) (s0 :: s1 :: srest) = Some mid /\
     compute_output mid 0 (f0 :: f1 :: c :: frest) (s0 :: s1 :: srest)
     = Some [if bool_decide (s0 = 1) then h else Z.max (h - 1) 1;
             if bool_decide (s1 = 1) then w else Z.max (w - 1) 1; c]).
Proof.
  intros Hh Hw _ _ _. split.
  - intros Hf0 Hf1. eexists. split; [reflexivity|].
    unfold compute_output. simpl. rewrite !Z.div_1_r.
    do 3 f_equal; [|f_equal]; lia.
  - intros Hs0 Hs1 _. eexists. split; [reflexivity|].
    unfold compute_output. simpl.
    assert (Hdiv : forall a s, 1 <= a -> 1 <= s ->
              Z.max (((a - 1) * s + 1) `div` s) 1
              = if bool_decide (s = 1) then a else Z.max (a - 1) 1).
    { intros a s Ha Hs. case_bool_decide as E.
      - subst s. rewrite Z.div_1_r. lia.
      - f_equal. symmetry. apply (Z.div_unique _ _ _ 1); lia. }
    replace ((h - 1) * s0 + f0 - f0 + 1) with ((h - 1) * s0 + 1) by lia.
    replace ((w - 1) * s1 + f1 - f1 + 1) with ((w - 1) * s1 + 1) by lia.
    by rewrite !Hdiv by done.
Qed.

Lemma compute_output_expand_contract_witness :
  (exists mid,
     compute_output [28; 28; 3] 0 [3; 3; 16] [1; 1; 1] = Some mid /\
     compute_output mid 4 [3; 3; 16] [1; 1; 1] = Some [28; 28]) /\
  (exists mid,
     compute_output [7; 7; 50] 4 [3; 3; 16] [2; 2; 1] = Some mid /\
     compute_output mid 0 [3; 3; 16] [2; 2; 1] = Some [6; 6; 16]).
Proof.
  destruct (compute_output_expand_contract 28 28 3 3 16 1 1 [3] [] [1]) as [H1 _];
    [lia | lia | lia | lia | solve_int64 |].
  destruct (compute_output_expand_contract 7 7 3 3 16 2 2 [50] [] [1]) as [_ H2];
    [lia | lia | lia | lia | solve_int64 |].
  split; [apply H1; lia | apply H2; [lia | lia | solve_int64]].
Defined.

(** ** MLP: the model built from an [MLPDescriptor] *)

Lemma mlp_hidden_plan (d : MLPDescriptor.t) (lays : list nat) :
  forall x : tensor,
  Forall (fun lay =>
    (lay < length (Py.items (MLPDescriptor.dims d)))%nat /\
    (lay < length (MLPDescriptor.act_functions d))%nat /\
    (lay < length (MLPDescriptor.init_functions d))%nat /\
    (NetworkDescriptor.dropout (MLPDescriptor.base d) = true ->
     (lay < length (MLPDescriptor.dropout_probs d))%nat)) lays ->
  exists plan,
    MLP.hidden lays d x = Some (x ++ plan) /\
    Forall2 (fun lay t =>
      Py.items (MLPDescriptor.dims d) !! lay = Some t.1.1 /\
      MLPDescriptor.act_functions d !! lay = Some t.1.2 /\
      MLPDescriptor.init_functions d !! lay = Some t.2) lays (omap dense_of plan) /\
    (if NetworkDescriptor.dropout (MLPDescriptor.base d)
     then Forall2 (fun lay r => MLPDescriptor.dropout_probs d !! lay = Some r)
            lays (omap rate_of plan)
     else omap rate_of plan = []) /\
    length (omap norm_of plan)
    = (if NetworkDescriptor.batch_norm (MLPDescriptor.base d) then length lays else 0%nat).
Proof.
  induction lays as [|lay lays IH]; intros x Hlays.
  { exists []. rewrite app_nil_r. simpl. repeat split; try done.
    - destruct (NetworkDescriptor.dropout _); [constructor | done].
    - by destruct (NetworkDescriptor.batch_norm _). }
  apply Forall_cons in Hlays as [(Hd & Ha & Hi & Hp) Hlays].
  destruct (lookup_lt_is_Some_2 _ _ Hd) as [w Hw].
  destruct (lookup_lt_is_Some_2 _ _ Ha) as [a Hact].
  destruct (lookup_lt_is_Some_2 _ _ Hi) as [c Hinit].
  cbn [MLP.hidden]. rewrite Hw, Hact, Hinit. cbn [mbind option_bind].
  destruct (NetworkDescriptor.dropout (MLPDescriptor.base d)) eqn:Edrop.
  - destruct (lookup_lt_is_Some_2 _ _ (Hp eq_refl)) as [r Hr].
    rewrite Hr. cbn [mbind option_bind].
    destruct (NetworkDescriptor.batch_norm (MLPDescriptor.base d)) eqn:Enorm.
    + destruct (IH (((x ++ [Dense w a c]) ++ [Dropout r]) ++ [BatchNormalization]) Hlays)
        as (plan & Hrun & Hdense & Hrate & Hnorm).
      exists ([Dense w a c; Dropout r; BatchNormalization] ++ plan).
      rewrite Hrun. split; [by rewrite <- !app_assoc|].
      simpl. split; [by constructor|]. split; [by constructor | f_equal; exact Hnorm].
    + destruct (IH ((x ++ [Dense w a c]) ++ [Dropout r]) Hlays)
        as (plan & Hrun & Hdense & Hrate & Hnorm).
      exists ([Dense w a c; Dropout r] ++ plan).
      rewrite Hrun. split; [by rewrite <- !app_assoc|].
      simpl. split; [by constructor|]. split; [by constructor | done].
  - cbn [mbind option_bind].
    destruct (NetworkDescriptor.batch_norm (MLPDescriptor.base d)) eqn:Enorm.
    + destruct (IH ((x ++ [Dense w a c]) ++ [BatchNormalization]) Hlays)
        as (plan & Hrun & Hdense & Hrate & Hnorm).
      exists ([Dense w a c; BatchNormalization] ++ plan).
      rewrite Hrun. split; [by rewrite <- !app_assoc|].
      simpl. split; [by constructor|]. split; [done | f_equal; exact Hnorm].
    + destruct (IH (x ++ [Dense w a c]) Hlays) as (plan & Hrun & Hdense & Hrate & Hnorm).
      exists ([Dense w a c] ++ plan).
      rewrite Hrun. split; [by rewrite <- !app_assoc|].
      simpl. split; [by constructor|]. done.
Qed.

Lemma mlp_building_layers (d : MLPDescriptor.t) (x : tensor) :
  mlp_in_step d ->
  1 <= MLPDescriptor.number_hidden_layers d ->
  (NetworkDescriptor.dropout (MLPDescriptor.base d) = true ->
   MLPDescriptor.number_hidden_layers d <= Z.of_nat (length (MLPDescriptor.dropout_probs d))) ->
  let n := Z.to_nat (MLPDescriptor.number_hidden_layers d) in
  exists plan,
    MLP.building d x = Some (x ++ plan) /\
    length (omap dense_of plan) = S n /\
    (forall i : nat, (i < n)%nat ->
       exists w a c,
         Py.items (MLPDescriptor.dims d) !! i = Some w /\
         MLPDescriptor.act_functions d !! i = Some a /\
         MLPDescriptor.init_functions d !! i = Some c /\
         omap dense_of plan !! i = Some (w, a, c)) /\
    (exists a c,
       MLPDescriptor.act_functions d !! n = Some a /\
       MLPDescriptor.init_functions d !! n = Some c /\
       omap dense_of plan !! n = Some (MLPDescriptor.output_dim d, a, c)) /\
    (if NetworkDescriptor.dropout (MLPDescriptor.base d)
     then length (omap rate_of plan) = S n /\
          (forall i : nat, (i < n)%nat ->
             omap rate_of plan !! i = MLPDescriptor.dropout_probs d !! i) /\
          omap rate_of plan !! n = MLPDescriptor.dropout_probs d !! (n - 1)%nat
     else omap rate_of plan = []) /\
    length (omap norm_of plan)
    = (if NetworkDescriptor.batch_norm (MLPDescriptor.base d) then S n else 0%nat).
Proof.
  intros (Hdims & Hinit & Hact) Hn Hprobs n.
  destruct (mlp_hidden_plan d (seq 0 n) x) as (plan & Hrun & Hdense & Hrate & Hnorm).
  { apply Forall_forall. intros lay Hlay. apply elem_of_seq in Hlay.
    repeat split; try lia. intros E. specialize (Hprobs E). lia. }
  assert (Hlen : length (omap dense_of plan) = n).
  { apply Forall2_length in Hdense. by rewrite length_seq in Hdense. }
  destruct (lookup_lt_is_Some_2 (MLPDescriptor.act_functions d) n) as [a Ha]; [lia|].
  destruct (lookup_lt_is_Some_2 (MLPDescriptor.init_functions d) n) as [c Hc]; [lia|].
  unfold MLP.building. fold n. rewrite Hrun. cbn [mbind option_bind].
  unfold Py.getitem.
  rewrite (subscript_inside (length (MLPDescriptor.act_functions d))) by lia.
  rewrite (subscript_inside (length (MLPDescriptor.init_functions d))) by lia.
  cbn [mbind option_bind]. fold n.
  rewrite Ha, Hc. cbn [mbind option_bind].
  assert (Hhidden : forall i : nat, (i < n)%nat ->
    exists w a c,
      Py.items (MLPDescriptor.dims d) !! i = Some w /\
      MLPDescriptor.act_functions d !! i = Some a /\
      MLPDescriptor.init_functions d !! i = Some c /\
      omap dense_of plan !! i = Some (w, a, c)).
  { intros i Hi.
    destruct (Forall2_lookup_l _ _ _ i i Hdense) as ([[w a'] c'] & Hat & H1 & H2 & H3).
    { apply lookup_seq. lia. }
    by exists w, a', c'. }
  set (out := Dense (MLPDescriptor.output_dim d) a c).
  rewrite length_seq in Hnorm.
  destruct (NetworkDescriptor.dropout (MLPDescriptor.base d)) eqn:Edrop.
  - rewrite bool_decide_eq_true_2 by done.
    rewrite subscript_inside by (specialize (Hprobs eq_refl); lia).
    cbn [mbind option_bind].
    replace (Z.to_nat (MLPDescriptor.number_hidden_layers d - 1)) with (n - 1)%nat by lia.
    destruct (lookup_lt_is_Some_2 (MLPDescriptor.dropout_probs d) (n - 1)) as [r Hr].
    { specialize (Hprobs eq_refl). lia. }
    rewrite Hr. cbn [mbind option_bind].
    assert (Hrlen : length (omap rate_of plan) = n).
    { apply Forall2_length in Hrate. by rewrite length_seq in Hrate. }
    assert (Hrates : forall i : nat, (i < n)%nat ->
      omap rate_of plan !! i = MLPDescriptor.dropout_probs d !! i).
    { intros i Hi.
      destruct (Forall2_lookup_l _ _ _ i i Hrate) as (q & Hat & Hq).
      { apply lookup_seq. lia. }
      by rewrite Hat, Hq. }
    destruct (NetworkDescriptor.batch_norm (MLPDescriptor.base d)) eqn:Enorm.
    + exists (plan ++ [out; Dropout r; BatchNormalization]).
      split; [by rewrite <- !app_assoc|].
      rewrite !omap_app, !length_app. simpl in *.
      split; [lia|]. split.
      { intros i Hi. destruct (Hhidden i Hi) as (w & a' & c' & ? & ? & ? & ?).
        exists w, a', c'. rewrite lookup_app_l by lia. done. }
      split.
      { exists a, c. rewrite lookup_app_r, Hlen, Nat.sub_diag by lia. done. }
      split.
      { split; [lia|]. split.
        - intros i Hi. rewrite lookup_app_l by lia. by apply Hrates.
        - rewrite lookup_app_r, Hrlen, Nat.sub_diag by lia. done. }
      lia.
    + exists (plan ++ [out; Dropout r]).
      split; [by rewrite <- !app_assoc|].
      rewrite !omap_app, !length_app. simpl in *.
      split; [lia|]. split.
      { intros i Hi. destruct (Hhidden i Hi) as (w & a' & c' & ? & ? & ? & ?).
        exists w, a', c'. rewrite lookup_app_l by lia. done. }
      split.
      { exists a, c. rewrite lookup_app_r, Hlen, Nat.sub_diag by lia. done. }
      split.
      { split; [lia|]. split.
        - intros i Hi. rewrite lookup_app_l by lia. by apply Hrates.
        - rewrite lookup_app_r, Hrlen, Nat.sub_diag by lia. done. }
      lia.
  - cbn [mbind option_bind].
    destruct (NetworkDescriptor.batch_norm (MLPDescriptor.base d)) eqn:Enorm.
    + exists (plan ++ [out; BatchNormalization]).
      split; [by rewrite <- !app_assoc|].
      rewrite !omap_app, !length_app. simpl in *.
      split; [lia|]. split.
      { intros i Hi. destruct (Hhidden i Hi) as (w & a' & c' & ? & ? & ? & ?).
        exists w, a', c'. rewrite lookup_app_l by lia. done. }
      split.
      { exists a, c. rewrite lookup_app_r, Hlen, Nat.sub_diag by lia. done. }
      split; [by rewrite Hrate|]. lia.
    + exists (plan ++ [out]).
      split; [by rewrite <- !app_assoc|].
      rewrite !omap_app, !length_app. simpl in *.
      split; [lia|]. split.
      { intros i Hi. destruct (Hhidden i Hi) as (w & a' & c' & ? & ? & ? & ?).
        exists w, a', c'. rewrite lookup_app_l by lia. done. }
      split.
      { exists a, c. rewrite lookup_app_r, Hlen, Nat.sub_diag by lia. done. }
      split; [by rewrite Hrate|]. lia.
Qed.

(** X3.  On an [MLPDescriptor] with one width per hidden layer, one
    initializer and one activation more, at least one hidden layer and, when
    dropout is on, a rate for each hidden layer, and with arguments that Keras
    takes (the widths in a Python list, positive like [output_dim], the rates
    within [0, 1]), [building] appends to its input: a [Dense] layer per
    hidden layer with that layer's width, activation and initializer, and the
    output [Dense] layer of [output_dim] units with the last activation and
    initializer.  With dropout a [Dropout] follows every [Dense]; the one
    after the output layer takes the rate of the last hidden layer, so the
    rate stored for the output layer is never read.  With batch normalization
    there is one per [Dense]. *)
Theorem mlp_building_plan (d : MLPDescriptor.t) (widths : list Z) (x : tensor) :
  mlp_in_step d ->
  1 <= MLPDescriptor.number_hidden_layers d ->
  (NetworkDescriptor.dropout (MLPDescriptor.base d) = true ->
   MLPDescriptor.number_hidden_layers d <= Z.of_nat (length (MLPDescriptor.dropout_probs d))) ->
  MLPDescriptor.dims d = Py.PyList widths ->
  Forall (fun w => 0 < w) widths ->
  0 < MLPDescriptor.output_dim d ->
  Forall (fun q => (0 <= q)%Q /\ (q <= 1)%Q) (MLPDescriptor.dropout_probs d) ->
  let n := Z.to_nat (MLPDescriptor.number_hidden_layers d) in
  exists plan,
    MLP.building d x = Some (x ++ plan) /\
    length (omap dense_of plan) = S n /\
    (forall i : nat, (i < n)%nat ->
       exists w a c,
         widths !! i = Some w /\
         MLPDescriptor.act_functions d !! i = Some a /\
         MLPDescriptor.init_functions d !! i = Some c /\
         omap dense_of plan !! i = Some (w, a, c)) /\
    (exists a c,
       MLPDescriptor.act_functions d !! n = Some a /\
       MLPDescriptor.init_functions d !! n = Some c /\
       omap dense_of plan !! n = Some (MLPDescriptor.output_dim d, a, c)) /\
    (if NetworkDescriptor.dropout (MLPDescriptor.base d)
     then length (omap rate_of plan) = S n /\
          (forall i : nat, (i < n)%nat ->
             omap rate_of plan !! i = MLPDescriptor.dropout_probs d !! i) /\
          omap rate_of plan !! n = MLPDescriptor.dropout_probs d !! (n - 1)%nat
     else omap rate_of plan = []) /\
    length (omap norm_of plan)
    = (if NetworkDescriptor.batch_norm (MLPDescriptor.base d) then S n else 0%nat).
Proof.
  intros Hstep Hn Hprobs Hdims _ _ _ n.
  destruct (mlp_building_layers d x Hstep Hn Hprobs)
    as (plan & Hrun & Hlen & Hhidden & Hrest).
  exists plan. split; [exact Hrun|]. split; [exact Hlen|]. split; [|exact Hrest].
  intros i Hi. destruct (Hhidden i Hi) as (w & a & c & Hw & Hrow).
  exists w, a, c. split; [|exact Hrow]. by rewrite Hdims in Hw.
Qed.

Lemma mlp_building_plan_witness :
  exists plan,
    MLP.building
      (MLPDescriptor.with_base
         (NetworkDescriptor.change_batch_norm
            (NetworkDescriptor.change_dropout (MLPDescriptor.base mlp_two))) mlp_two) []
    = Some ([] ++ plan) /\
    length (omap dense_of plan) = 3%nat /\
    omap dense_of plan !! 2%nat = Some (10, Some tanh, Some RandomUniform) /\
    omap rate_of plan !! 2%nat = Some (1 # 4) /\
    length (omap norm_of plan) = 3%nat.
Proof.
  pose proof (mlp_building_plan
    (MLPDescriptor.with_base
       (NetworkDescriptor.change_batch_norm
          (NetworkDescriptor.change_dropout (MLPDescriptor.base mlp_two))) mlp_two) [5; 6] [])
    as H.
  destruct H as (plan & Hrun & Hlen & _ & (a & c & Ha & Hc & Hout) & Hrates & Hnorm).
  { by vm_compute. }
  { by vm_compute. }
  { intros _. by vm_compute. }
  { reflexivity. }
  { repeat constructor. }
  { reflexivity. }
  { repeat (apply Forall_cons_2 || apply Forall_nil_2); by vm_compute. }
  simpl in Ha, Hc, Hrates, Hnorm. injection Ha as <-. injection Hc as <-.
  destruct Hrates as (_ & _ & Hlast).
  exists plan. split; [exact Hrun|]. split; [exact Hlen|]. split; [exact Hout|].
  split; [exact Hlast | exact Hnorm].
Defined.

(** X4.  With dropout on and no hidden layer, [building] raises: the rate of
    the [Dropout] after the output layer is read at [lay_indx], the variable
    of a loop that had no turn. *)
Theorem mlp_building_unbound_index (d : MLPDescriptor.t) (x : tensor) :
  MLPDescriptor.number_hidden_layers d <= 0 ->
  NetworkDescriptor.dropout (MLPDescriptor.base d) = true ->
  MLP.building d x = None.
Proof.
  intros Hn Hdrop. unfold MLP.building.
  replace (Z.to_nat (MLPDescriptor.number_hidden_layers d)) with 0%nat by lia.
  cbn [seq MLP.hidden mbind option_bind].
  destruct (Py.getitem (MLPDescriptor.act_functions d) _) as [a|]; [|done].
  destruct (Py.getitem (MLPDescriptor.init_functions d) _) as [c|]; [|done].
  cbn [mbind option_bind]. rewrite Hdrop.
  by rewrite bool_decide_eq_false_2 by lia.
Qed.

Lemma mlp_building_unbound_index_witness :
  MLP.building
    (MLPDescriptor.mk
       (NetworkDescriptor.mk 0 [Some GlorotNormal] [Some sigmoid] false true [1 # 2])
       784 10 (Py.PyList [])) []
  = None.
Proof.
  apply mlp_building_unbound_index; [by vm_compute | reflexivity].
Defined.

(** ** The rates that [np.random.rand] draws *)

Lemma rand_rates (k : nat) (g : rng) :
  exists probs g',
    rand k g = Some (probs, g') /\ length probs = k /\
    Forall (fun q => (0 <= q)%Q /\ (q < 1)%Q) probs.
Proof.
  revert g. induction k as [|k IH]; intros g.
  { exists [], g. by repeat split. }
  destruct (randint_inside 0 (2 ^ 53) g) as (r & Hr & Hdraw); [lia|].
  destruct (IH (fun n => g (S n))) as (probs & g' & Hrec & Hlen & Hall).
  exists (Qmake r (2 ^ 53) :: probs), g'.
  cbn [rand]. unfold Random.bind, Random.ret. rewrite Hdraw, Hrec.
  split; [done|]. split; [simpl; by f_equal|].
  constructor; [|done].
  unfold Qle, Qlt. cbn [Qnum Qden]. lia.
Qed.

Lemma mlp_random_init_dropout (d : MLPDescriptor.t)
    (input_size output_size : option MLPDescriptor.size)
    (nlayers max_layer_size : Z) (no_drop no_batch : option bool) (g : rng)
    (d' : MLPDescriptor.t) (g' : rng) :
  MLPDescriptor.random_init d input_size output_size (Some nlayers) (Some max_layer_size)
    no_drop no_batch g = Some (d', g') ->
  match no_drop with
  | Some false =>
      Z.of_nat (length (MLPDescriptor.dropout_probs d'))
      = MLPDescriptor.number_hidden_layers d' + 1 /\
      Forall (fun q => (0 <= q)%Q /\ (q < 1)%Q) (MLPDescriptor.dropout_probs d')
  | _ =>
      NetworkDescriptor.dropout (MLPDescriptor.base d')
      = NetworkDescriptor.dropout (MLPDescriptor.base d) /\
      MLPDescriptor.dropout_probs d' = MLPDescriptor.dropout_probs d
  end.
Proof.
  intros Hrun.
  pose proof (mlp_random_init_listed _ _ _ _ _ _ _ _ _ _ Hrun) as (_ & Hn & _).
  revert Hrun. unfold MLPDescriptor.random_init. unfold_M.
  match goal with
  | |- context [match ?m g with _ => _ end] =>
      destruct (m g) as [[d1 g1]|] eqn:E1; [|done];
      assert (MLPDescriptor.base d1 = MLPDescriptor.base d) as Hb1
  end.
  { destruct input_size as [sz|]; [|by injection E1 as <- <-].
    destruct (MLPDescriptor.flatten sz); [|done]. by injection E1 as <- <-. }
  match goal with
  | |- context [match ?m g1 with _ => _ end] =>
      destruct (m g1) as [[d2 g2]|] eqn:E2; [|done];
      assert (MLPDescriptor.base d2 = MLPDescriptor.base d1) as Hb2
  end.
  { destruct output_size as [sz|]; [|by injection E2 as <- <-].
    destruct (MLPDescriptor.flatten sz); [|done]. by injection E2 as <- <-. }
  destruct (randint 0 nlayers g2) as [[r g3]|] eqn:Hr; [|done].
  destruct (MLPDescriptor.draw_dims _ _ g3) as [[ws g4]|] eqn:Hws; [|done].
  destruct (choices initializations _ g4) as [[inits g5]|] eqn:Hinits; [|done].
  destruct (choices activations _ g5) as [[acts g6]|] eqn:Hacts; [|done].
  set (d3 := MLPDescriptor.with_base _ (MLPDescriptor.with_dims (Py.PyList ws) d2)).
  assert (NetworkDescriptor.dropout (MLPDescriptor.base d3)
          = NetworkDescriptor.dropout (MLPDescriptor.base d) /\
          MLPDescriptor.dropout_probs d3 = MLPDescriptor.dropout_probs d) as Hd3.
  { unfold d3. mlp_fields. by rewrite Hb2, Hb1. }
  clearbody d3.
  assert (exists d4 g7,
    NetworkDescriptor.dropout (MLPDescriptor.base d4)
    = NetworkDescriptor.dropout (MLPDescriptor.base d) /\
    MLPDescriptor.dropout_probs d4 = MLPDescriptor.dropout_probs d /\
    forall k : MLPDescriptor.t -> rng -> option (MLPDescriptor.t * rng),
      match
        match no_batch with
        | Some false =>
            fun g0 : rng =>
              match choice [true; false] g0 with
              | Some (x, g'0) =>
                  Some (MLPDescriptor.with_base
                          (NetworkDescriptor.with_batch_norm x (MLPDescriptor.base d3)) d3,
                        g'0)
              | None => None
              end
        | _ => fun g0 : rng => Some (d3, g0)
        end g6
      with
      | Some (x, g'0) => k x g'0
      | None => None
      end = Some (d', g') -> k d4 g7 = Some (d', g')) as (d4 & g7 & Hdrop4 & Hprobs4 & Hk).
  { destruct no_batch as [[|]|]; try (exists d3, g6; by destruct Hd3).
    destruct (choice [true; false] g6) as [[b g7]|].
    - exists (MLPDescriptor.with_base
                (NetworkDescriptor.with_batch_norm b (MLPDescriptor.base d3)) d3), g7.
      mlp_fields. destruct Hd3. repeat split; try done.
    - exists d3, g6. destruct Hd3. repeat split; try done. }
  intros Hrun. apply Hk in Hrun. clear Hk.
  destruct no_drop as [[|]|]; try (injection Hrun as <- <-; done).
  destruct (choice [true; false] g7) as [[b g8]|]; [|done].
  destruct (rand_rates (Z.to_nat (MLPDescriptor.number_hidden_layers d4 + 1)) g8)
    as (probs & g9 & Hrand & Hlen & Hall).
  rewrite Hrand in Hrun. injection Hrun as <- <-. mlp_fields.
  split; [|done]. rewrite Hlen. lia.
Qed.

Lemma mlp_listed_in_step (d : MLPDescriptor.t) : mlp_listed d -> mlp_in_step d.
Proof.
  intros (ws & Hdims & Hlen & Hinit & Hact). unfold mlp_in_step.
  rewrite Hdims. by cbn [Py.items].
Qed.

(** X5.  Every genome that [random_init] draws, with [nlayers] and
    [max_layer_size] given and either dropout off beforehand or
    [no_drop = False], can be built: [building] appends its layers, among
    them one [Dense] per hidden layer and the output [Dense] of [output_dim]
    units, with an activation and an initializer of the catalogs. *)
Theorem mlp_building_after_random_init (d : MLPDescriptor.t)
    (input_size output_size : option MLPDescriptor.size)
    (nlayers max_layer_size : Z) (no_drop no_batch : option bool) (g : rng)
    (d' : MLPDescriptor.t) (g' : rng) (x : tensor) :
  MLPDescriptor.random_init d input_size output_size (Some nlayers) (Some max_layer_size)
    no_drop no_batch g = Some (d', g') ->
  NetworkDescriptor.dropout (MLPDescriptor.base d) = false \/ no_drop = Some false ->
  exists plan a c,
    MLP.building d' x = Some (x ++ plan) /\
    1 <= MLPDescriptor.number_hidden_layers d' <= nlayers /\
    length (omap dense_of plan) = S (Z.to_nat (MLPDescriptor.number_hidden_layers d')) /\
    a ∈ activations /\ c ∈ initializations /\
    omap dense_of plan !! Z.to_nat (MLPDescriptor.number_hidden_layers d')
    = Some (MLPDescriptor.output_dim d', a, c).
Proof.
  intros Hrun Hdrop.
  destruct (mlp_random_init_listed _ _ _ _ _ _ _ _ _ _ Hrun) as (Hlisted & Hn & Hini & Hact).
  pose proof (mlp_random_init_dropout _ _ _ _ _ _ _ _ _ _ Hrun) as Hrates.
  destruct (mlp_building_layers d' x) as (plan & Hb & Hlen & _ & (a & c & Ha & Hc & Hout) & _).
  - by apply mlp_listed_in_step.
  - lia.
  - intros Hon. destruct Hdrop as [Hoff | ->]; [|lia].
    destruct no_drop as [[|]|]; try lia; destruct Hrates as [Hsame _]; congruence.
  - exists plan, a, c. split; [exact Hb|]. split; [exact Hn|]. split; [exact Hlen|].
    split; [|split; [|exact Hout]].
    + apply (Forall_lookup_1 (fun f => f ∈ activations) _ _ _ Hact Ha).
    + apply (Forall_lookup_1 (fun f => f ∈ initializations) _ _ _ Hini Hc).
Qed.

Lemma mlp_building_after_random_init_witness :
  exists d' g' plan a c,
    MLPDescriptor.random_init mlp_blank (Some (MLPDescriptor.Shape [28; 28]))
      (Some (MLPDescriptor.Scalar 10)) (Some 3) (Some 20) (Some false) (Some false)
      (replay [1; 3; 7; 0; 2; 1; 1; 0; 6; 0; 1]) = Some (d', g') /\
    MLP.building d' [] = Some ([] ++ plan) /\
    length (omap dense_of plan) = S (Z.to_nat (MLPDescriptor.number_hidden_layers d')) /\
    a ∈ activations /\ c ∈ initializations.
Proof.
  assert (exists d' g',
    MLPDescriptor.random_init mlp_blank (Some (MLPDescriptor.Shape [28; 28]))
      (Some (MLPDescriptor.Scalar 10)) (Some 3) (Some 20) (Some false) (Some false)
      (replay [1; 3; 7; 0; 2; 1; 1; 0; 6; 0; 1]) = Some (d', g')) as (d' & g' & Hrun)
    by (vm_compute; by eexists _, _).
  destruct (mlp_building_after_random_init _ _ _ _ _ _ _ _ _ _ [] Hrun)
    as (plan & a & c & Hb & _ & Hlen & Ha & Hc & _); [by right|].
  exists d', g', plan, a, c. split; [exact Hrun|]. split; [exact Hb|].
  split; [exact Hlen|]. split; [exact Ha | exact Hc].
Defined.

(** ** MLPDescriptor: sequences in step with the layer count *)

Lemma np_delete_inside {A} (l : list A) (i : Z) :
  0 <= i < Z.of_nat (length l) -> Py.np_delete l i = Some (delete (Z.to_nat i) l).
Proof.
  intros H. unfold Py.np_delete.
  by rewrite !bool_decide_eq_false_2 by lia.
Qed.

Lemma np_delete_outside {A} (l : list A) (i : Z) :
  Z.of_nat (length l) <= i -> Py.np_delete l i = None.
Proof.
  intros H. unfold Py.np_delete.
  by rewrite bool_decide_eq_true_2 by lia.
Qed.

Lemma length_delete_inside {A} (l : list A) (i : nat) :
  (i < length l)%nat -> S (length (delete i l)) = length l.
Proof.
  intros H. rewrite length_delete by (by apply lookup_lt_is_Some_2). lia.
Qed.

Lemma length_inserted {A} (l : list A) (j : nat) (x : A) :
  (j <= length l)%nat -> length (take j l ++ x :: drop j l) = S (length l).
Proof. intros H. rewrite length_app. simpl. rewrite length_take, length_drop. lia. Qed.

Lemma mlp_add_layer_aligned (d : MLPDescriptor.t) (pos width : Z)
    (init : option initialization) (act : option activation) (rate : Q) :
  mlp_aligned d ->
  Py.int64 width ->
  exists d',
    MLPDescriptor.add_layer d pos width init act rate = Some d' /\
    mlp_aligned d' /\
    (~ 0 <= pos < MLPDescriptor.number_hidden_layers d -> d' = d) /\
    (0 <= pos < MLPDescriptor.number_hidden_layers d ->
     MLPDescriptor.number_hidden_layers d' = MLPDescriptor.number_hidden_layers d + 1 /\
     MLPDescriptor.dims d'
     = Py.NdArray (take (Z.to_nat pos) (Py.items (MLPDescriptor.dims d)) ++
                   width :: drop (Z.to_nat pos) (Py.items (MLPDescriptor.dims d))) /\
     MLPDescriptor.init_functions d'
     = take (Z.to_nat pos) (MLPDescriptor.init_functions d) ++
       init :: drop (Z.to_nat pos) (MLPDescriptor.init_functions d) /\
     MLPDescriptor.act_functions d'
     = take (Z.to_nat pos) (MLPDescriptor.act_functions d) ++
       act :: drop (Z.to_nat pos) (MLPDescriptor.act_functions d) /\
     MLPDescriptor.dropout_probs d'
     = take (Z.to_nat pos) (MLPDescriptor.dropout_probs d) ++
       rate :: drop (Z.to_nat pos) (MLPDescriptor.dropout_probs d)).
Proof.
  intros Hal Hwidth. pose proof Hal as ((Hdims & Hinit & Hact) & Hprobs).
  unfold MLPDescriptor.add_layer.
  case_bool_decide as Hguard.
  { exists d. repeat split; try done; lia. }
  rewrite (to_int64_inside width Hwidth). cbn [mbind option_bind].
  rewrite !np_insert_inside by lia. cbn [mbind option_bind].
  eexists. split; [reflexivity|].
  unfold mlp_aligned, mlp_in_step. mlp_fields. cbn [Py.items].
  rewrite !length_inserted by lia.
  split; [lia|]. split; [lia | done].
Qed.

Lemma mlp_remove_layer_aligned (d : MLPDescriptor.t) (pos : Z) :
  mlp_aligned d ->
  pos <> MLPDescriptor.number_hidden_layers d \/ MLPDescriptor.number_hidden_layers d <= 1 ->
  exists d',
    MLPDescriptor.remove_layer d pos = Some d' /\
    mlp_aligned d' /\
    (~ 2 <= pos < MLPDescriptor.number_hidden_layers d -> d' = d) /\
    (2 <= pos < MLPDescriptor.number_hidden_layers d ->
     MLPDescriptor.number_hidden_layers d' = MLPDescriptor.number_hidden_layers d - 1 /\
     MLPDescriptor.dims d'
     = Py.NdArray (delete (Z.to_nat pos) (Py.items (MLPDescriptor.dims d))) /\
     MLPDescriptor.init_functions d' = delete (Z.to_nat pos) (MLPDescriptor.init_functions d) /\
     MLPDescriptor.act_functions d' = delete (Z.to_nat pos) (MLPDescriptor.act_functions d) /\
     MLPDescriptor.dropout_probs d' = delete (Z.to_nat pos) (MLPDescriptor.dropout_probs d)).
Proof.
  intros Hal Hpos. pose proof Hal as ((Hdims & Hinit & Hact) & Hprobs).
  unfold MLPDescriptor.remove_layer.
  case_bool_decide as Hguard.
  { exists d. repeat split; try done; lia. }
  rewrite !np_delete_inside by lia. cbn [mbind option_bind].
  eexists. split; [reflexivity|].
  unfold mlp_aligned, mlp_in_step. mlp_fields. cbn [Py.items].
  split; [|split; [lia | done]].
  pose proof (length_delete_inside (Py.items (MLPDescriptor.dims d)) (Z.to_nat pos)).
  pose proof (length_delete_inside (NetworkDescriptor.init_functions (MLPDescriptor.base d))
                (Z.to_nat pos)).
  pose proof (length_delete_inside (NetworkDescriptor.act_functions (MLPDescriptor.base d))
                (Z.to_nat pos)).
  pose proof (length_delete_inside (NetworkDescriptor.dropout_probs (MLPDescriptor.base d))
                (Z.to_nat pos)).
  lia.
Qed.

(** X6.  On an [MLPDescriptor] whose widths, initializers, activations and
    dropout rates are in step with its layer count, with widths in [int64].
    [add_layer] with a new width in [int64] returns: for
    [0 <= pos < count] it inserts the width, the initializer, the activation
    and the rate at [pos], each before the entry that was there, adds one to
    the count and leaves the widths as an ndarray; for any other position it
    leaves the descriptor as it was.  With a new width outside [int64] and
    such a position it raises.  [remove_layer] returns for every position but
    one: for [2 <= pos < count] it deletes the entry at [pos] from the four
    sequences, takes one off the count and leaves the widths as an ndarray;
    for the other positions that its test refuses it leaves the descriptor as
    it was.  The exception is [pos = count >= 2], which passes the test and
    raises in [np.delete]: there is no width at that index.  Both keep the
    sequences in step. *)
Theorem mlp_add_remove_keep_in_step (d : MLPDescriptor.t) :
  mlp_aligned d ->
  Forall Py.int64 (Py.items (MLPDescriptor.dims d)) ->
  (forall pos width init act rate,
     Py.int64 width ->
     exists d',
       MLPDescriptor.add_layer d pos width init act rate = Some d' /\
       mlp_aligned d' /\
       (~ 0 <= pos < MLPDescriptor.number_hidden_layers d -> d' = d) /\
       (0 <= pos < MLPDescriptor.number_hidden_layers d ->
        MLPDescriptor.number_hidden_layers d' = MLPDescriptor.number_hidden_layers d + 1 /\
        MLPDescriptor.dims d'
        = Py.NdArray (take (Z.to_nat pos) (Py.items (MLPDescriptor.dims d)) ++
                      width :: drop (Z.to_nat pos) (Py.items (MLPDescriptor.dims d))) /\
        MLPDescriptor.init_functions d'
        = take (Z.to_nat pos) (MLPDescriptor.init_functions d) ++
          init :: drop (Z.to_nat pos) (MLPDescriptor.init_functions d) /\
        MLPDescriptor.act_functions d'
        = take (Z.to_nat pos) (MLPDescriptor.act_functions d) ++
          act :: drop (Z.to_nat pos) (MLPDescriptor.act_functions d) /\
        MLPDescriptor.dropout_probs d'
        = take (Z.to_nat pos) (MLPDescriptor.dropout_probs d) ++
          rate :: drop (Z.to_nat pos) (MLPDescriptor.dropout_probs d))) /\
  (forall pos width init act rate,
     ~ Py.int64 width ->
     0 <= pos < MLPDescriptor.number_hidden_layers d ->
     MLPDescriptor.add_layer d pos width init act rate = None) /\
  (forall pos,
     pos <> MLPDescriptor.number_hidden_layers d \/ MLPDescriptor.number_hidden_layers d <= 1 ->
     exists d',
       MLPDescriptor.remove_layer d pos = Some d' /\
       mlp_aligned d' /\
       (~ 2 <= pos < MLPDescriptor.number_hidden_layers d -> d' = d) /\
       (2 <= pos < MLPDescriptor.number_hidden_layers d ->
        MLPDescriptor.number_hidden_layers d' = MLPDescriptor.number_hidden_layers d - 1 /\
        MLPDescriptor.dims d'
        = Py.NdArray (delete (Z.to_nat pos) (Py.items (MLPDescriptor.dims d))) /\
        MLPDescriptor.init_functions d'
        = delete (Z.to_nat pos) (MLPDescriptor.init_functions d) /\
        MLPDescriptor.act_functions d' = delete (Z.to_nat pos) (MLPDescriptor.act_functions d) /\
        MLPDescriptor.dropout_probs d'
        = delete (Z.to_nat pos) (MLPDescriptor.dropout_probs d))) /\
  (2 <= MLPDescriptor.number_hidden_layers d ->
   MLPDescriptor.remove_layer d (MLPDescriptor.number_hidden_layers d) = None).
Proof.
  intros Hal _. split; [|split; [|split]].
  - intros pos width init act rate Hwidth. by apply mlp_add_layer_aligned.
  - intros pos width init act rate Hwidth Hpos.
    unfold MLPDescriptor.add_layer.
    rewrite bool_decide_eq_false_2 by lia.
    by rewrite (to_int64_outside width Hwidth).
  - intros pos Hpos. by apply mlp_remove_layer_aligned.
  - intros Hn. destruct Hal as ((Hdims & _) & _).
    unfold MLPDescriptor.remove_layer.
    rewrite bool_decide_eq_false_2 by lia.
    by rewrite (np_delete_outside (Py.items (MLPDescriptor.dims d))) by lia.
Qed.

Lemma mlp_four_aligned : mlp_aligned mlp_four.
Proof. by vm_compute. Defined.

Lemma mlp_add_remove_keep_in_step_witness :
  (exists d', MLPDescriptor.add_layer mlp_four 0 9 (Some GlorotNormal) (Some elu) (1 # 5)
              = Some d' /\ mlp_aligned d' /\
              MLPDescriptor.dims d' = Py.NdArray [9; 5; 6; 7; 8]) /\
  MLPDescriptor.add_layer mlp_four 0 (2 ^ 63) (Some GlorotNormal) (Some elu) (1 # 5) = None /\
  (exists d', MLPDescriptor.remove_layer mlp_four 3 = Some d' /\ mlp_aligned d' /\
              MLPDescriptor.dims d' = Py.NdArray [5; 6; 7]) /\
  MLPDescriptor.remove_layer mlp_four 4 = None.
Proof.
  destruct (mlp_add_remove_keep_in_step mlp_four mlp_four_aligned)
    as (Hadd & Hover & Hdel & Hraise); [solve_int64|].
  split; [|split; [|split]].
  - destruct (Hadd 0 9 (Some GlorotNormal) (Some elu) (1 # 5))
      as (d' & Hrun & Hal & _ & Hin); [solve_int64|].
    exists d'. split; [exact Hrun|]. split; [exact Hal|].
    destruct Hin as (_ & Hdims & _); [unfold mlp_four; mlp_fields; lia|].
    exact Hdims.
  - apply Hover; [unfold Py.int64; lia | unfold mlp_four; mlp_fields; lia].
  - destruct (Hdel 3) as (d' & Hrun & Hal & _ & Hin);
      [left; unfold mlp_four; mlp_fields; lia|].
    exists d'. split; [exact Hrun|]. split; [exact Hal|].
    destruct Hin as (_ & Hdims & _); [unfold mlp_four; mlp_fields; lia|].
    exact Hdims.
  - apply Hraise. unfold mlp_four; mlp_fields; lia.
Defined.

(** X7.  [remove_random_layer] as an [MLPDescriptor] inherits it: it raises
    when there is no hidden layer (the range of the draw is empty); on a
    descriptor with its sequences in step it returns, does nothing when the
    drawn position is 0 or 1, and otherwise deletes the entries of the drawn
    position from the four sequences.  A deletion needs a position from 2 on
    below the count, so it never happens with fewer than three hidden layers
    and never leaves fewer than two. *)
Theorem mlp_remove_random_layer_floor (d : MLPDescriptor.t) (g : rng) :
  (MLPDescriptor.number_hidden_layers d <= 0 -> MLPDescriptor.remove_random_layer d g = None) /\
  (mlp_aligned d -> 1 <= MLPDescriptor.number_hidden_layers d ->
   exists pos d' g',
     0 <= pos < MLPDescriptor.number_hidden_layers d /\
     MLPDescriptor.remove_random_layer d g = Some (d', g') /\
     mlp_aligned d' /\
     (pos <= 1 -> d' = d) /\
     (2 <= pos ->
      MLPDescriptor.number_hidden_layers d' = MLPDescriptor.number_hidden_layers d - 1 /\
      2 <= MLPDescriptor.number_hidden_layers d' /\
      Py.items (MLPDescriptor.dims d') = delete (Z.to_nat pos) (Py.items (MLPDescriptor.dims d)) /\
      MLPDescriptor.init_functions d' = delete (Z.to_nat pos) (MLPDescriptor.init_functions d) /\
      MLPDescriptor.act_functions d' = delete (Z.to_nat pos) (MLPDescriptor.act_functions d) /\
      MLPDescriptor.dropout_probs d'
      = delete (Z.to_nat pos) (MLPDescriptor.dropout_probs d))).
Proof.
  unfold MLPDescriptor.remove_random_layer, NetworkDescriptor.remove_random_layer. unfold_M.
  split.
  - intros Hn. unfold randint. by rewrite bool_decide_eq_false_2 by lia.
  - intros Hal Hn.
    destruct (randint_inside 0 (MLPDescriptor.number_hidden_layers d) g) as (pos & Hpos & ->);
      [lia|].
    destruct (mlp_remove_layer_aligned d pos Hal) as (d' & Hrun & Hal' & Hout & Hin); [lia|].
    exists pos, d', (fun n => g (S n)). rewrite Hrun.
    split; [exact Hpos|]. split; [done|]. split; [exact Hal'|].
    split; [intros Hlow; apply Hout; lia|].
    intros Hhigh. destruct Hin as (Hn' & Hdims & Hrest); [lia|].
    split; [exact Hn'|]. split; [lia|]. split; [by rewrite Hdims | exact Hrest].
Qed.

Lemma mlp_remove_random_layer_floor_witness :
  MLPDescriptor.remove_random_layer
    (MLPDescriptor.with_base
       (NetworkDescriptor.with_number_hidden_layers 0 (MLPDescriptor.base mlp_blank)) mlp_blank)
    (replay []) = None /\
  exists pos d' g',
    0 <= pos < 4 /\
    MLPDescriptor.remove_random_layer mlp_four (replay [2]) = Some (d', g') /\
    mlp_aligned d' /\
    (2 <= pos -> MLPDescriptor.number_hidden_layers d' = 3).
Proof.
  split.
  - apply (mlp_remove_random_layer_floor
             (MLPDescriptor.with_base
                (NetworkDescriptor.with_number_hidden_layers 0 (MLPDescriptor.base mlp_blank))
                mlp_blank) (replay [])).
    by vm_compute.
  - destruct (mlp_remove_random_layer_floor mlp_four (replay [2])) as [_ H].
    destruct (H mlp_four_aligned) as (pos & d' & g' & Hpos & Hrun & Hal & _ & Hdel);
      [by vm_compute|].
    exists pos, d', g'. split; [exact Hpos|]. split; [exact Hrun|]. split; [exact Hal|].
    intros Hhigh. by destruct (Hdel Hhigh) as [-> _].
Defined.

(** ** MLPDescriptor: widths and dropout rates *)

(** X8.  [change_layer_dimension] raises when there is no hidden layer.  With
    a width for each of the [count >= 1] hidden layers and a new width that
    the sequence of widths can hold (any integer when it is a list, one in
    [int64] when it is an array), it returns, having overwritten the width at
    one drawn position below the count: nothing else of the descriptor
    changes, [dims] keeps its length and stays the list or the array that it
    was.  On an array of widths a new width outside [int64] makes it raise. *)
Theorem mlp_change_layer_dimension_one_width (d : MLPDescriptor.t) (new_dim : Z) (g : rng) :
  (MLPDescriptor.number_hidden_layers d <= 0 ->
   MLPDescriptor.change_layer_dimension d new_dim g = None) /\
  (1 <= MLPDescriptor.number_hidden_layers d ->
   MLPDescriptor.number_hidden_layers d
   <= Z.of_nat (length (Py.items (MLPDescriptor.dims d))) ->
   (exists xs, MLPDescriptor.dims d = Py.PyList xs) \/ Py.int64 new_dim ->
   exists pos d' g',
     0 <= pos < MLPDescriptor.number_hidden_layers d /\
     MLPDescriptor.change_layer_dimension d new_dim g = Some (d', g') /\
     MLPDescriptor.base d' = MLPDescriptor.base d /\
     MLPDescriptor.input_dim d' = MLPDescriptor.input_dim d /\
     MLPDescriptor.output_dim d' = MLPDescriptor.output_dim d /\
     MLPDescriptor.dims d'
     = match MLPDescriptor.dims d with
       | Py.PyList xs => Py.PyList (<[Z.to_nat pos := new_dim]> xs)
       | Py.NdArray xs => Py.NdArray (<[Z.to_nat pos := new_dim]> xs)
       end /\
     Py.items (MLPDescriptor.dims d')
     = <[Z.to_nat pos := new_dim]> (Py.items (MLPDescriptor.dims d)) /\
     Py.items (MLPDescriptor.dims d') !! Z.to_nat pos = Some new_dim /\
     (mlp_listed d -> mlp_listed d') /\
     (mlp_aligned d -> mlp_aligned d')) /\
  (forall xs, MLPDescriptor.dims d = Py.NdArray xs -> ~ Py.int64 new_dim ->
   MLPDescriptor.change_layer_dimension d new_dim g = None).
Proof.
  split; [|split].
  - intros Hn. unfold MLPDescriptor.change_layer_dimension. unfold_M.
    unfold randint. by rewrite bool_decide_eq_false_2 by lia.
  - intros Hn Hlen Hfits.
    destruct (randint_inside 0 (MLPDescriptor.number_hidden_layers d) g)
      as (pos & Hpos & Hdraw); [lia|].
    assert (exists v,
      MLPDescriptor.change_layer_dimension d new_dim g
      = Some (MLPDescriptor.with_dims v d, fun n => g (S n)) /\
      v = match MLPDescriptor.dims d with
          | Py.PyList xs => Py.PyList (<[Z.to_nat pos := new_dim]> xs)
          | Py.NdArray xs => Py.NdArray (<[Z.to_nat pos := new_dim]> xs)
          end) as (v & Hrun & Hv).
    { unfold MLPDescriptor.change_layer_dimension. unfold_M. rewrite Hdraw.
      destruct (MLPDescriptor.dims d) as [xs|xs] eqn:Hdims; cbn [Py.items] in Hlen.
      - unfold lift. rewrite setitem_inside by lia. by eexists.
      - destruct Hfits as [[ys Hys]|Hin]; [done|].
        unfold lift. rewrite (to_int64_inside new_dim Hin), setitem_inside by lia.
        by eexists. }
    rewrite Hrun.
    eexists pos, _, _. split; [exact Hpos|]. split; [reflexivity|].
    mlp_fields.
    assert (Py.items v = <[Z.to_nat pos := new_dim]> (Py.items (MLPDescriptor.dims d)))
      as Hitems by (rewrite Hv; by destruct (MLPDescriptor.dims d)).
    do 3 (split; [done|]). split; [exact Hv|]. split; [exact Hitems|]. split.
    { rewrite Hitems. apply list_lookup_insert_eq. lia. }
    split.
    + intros (ws & Hdims & Hws & Hinit & Hact). unfold mlp_listed. mlp_fields.
      rewrite Hv, Hdims. eexists. split; [reflexivity|].
      by rewrite length_insert.
    + unfold mlp_aligned, mlp_in_step. mlp_fields. rewrite Hitems.
      by rewrite length_insert.
  - intros xs Hdims Hout.
    unfold MLPDescriptor.change_layer_dimension. unfold_M. rewrite Hdims.
    destruct (randint 0 (MLPDescriptor.number_hidden_layers d) g) as [[pos g1]|]; [|done].
    unfold lift. by rewrite (to_int64_outside new_dim Hout).
Qed.

Lemma mlp_change_layer_dimension_one_width_witness :
  MLPDescriptor.change_layer_dimension
    (MLPDescriptor.with_base
       (NetworkDescriptor.with_number_hidden_layers 0 (MLPDescriptor.base mlp_blank)) mlp_blank)
    64 (replay []) = None /\
  (exists pos d' g',
     0 <= pos < 4 /\
     MLPDescriptor.change_layer_dimension mlp_four 64 (replay [6]) = Some (d', g') /\
     Py.items (MLPDescriptor.dims d') !! Z.to_nat pos = Some 64 /\
     mlp_aligned d') /\
  MLPDescriptor.change_layer_dimension
    (MLPDescriptor.with_dims (Py.NdArray [5; 6; 7; 8]) mlp_four) (2 ^ 63) (replay [6]) = None.
Proof.
  split; [|split].
  - apply (mlp_change_layer_dimension_one_width
             (MLPDescriptor.with_base
                (NetworkDescriptor.with_number_hidden_layers 0 (MLPDescriptor.base mlp_blank))
                mlp_blank) 64 (replay [])).
    by vm_compute.
  - destruct (mlp_change_layer_dimension_one_width mlp_four 64 (replay [6])) as (_ & H & _).
    destruct H as (pos & d' & g' & Hpos & Hrun & _ & _ & _ & _ & _ & Hat & _ & Hal);
      [by vm_compute | by vm_compute | right; solve_int64 |].
    exists pos, d', g'. split; [exact Hpos|]. split; [exact Hrun|]. split; [exact Hat|].
    apply Hal, mlp_four_aligned.
  - destruct (mlp_change_layer_dimension_one_width
                (MLPDescriptor.with_dims (Py.NdArray [5; 6; 7; 8]) mlp_four) (2 ^ 63)
                (replay [6])) as (_ & _ & H).
    apply (H [5; 6; 7; 8]); [reflexivity | unfold Py.int64; lia].
Defined.

(** X9.  [change_dropout_prob] on an [MLPDescriptor] whose widths,
    initializers and activations are in step with its layer count: whatever
    rates were stored, even none, it stores one new rate in [0, 1) per hidden
    layer and one for the output layer, which puts the rates in step too, and
    changes nothing else.  Below a count of -1 the size asked of
    [np.random.rand] is negative and the call raises. *)
Theorem mlp_change_dropout_prob_rates (d : MLPDescriptor.t) (g : rng) :
  (MLPDescriptor.number_hidden_layers d < -1 -> MLPDescriptor.change_dropout_prob d g = None) /\
  (mlp_in_step d ->
   exists probs g',
     MLPDescriptor.change_dropout_prob d g
     = Some (MLPDescriptor.with_base
               (NetworkDescriptor.with_dropout_probs probs (MLPDescriptor.base d)) d, g') /\
     Z.of_nat (length probs) = MLPDescriptor.number_hidden_layers d + 1 /\
     Forall (fun q => (0 <= q)%Q /\ (q < 1)%Q) probs /\
     mlp_aligned (MLPDescriptor.with_base
                    (NetworkDescriptor.with_dropout_probs probs (MLPDescriptor.base d)) d)).
Proof.
  unfold MLPDescriptor.change_dropout_prob, NetworkDescriptor.change_dropout_prob.
  fold (MLPDescriptor.number_hidden_layers d). split.
  - intros Hn. by rewrite bool_decide_eq_true_2 by lia.
  - intros Hstep. pose proof Hstep as (Hdims & Hinit & Hact).
    rewrite bool_decide_eq_false_2 by lia. unfold_M.
    destruct (rand_rates (Z.to_nat (MLPDescriptor.number_hidden_layers d + 1)) g)
      as (probs & g' & -> & Hlen & Hall).
    exists probs, g'. split; [done|]. split; [lia|]. split; [exact Hall|].
    unfold mlp_aligned, mlp_in_step in *. mlp_fields. lia.
Qed.

Lemma mlp_change_dropout_prob_rates_witness :
  exists probs g',
    MLPDescriptor.change_dropout_prob mlp_two (replay [])
    = Some (MLPDescriptor.with_base
              (NetworkDescriptor.with_dropout_probs probs (MLPDescriptor.base mlp_two)) mlp_two,
            g') /\
    Z.of_nat (length probs) = 3 /\
    Forall (fun q => (0 <= q)%Q /\ (q < 1)%Q) probs.
Proof.
  destruct (mlp_change_dropout_prob_rates mlp_two (replay [])) as [_ H].
  destruct H as (probs & g' & Hchange & Hlen & Hall & _); [by vm_compute|].
  by exists probs, g'.
Defined.

(** ** MLPDescriptor: the widths that [random_init] draws *)

Lemma randint_inv (low high : Z) (g : rng) v g' :
  randint low high g = Some (v, g') -> low <= v < high /\ g' = fun n => g (S n).
Proof.
  unfold randint. case_bool_decide; [|done]. intros [= <- <-]. split; [|done].
  pose proof (Z.mod_pos_bound (g 0%nat) (high - low)). lia.
Qed.

Lemma draw_dims_range (max_layer_size : Z) (k : nat) (g : rng) ws g' :
  MLPDescriptor.draw_dims max_layer_size k g = Some (ws, g') ->
  Forall (fun w => 5 <= w <= max_layer_size) ws /\ ((1 <= k)%nat -> 5 <= max_layer_size).
Proof.
  revert g ws g'. induction k as [|k IH]; intros g ws g'; simpl; unfold_M.
  { intros [= <- <-]. split; [constructor | lia]. }
  destruct (randint 4 max_layer_size g) as [[w g1]|] eqn:Hw; [|done].
  apply randint_inv in Hw as [Hw _].
  destruct (MLPDescriptor.draw_dims max_layer_size k g1) as [[ws1 g2]|] eqn:Hrec; [|done].
  intros [= <- <-]. destruct (IH _ _ _ Hrec) as [Hall _].
  split; [|lia]. constructor; [lia | done].
Qed.

(** X10.  [random_init] on an [MLPDescriptor], with [nlayers] and
    [max_layer_size] given, returns only when [nlayers >= 1] and
    [max_layer_size >= 5], and then the widths are a Python list of as many
    drawn numbers as the layer count, each between 5 and [max_layer_size]; a
    size given as an empty iterable makes it raise. *)
Theorem mlp_random_init_widths (d : MLPDescriptor.t)
    (input_size output_size : option MLPDescriptor.size)
    (nlayers max_layer_size : Z) (no_drop no_batch : option bool) (g : rng) :
  (forall d' g',
     MLPDescriptor.random_init d input_size output_size (Some nlayers) (Some max_layer_size)
       no_drop no_batch g = Some (d', g') ->
     1 <= nlayers /\ 5 <= max_layer_size /\
     exists widths,
       MLPDescriptor.dims d' = Py.PyList widths /\
       Z.of_nat (length widths) = MLPDescriptor.number_hidden_layers d' /\
       Forall (fun w => 5 <= w <= max_layer_size) widths) /\
  (input_size = Some (MLPDescriptor.Shape []) \/ output_size = Some (MLPDescriptor.Shape []) ->
   MLPDescriptor.random_init d input_size output_size (Some nlayers) (Some max_layer_size)
     no_drop no_batch g = None).
Proof.
  split.
  - intros d' g' Hrun.
    pose proof (mlp_random_init_listed _ _ _ _ _ _ _ _ _ _ Hrun) as Hlisted.
    revert Hrun. unfold MLPDescriptor.random_init. unfold_M.
    match goal with
    | |- context [match ?m g with _ => _ end] => destruct (m g) as [[d1 g1]|]; [|done]
    end.
    match goal with
    | |- context [match ?m g1 with _ => _ end] => destruct (m g1) as [[d2 g2]|]; [|done]
    end.
    destruct (randint 0 nlayers g2) as [[r g3]|] eqn:Hr; [|done].
    apply randint_inv in Hr as [Hr _].
    destruct (MLPDescriptor.draw_dims _ _ g3) as [[ws g4]|] eqn:Hws; [|done].
    destruct (choices initializations _ g4) as [[inits g5]|]; [|done].
    destruct (choices activations _ g5) as [[acts g6]|]; [|done].
    pose proof (draw_dims_length _ _ _ _ _ Hws) as Hlen.
    apply draw_dims_range in Hws as [Hall Hmax].
    destruct Hlisted as ((widths & Hdims & Hcount & _) & _).
    destruct no_batch as [[|]|], no_drop as [[|]|];
      repeat match goal with
             | |- context [choice ?l ?g0] => destruct (choice l g0) as [[? ?]|]; [|done]
             | |- context [rand ?k ?g0] => destruct (rand k g0) as [[? ?]|]; [|done]
             end;
      intros [= Hd Hg]; revert Hdims Hcount; rewrite <- Hd; mlp_fields;
      intros [= <-] Hcount;
      (split; [lia|]); (split; [apply Hmax; lia|]);
      exists ws; done.
  - unfold MLPDescriptor.random_init. unfold_M. intros [-> | ->]; [done|].
    destruct input_size as [sz|]; [|done].
    by destruct (MLPDescriptor.flatten sz).
Qed.

Lemma mlp_random_init_widths_witness :
  (exists d' g' widths,
     MLPDescriptor.random_init mlp_blank (Some (MLPDescriptor.Shape [28; 28]))
       (Some (MLPDescriptor.Scalar 10)) (Some 3) (Some 20) None None (replay [1; 3; 7])
     = Some (d', g') /\
     MLPDescriptor.dims d' = Py.PyList widths /\
     Forall (fun w => 5 <= w <= 20) widths) /\
  MLPDescriptor.random_init mlp_blank (Some (MLPDescriptor.Shape [])) None (Some 3) (Some 20)
    None None (replay []) = None.
Proof.
  split.
  - assert (exists d' g',
      MLPDescriptor.random_init mlp_blank (Some (MLPDescriptor.Shape [28; 28]))
        (Some (MLPDescriptor.Scalar 10)) (Some 3) (Some 20) None None (replay [1; 3; 7])
      = Some (d', g')) as (d' & g' & Hrun) by (vm_compute; by eexists _, _).
    destruct (mlp_random_init_widths mlp_blank (Some (MLPDescriptor.Shape [28; 28]))
                (Some (MLPDescriptor.Scalar 10)) 3 20 None None (replay [1; 3; 7])) as [H _].
    destruct (H d' g' Hrun) as (_ & _ & widths & Hdims & _ & Hall).
    by exists d', g', widths.
  - apply (mlp_random_init_widths mlp_blank (Some (MLPDescriptor.Shape [])) None 3 20
             None None (replay [])).
    by left.
Defined.

(** ** MLPDescriptor: the code identifies the genome *)

Lemma indices_determine {A} (ref l1 l2 : list A) (idx : list Z) :
  Forall2 (fun x i => 0 <= i /\ ref !! Z.to_nat i = Some x) l1 idx ->
  Forall2 (fun x i => 0 <= i /\ ref !! Z.to_nat i = Some x) l2 idx ->
  l1 = l2.
Proof.
  intros H1. revert l2. induction H1 as [|x i l1 idx [_ Hx] _ IH]; intros l2 H2.
  { by apply Forall2_nil_inv_r in H2. }
  apply Forall2_cons_inv_r in H2 as (y & l2' & [_ Hy] & H2 & ->).
  f_equal; [congruence | by apply IH].
Qed.

(** X11.  [codify_components] is injective on the genomes it is meant for:
    two [MLPDescriptor]s with list-valued widths in step with their layer
    counts, of at most [max_hidden_layers] hidden layers and with functions
    from the reference lists, that get the same code have the same layer
    count, the same widths, the same initializers and the same activations. *)
Theorem mlp_codify_injective (d1 d2 : MLPDescriptor.t) (max_hidden_layers : Z)
    (ref_init : list (option initialization)) (ref_act : list (option activation))
    (code : Py.seq) :
  mlp_listed d1 -> mlp_listed d2 ->
  MLPDescriptor.number_hidden_layers d1 <= max_hidden_layers ->
  MLPDescriptor.number_hidden_layers d2 <= max_hidden_layers ->
  Forall (fun f => f ∈ ref_init) (MLPDescriptor.init_functions d1) ->
  Forall (fun f => f ∈ ref_act) (MLPDescriptor.act_functions d1) ->
  Forall (fun f => f ∈ ref_init) (MLPDescriptor.init_functions d2) ->
  Forall (fun f => f ∈ ref_act) (MLPDescriptor.act_functions d2) ->
  MLPDescriptor.codify_components d1 max_hidden_layers ref_init ref_act = Some code ->
  MLPDescriptor.codify_components d2 max_hidden_layers ref_init ref_act = Some code ->
  MLPDescriptor.number_hidden_layers d1 = MLPDescriptor.number_hidden_layers d2 /\
  MLPDescriptor.dims d1 = MLPDescriptor.dims d2 /\
  MLPDescriptor.init_functions d1 = MLPDescriptor.init_functions d2 /\
  MLPDescriptor.act_functions d1 = MLPDescriptor.act_functions d2.
Proof.
  intros Hl1 Hl2 Hn1 Hn2 Hi1 Ha1 Hi2 Ha2 Hc1 Hc2.
  destruct (mlp_codify_listed d1 max_hidden_layers ref_init ref_act Hl1 Hn1 Hi1 Ha1)
    as (w1 & f1 & a1 & c1 & Hd1 & Hf1 & Hact1 & Hrun1 & Hcode1 & _).
  destruct (mlp_codify_listed d2 max_hidden_layers ref_init ref_act Hl2 Hn2 Hi2 Ha2)
    as (w2 & f2 & a2 & c2 & Hd2 & Hf2 & Hact2 & Hrun2 & Hcode2 & _).
  rewrite Hrun1 in Hc1. rewrite Hrun2 in Hc2.
  assert (c1 = c2) as Hsame by congruence.
  destruct Hl1 as (w1' & Hd1' & Hw1 & Hli1 & Hla1).
  destruct Hl2 as (w2' & Hd2' & Hw2 & Hli2 & Hla2).
  assert (w1' = w1) as -> by congruence. assert (w2' = w2) as -> by congruence.
  pose proof (Forall2_length _ _ _ Hf1) as Hlf1.
  pose proof (Forall2_length _ _ _ Hf2) as Hlf2.
  pose proof (Forall2_length _ _ _ Hact1) as Hlact1.
  pose proof (Forall2_length _ _ _ Hact2) as Hlact2.
  rewrite Hcode1, Hcode2 in Hsame. clear Hcode1 Hcode2 Hc1 Hc2 Hrun1 Hrun2.
  simpl in Hsame. injection Hsame as Hn Hrest.
  rewrite <- !app_assoc in Hrest.
  apply app_inj_1 in Hrest as [-> Hrest]; [|lia].
  rewrite <- Hlf1, <- Hlf2 in Hrest.
  replace (Z.of_nat (length (MLPDescriptor.init_functions d2)))
    with (Z.of_nat (length (MLPDescriptor.init_functions d1))) in Hrest by lia.
  apply app_inv_head in Hrest.
  apply app_inj_1 in Hrest as [-> Hrest]; [|lia].
  apply app_inv_head in Hrest.
  apply app_inj_1 in Hrest as [-> _]; [|lia].
  split; [exact Hn|]. split; [congruence|].
  split; [by eapply indices_determine | by eapply indices_determine].
Qed.

Lemma mlp_codify_injective_witness :
  MLPDescriptor.dims mlp_two
  = MLPDescriptor.dims (MLPDescriptor.with_base
                          (NetworkDescriptor.change_dropout (MLPDescriptor.base mlp_two)) mlp_two).
Proof.
  refine (proj1 (proj2 (mlp_codify_injective mlp_two
    (MLPDescriptor.with_base (NetworkDescriptor.change_dropout (MLPDescriptor.base mlp_two))
       mlp_two)
    5 initializations activations
    (Py.PyList [2; 5; 6; -1; -1; -1; -1; 0; 2; 1; -1; -1; -1; 1; 0; 6; -1; -1; -1])
    _ _ _ _ _ _ _ _ _ _))).
  - exists [5; 6]. by vm_compute.
  - exists [5; 6]. by vm_compute.
  - by vm_compute.
  - by vm_compute.
  - repeat constructor.
  - repeat constructor.
  - repeat constructor.
  - repeat constructor.
  - reflexivity.
  - reflexivity.
Defined.

(** ** ConvDescriptor: the genomes that [random_init] draws *)

Lemma draw_strides_filters_inv (ms mf : Z) (g : rng) cs cf g' :
  ConvDescriptor.draw_strides_filters ms mf g = Some ((cs, cf), g') ->
  exists s k c, cs = [s; s; 1] /\ cf = [k; k; c] /\ 1 <= s < ms /\ 2 <= k < mf /\ 3 <= c < 64.
Proof.
  unfold ConvDescriptor.draw_strides_filters. unfold_M. unfold randint.
  case_bool_decide as Hs; [|done]. case_bool_decide as Hk; [|done].
  rewrite bool_decide_eq_true_2 by lia.
  intros [= <- <- <-]. eexists _, _, _. split; [reflexivity|]. split; [reflexivity|].
  pose proof (Z.mod_pos_bound (g 0%nat) (ms - 1)).
  pose proof (Z.mod_pos_bound (g 1%nat) (mf - 2)).
  pose proof (Z.mod_pos_bound (g 2%nat) (64 - 3)). lia.
Qed.

Lemma too_small_false (shape : list Z) (d : ConvDescriptor.t) (h w c : Z) :
  shape = [h; w; c] ->
  ConvDescriptor.too_small shape d = Some false -> roomy (ConvDescriptor.output_dim d) shape.
Proof.
  intros ->. unfold ConvDescriptor.too_small. simpl.
  case_bool_decide; [done|]. case_bool_decide; [done|].
  intros [= Hvol]. apply bool_decide_eq_false in Hvol.
  exists h, w, c. split; [done|]. split; [lia|]. split; [lia|].
  replace (h * w * c) with (h * (w * (c * 1))) by lia. lia.
Qed.

(** One accepted shape from the one before: a contractive layer of filter
    side 2 or more takes at least one off each side. *)
Lemma contractive_step (shape : list Z) (k c s : Z) (shape1 : list Z) :
  2 <= k -> 1 <= s ->
  compute_output shape 0 [k; k; c] [s; s; 1] = Some shape1 ->
  exists h1 w1, shape1 = [h1; w1; c] /\
    forall h w rest, shape = h :: w :: rest -> 2 <= h1 -> 2 <= w1 -> h1 <= h - 1 /\ w1 <= w - 1.
Proof.
  intros Hk Hs. unfold compute_output. rewrite bool_decide_eq_true_2 by lia.
  destruct (spatial shape) as [[i0 i1]|] eqn:Hsp; [|done]. simpl.
  intros [= <-]. eexists _, _. split; [reflexivity|].
  intros h w rest ->. simpl in Hsp. injection Hsp as <- <-.
  pose proof (div_is_floor (h - k + 1) s ltac:(lia)) as F0.
  pose proof (div_is_floor (w - k + 1) s ltac:(lia)) as F1.
  unfold is_floor in F0, F1. intros H0 H1. split; nia.
Qed.

Lemma conv_random_init_loop_step (todo : nat) (i : Z) (shape : list Z) (ms mf : Z)
    (d : ConvDescriptor.t) (g : rng) (d' : ConvDescriptor.t) (g' : rng) :
  ConvDescriptor.random_init_loop (S todo) i shape ms mf d g = Some (d', g') ->
  d' = ConvDescriptor.with_number_hidden_layers i d \/
  exists kind f s shape2 init act g2,
    drawn_layer kind f s /\
    roomy (ConvDescriptor.output_dim d) shape2 /\
    (forall h w rest, shape = h :: w :: rest ->
       exists h2 w2 c2, shape2 = [h2; w2; c2] /\ h2 <= h - 1 /\ w2 <= w - 1) /\
    init ∈ drop 1 initializations /\ act ∈ activations /\
    ConvDescriptor.random_init_loop todo (i + 1) shape2 ms mf
      (ConvDescriptor.mk
         (NetworkDescriptor.mk (ConvDescriptor.number_hidden_layers d)
            (ConvDescriptor.init_functions d ++ [init])
            (ConvDescriptor.act_functions d ++ [act])
            (NetworkDescriptor.batch_norm (ConvDescriptor.base d))
            (NetworkDescriptor.dropout (ConvDescriptor.base d))
            (NetworkDescriptor.dropout_probs (ConvDescriptor.base d)))
         (ConvDescriptor.input_dim d) (ConvDescriptor.output_dim d)
         (ConvDescriptor.layers d ++ [kind])
         (ConvDescriptor.filters d ++ [f])
         (ConvDescriptor.strides d ++ [s])
         (ConvDescriptor.shapes d ++ [shape2])) g2
    = Some (d', g').
Proof.
  cbn [ConvDescriptor.random_init_loop]. unfold_M. intros Hrun.
  destruct (choice [0; 1; 2] g) as [[kind g1]|] eqn:Hkind; [|done].
  apply choice_elem_of in Hkind.
  assert (0 <= kind <= 2) as Hrange.
  { apply elem_of_cons in Hkind as [->|Hkind]; [lia|].
    apply elem_of_cons in Hkind as [->|Hkind]; [lia|].
    apply list_elem_of_singleton in Hkind as ->. lia. }
  set (d1 := ConvDescriptor.with_layers (ConvDescriptor.layers d ++ [kind]) d) in *.
  assert (Htrunc : ConvDescriptor.truncate i d1 = ConvDescriptor.with_number_hidden_layers i d).
  { unfold ConvDescriptor.truncate, d1. conv_fields. by rewrite removelast_last. }
  destruct (ConvDescriptor.draw_strides_filters ms mf g1) as [[[cs cf] g2]|] eqn:Hdraw; [|done].
  apply draw_strides_filters_inv in Hdraw as (s & k & c & -> & -> & Hs & Hk & Hc).
  destruct (compute_output shape 0 [k; k; c] [s; s; 1]) as [shape1|] eqn:Hout; [|done].
  destruct (contractive_step shape k c s shape1 ltac:(lia) ltac:(lia) Hout) as (h1 & w1 & -> & Hstep1).
  destruct (ConvDescriptor.too_small [h1; w1; c] d1) as [[|]|] eqn:Hsmall; [| |done].
  { left. injection Hrun as <- _. exact Htrunc. }
  apply (too_small_false _ _ h1 w1 c eq_refl) in Hsmall as Hroomy1.
  change (ConvDescriptor.output_dim d1) with (ConvDescriptor.output_dim d) in Hroomy1.
  unfold ConvDescriptor.companion in Hrun. unfold_M.
  case_bool_decide as Hcomp.
  - destruct (ConvDescriptor.draw_strides_filters ms mf g2) as [[[ps pf] g3]|] eqn:Hdraw2;
      [|done].
    apply draw_strides_filters_inv in Hdraw2 as (s' & k' & c' & -> & -> & Hs' & Hk' & Hc').
    destruct (compute_output [h1; w1; c] 0 [k'; k'; c'] [s'; s'; 1]) as [shape2|] eqn:Hout2;
      [|done].
    destruct (contractive_step [h1; w1; c] k' c' s' shape2 ltac:(lia) ltac:(lia) Hout2)
      as (h2 & w2 & -> & Hstep2).
    destruct (ConvDescriptor.too_small [h2; w2; c'] d1) as [[|]|] eqn:Hsmall2; [| |done].
    { left. injection Hrun as <- _. exact Htrunc. }
    apply (too_small_false _ _ h2 w2 c' eq_refl) in Hsmall2 as Hroomy2.
    change (ConvDescriptor.output_dim d1) with (ConvDescriptor.output_dim d) in Hroomy2.
    unfold ConvDescriptor.accept in Hrun. unfold_M.
    destruct (choice (drop 1 initializations) g3) as [[init g4]|] eqn:Hinit; [|done].
    destruct (choice activations g4) as [[act g5]|] eqn:Hact; [|done].
    apply choice_elem_of in Hinit, Hact.
    right.
    exists kind, (ConvDescriptor.Paired [k; k; c] (Some [k'; k'; c'])),
      (ConvDescriptor.Paired [s; s; 1] (Some [s'; s'; 1])), [h2; w2; c'], init, act, g5.
    split.
    { split; [done|]. exists k, c, s, (Some [k'; k'; c']), (Some [s'; s'; 1]).
      do 2 (split; [done|]). split; [lia|]. split; [lia|]. split; [lia|].
      rewrite bool_decide_eq_false_2 by done.
      exists k', c', s'. repeat split; try done; lia. }
    split; [exact Hroomy2|]. split.
    { intros h w rest ->. exists h2, w2, c'. split; [done|].
      destruct Hroomy1 as (? & ? & ? & [= <- <- <-] & Hh1 & Hw1 & _).
      destruct Hroomy2 as (? & ? & ? & [= <- <- <-] & Hh2 & Hw2 & _).
      destruct (Hstep1 h w rest eq_refl Hh1 Hw1).
      destruct (Hstep2 h1 w1 [c] eq_refl Hh2 Hw2). lia. }
    split; [exact Hinit|]. split; [exact Hact|]. exact Hrun.
  - unfold ConvDescriptor.accept in Hrun. unfold_M.
    destruct (choice (drop 1 initializations) g2) as [[init g4]|] eqn:Hinit; [|done].
    destruct (choice activations g4) as [[act g5]|] eqn:Hact; [|done].
    apply choice_elem_of in Hinit, Hact.
    right.
    exists kind, (ConvDescriptor.Paired [k; k; c] None),
      (ConvDescriptor.Paired [s; s; 1] None), [h1; w1; c], init, act, g5.
    split.
    { split; [done|]. exists k, c, s, None, None.
      do 2 (split; [done|]). split; [lia|]. split; [lia|]. split; [lia|].
      rewrite bool_decide_eq_true_2 by lia. done. }
    split; [exact Hroomy1|]. split.
    { intros h w rest ->. exists h1, w1, c. split; [done|].
      destruct Hroomy1 as (? & ? & ? & [= <- <- <-] & Hh1 & Hw1 & _).
      by apply (Hstep1 h w rest). }
    split; [exact Hinit|]. split; [exact Hact|]. exact Hrun.
Qed.

Lemma conv_random_init_loop_genome (todo : nat) :
  forall (i : Z) (shape : list Z) (ms mf : Z) (d : ConvDescriptor.t) (g : rng)
         (d' : ConvDescriptor.t) (g' : rng),
  ConvDescriptor.random_init_loop todo i shape ms mf d g = Some (d', g') ->
  exists kinds fs ss new acts inits,
    ConvDescriptor.layers d' = ConvDescriptor.layers d ++ kinds /\
    ConvDescriptor.filters d' = ConvDescriptor.filters d ++ fs /\
    ConvDescriptor.strides d' = ConvDescriptor.strides d ++ ss /\
    ConvDescriptor.shapes d' = ConvDescriptor.shapes d ++ new /\
    ConvDescriptor.act_functions d' = ConvDescriptor.act_functions d ++ acts /\
    ConvDescriptor.init_functions d' = ConvDescriptor.init_functions d ++ inits /\
    ConvDescriptor.input_dim d' = ConvDescriptor.input_dim d /\
    ConvDescriptor.output_dim d' = ConvDescriptor.output_dim d /\
    NetworkDescriptor.batch_norm (ConvDescriptor.base d')
    = NetworkDescriptor.batch_norm (ConvDescriptor.base d) /\
    Forall3 drawn_layer kinds fs ss /\
    length new = length fs /\ length acts = length fs /\ length inits = length fs /\
    Forall (roomy (ConvDescriptor.output_dim d)) new /\
    Forall (fun f => f ∈ activations) acts /\
    Forall (fun f => f ∈ drop 1 initializations) inits /\
    ((ConvDescriptor.number_hidden_layers d' = ConvDescriptor.number_hidden_layers d /\
      length fs = todo) \/
     (ConvDescriptor.number_hidden_layers d' = i + Z.of_nat (length fs) /\
      (length fs < todo)%nat)) /\
    (forall h w rest, shape = h :: w :: rest ->
       Z.of_nat (length fs) <= Z.max 0 (Z.min h w - 2)).
Proof.
  induction todo as [|todo IH]; intros i shape ms mf d g d' g' Hrun.
  { simpl in Hrun. injection Hrun as <- <-.
    exists [], [], [], [], [], []. rewrite !app_nil_r.
    do 9 (split; [done|]). split; [constructor|]. do 3 (split; [done|]).
    do 3 (split; [constructor|]). split; [by left|]. intros; simpl; lia. }
  apply conv_random_init_loop_step in Hrun
    as [-> | (kind & f & s & shape2 & init & act & g2 & Hdrawn & Hroomy & Hshrink
              & Hinit & Hact & Hrun)].
  { exists [], [], [], [], [], []. conv_fields. rewrite !app_nil_r.
    do 9 (split; [done|]). split; [constructor|]. do 3 (split; [done|]).
    do 3 (split; [constructor|]). split; [right; simpl; split; lia|]. intros; simpl; lia. }
  apply IH in Hrun
    as (kinds & fs & ss & new & acts & inits & Hl & Hf & Hs & Hsh & Ha & Hi & Hin & Hout
        & Hbn & Hall & Hlnew & Hlacts & Hlinits & Hnew & Hacts & Hinits & Hn & Hdepth).
  conv_fields.
  exists (kind :: kinds), (f :: fs), (s :: ss), (shape2 :: new), (act :: acts), (init :: inits).
  rewrite Hl, Hf, Hs, Hsh, Ha, Hi, <- !app_assoc. simpl.
  do 9 (split; [done|]).
  split; [by constructor|].
  split; [by f_equal|]. split; [by f_equal|]. split; [by f_equal|].
  split; [by constructor|]. split; [by constructor|]. split; [by constructor|].
  split.
  { destruct Hn as [[Hn Hlen]|[Hn Hlen]]; [left | right]; split; try done; lia. }
  intros h w rest Hshape.
  destruct (Hshrink h w rest Hshape) as (h2 & w2 & c2 & -> & Hh2 & Hw2).
  destruct Hroomy as (? & ? & ? & [= <- <- <-] & Hh & Hw & _).
  specialize (Hdepth h2 w2 [c2] eq_refl). lia.
Qed.

Lemma conv_random_init_genome (d : ConvDescriptor.t) (input_size : list Z)
    (output_size nlayers max_stride max_filter : Z) (no_batch : option bool) (g : rng)
    (d' : ConvDescriptor.t) (g' : rng) :
  ConvDescriptor.random_init d input_size output_size nlayers max_stride max_filter no_batch g
  = Some (d', g') ->
  exists new,
    ConvDescriptor.input_dim d' = input_size /\
    ConvDescriptor.output_dim d' = output_size /\
    Forall3 drawn_layer (ConvDescriptor.layers d') (ConvDescriptor.filters d')
      (ConvDescriptor.strides d') /\
    ConvDescriptor.shapes d' = ConvDescriptor.shapes d ++ new /\
    length new = length (ConvDescriptor.filters d') /\
    Forall (roomy output_size) new /\
    length (ConvDescriptor.act_functions d') = length (ConvDescriptor.filters d') /\
    length (ConvDescriptor.init_functions d') = length (ConvDescriptor.filters d') /\
    Forall (fun f => f ∈ activations) (ConvDescriptor.act_functions d') /\
    Forall (fun f => f ∈ drop 1 initializations) (ConvDescriptor.init_functions d') /\
    ((1 <= ConvDescriptor.number_hidden_layers d' <= nlayers /\
      Z.of_nat (length (ConvDescriptor.filters d')) = nlayers) \/
     (ConvDescriptor.number_hidden_layers d' = Z.of_nat (length (ConvDescriptor.filters d')) /\
      Z.of_nat (length (ConvDescriptor.filters d')) < nlayers)) /\
    (forall h w rest, input_size = h :: w :: rest ->
       Z.of_nat (length (ConvDescriptor.filters d')) <= Z.max 0 (Z.min h w - 2)).
Proof.
  unfold ConvDescriptor.random_init. unfold_M.
  destruct (randint 0 nlayers g) as [[r g1]|] eqn:Hr; [|done].
  assert (0 <= r < nlayers) as Hrange.
  { unfold randint in Hr. case_bool_decide; [|done]. injection Hr as <- <-.
    pose proof (Z.mod_pos_bound (g 0%nat) (nlayers - 0)). lia. }
  match goal with
  | |- context [ConvDescriptor.random_init_loop _ _ _ _ _ ?x g1] => set (d0 := x)
  end.
  destruct (ConvDescriptor.random_init_loop _ _ _ _ _ d0 g1) as [[d1 g2]|] eqn:Hloop; [|done].
  apply conv_random_init_loop_genome in Hloop
    as (kinds & fs & ss & new & acts & inits & Hl & Hf & Hs & Hsh & Ha & Hi & Hin & Hout
        & Hbn & Hall & Hlnew & Hlacts & Hlinits & Hnew & Hacts & Hinits & Hn & Hdepth).
  unfold d0 in Hl, Hf, Hs, Hsh, Ha, Hi, Hin, Hout, Hnew, Hn, Hdepth. conv_fields.
  simpl in Hl, Hf, Hs, Ha, Hi.
  assert (Hgoal : forall d2,
    ConvDescriptor.input_dim d2 = ConvDescriptor.input_dim d1 ->
    ConvDescriptor.output_dim d2 = ConvDescriptor.output_dim d1 ->
    ConvDescriptor.layers d2 = ConvDescriptor.layers d1 ->
    ConvDescriptor.filters d2 = ConvDescriptor.filters d1 ->
    ConvDescriptor.strides d2 = ConvDescriptor.strides d1 ->
    ConvDescriptor.shapes d2 = ConvDescriptor.shapes d1 ->
    NetworkDescriptor.act_functions (ConvDescriptor.base d2)
    = NetworkDescriptor.act_functions (ConvDescriptor.base d1) ->
    NetworkDescriptor.init_functions (ConvDescriptor.base d2)
    = NetworkDescriptor.init_functions (ConvDescriptor.base d1) ->
    NetworkDescriptor.number_hidden_layers (ConvDescriptor.base d2)
    = NetworkDescriptor.number_hidden_layers (ConvDescriptor.base d1) ->
    exists new,
      ConvDescriptor.input_dim d2 = input_size /\
      ConvDescriptor.output_dim d2 = output_size /\
      Forall3 drawn_layer (ConvDescriptor.layers d2) (ConvDescriptor.filters d2)
        (ConvDescriptor.strides d2) /\
      ConvDescriptor.shapes d2 = ConvDescriptor.shapes d ++ new /\
      length new = length (ConvDescriptor.filters d2) /\
      Forall (roomy output_size) new /\
      length (NetworkDescriptor.act_functions (ConvDescriptor.base d2))
      = length (ConvDescriptor.filters d2) /\
      length (NetworkDescriptor.init_functions (ConvDescriptor.base d2))
      = length (ConvDescriptor.filters d2) /\
      Forall (fun f => f ∈ activations)
        (NetworkDescriptor.act_functions (ConvDescriptor.base d2)) /\
      Forall (fun f => f ∈ drop 1 initializations)
        (NetworkDescriptor.init_functions (ConvDescriptor.base d2)) /\
      ((1 <= NetworkDescriptor.number_hidden_layers (ConvDescriptor.base d2) <= nlayers /\
        Z.of_nat (length (ConvDescriptor.filters d2)) = nlayers) \/
       (NetworkDescriptor.number_hidden_layers (ConvDescriptor.base d2)
        = Z.of_nat (length (ConvDescriptor.filters d2)) /\
        Z.of_nat (length (ConvDescriptor.filters d2)) < nlayers)) /\
      (forall h w rest, input_size = h :: w :: rest ->
         Z.of_nat (length (ConvDescriptor.filters d2)) <= Z.max 0 (Z.min h w - 2))).
  { intros d2 -> -> -> -> -> -> -> -> ->. exists new.
    rewrite Hl, Hf, Hs, Ha, Hi.
    do 10 (split; [done|]). split; [|exact Hdepth].
    destruct Hn as [[Hn Hlen]|[Hn Hlen]]; [left | right]; split; lia. }
  destruct no_batch as [[|]|].
  - intros [= <- <-]. by apply Hgoal.
  - destruct (choice [true; false] g2) as [[b g3]|]; [|done].
    intros [= <- <-]. by apply Hgoal.
  - intros [= <- <-]. by apply Hgoal.
Qed.

(** X12.  What [random_init] stores in a [ConvDescriptor], for every draw:
    kinds, filters and strides are equally long and hold, layer by layer, a
    kind among 0, 1 and 2 and the pair of a convolution array (filter side 2
    or more, stride 1 or more, 3 to 63 channels) and of a pooling array, the
    latter present exactly when the kind is not 2.  There is one activation
    of the catalog per layer and one initializer, never the first of the
    catalog.  The layer count is the number of layers after a rejection, and
    otherwise the first draw plus one, between 1 and [nlayers], with
    [nlayers] layers stored. *)
Theorem conv_random_init_draws (d : ConvDescriptor.t) (input_size : list Z)
    (output_size nlayers max_stride max_filter : Z) (no_batch : option bool) (g : rng)
    (d' : ConvDescriptor.t) (g' : rng) :
  ConvDescriptor.random_init d input_size output_size nlayers max_stride max_filter no_batch g
  = Some (d', g') ->
  Forall3 drawn_layer (ConvDescriptor.layers d') (ConvDescriptor.filters d')
    (ConvDescriptor.strides d') /\
  length (ConvDescriptor.act_functions d') = length (ConvDescriptor.filters d') /\
  length (ConvDescriptor.init_functions d') = length (ConvDescriptor.filters d') /\
  Forall (fun f => f ∈ activations) (ConvDescriptor.act_functions d') /\
  Forall (fun f => f ∈ [Some RandomUniform; Some GlorotNormal; Some GlorotUniform])
    (ConvDescriptor.init_functions d') /\
  ((1 <= ConvDescriptor.number_hidden_layers d' <= nlayers /\
    Z.of_nat (length (ConvDescriptor.filters d')) = nlayers) \/
   (ConvDescriptor.number_hidden_layers d' = Z.of_nat (length (ConvDescriptor.filters d')) /\
    Z.of_nat (length (ConvDescriptor.filters d')) < nlayers)).
Proof.
  intros Hrun.
  destruct (conv_random_init_genome _ _ _ _ _ _ _ _ _ _ Hrun)
    as (new & _ & _ & Hall & _ & _ & _ & Hla & Hli & Hacts & Hinits & Hn & _).
  done.
Qed.

Lemma conv_random_init_draws_witness :
  exists d' g',
    ConvDescriptor.random_init conv_blank [28; 28; 3] 10 2 2 3 None (replay [1])
    = Some (d', g') /\
    Forall3 drawn_layer (ConvDescriptor.layers d') (ConvDescriptor.filters d')
      (ConvDescriptor.strides d') /\
    length (ConvDescriptor.act_functions d') = length (ConvDescriptor.filters d').
Proof.
  assert (exists d' g',
    ConvDescriptor.random_init conv_blank [28; 28; 3] 10 2 2 3 None (replay [1])
    = Some (d', g')) as (d' & g' & Hrun) by (vm_compute; by eexists _, _).
  destruct (conv_random_init_draws _ _ _ _ _ _ _ _ _ _ Hrun) as (Hall & Hla & _).
  exists d', g'. split; [exact Hrun|]. split; [exact Hall | exact Hla].
Defined.

(** X13.  The cache of shapes after [random_init] on a [ConvDescriptor]: the
    call appends to the cache it finds (it never empties it) one shape per
    stored layer, each with both sides at 2 or more and a volume of
    [output_size] or more.  Every layer takes at least one off each side, so
    over an input of sides [h] and [w] no more than [min h w - 2] layers are
    ever stored, whatever [nlayers] is. *)
Theorem conv_random_init_cache (d : ConvDescriptor.t) (input_size : list Z)
    (output_size nlayers max_stride max_filter : Z) (no_batch : option bool) (g : rng)
    (d' : ConvDescriptor.t) (g' : rng) :
  ConvDescriptor.random_init d input_size output_size nlayers max_stride max_filter no_batch g
  = Some (d', g') ->
  exists new,
    ConvDescriptor.shapes d' = ConvDescriptor.shapes d ++ new /\
    length new = length (ConvDescriptor.filters d') /\
    Forall (roomy output_size) new /\
    (forall h w rest, input_size = h :: w :: rest ->
       Z.of_nat (length (ConvDescriptor.filters d')) <= Z.max 0 (Z.min h w - 2)).
Proof.
  intros Hrun.
  destruct (conv_random_init_genome _ _ _ _ _ _ _ _ _ _ Hrun)
    as (new & _ & _ & _ & Hsh & Hlen & Hnew & _ & _ & _ & _ & _ & Hdepth).
  by exists new.
Qed.

Lemma conv_random_init_cache_witness :
  exists d' g' new,
    ConvDescriptor.random_init conv_blank [4; 4; 3] 10 5 2 3 None (replay [4]) = Some (d', g') /\
    ConvDescriptor.shapes d' = [] ++ new /\
    Forall (roomy 10) new /\
    Z.of_nat (length (ConvDescriptor.filters d')) <= 2.
Proof.
  assert (exists d' g',
    ConvDescriptor.random_init conv_blank [4; 4; 3] 10 5 2 3 None (replay [4]) = Some (d', g'))
    as (d' & g' & Hrun) by (vm_compute; by eexists _, _).
  destruct (conv_random_init_cache _ _ _ _ _ _ _ _ _ _ Hrun) as (new & Hsh & _ & Hnew & Hdepth).
  exists d', g', new. split; [exact Hrun|]. split; [exact Hsh|]. split; [exact Hnew|].
  apply (Hdepth 4 4 [3] eq_refl).
Defined.

(** ** ConvDescriptor: when [random_init] returns *)

Lemma draw_strides_filters_total (ms mf : Z) (g : rng) :
  2 <= ms -> 3 <= mf ->
  exists s k c g',
    ConvDescriptor.draw_strides_filters ms mf g = Some (([s; s; 1], [k; k; c]), g').
Proof.
  intros Hms Hmf. unfold ConvDescriptor.draw_strides_filters. unfold_M.
  destruct (randint_inside 1 ms g) as (s & _ & ->); [lia|].
  destruct (randint_inside 2 mf (fun n => g (S n))) as (k & _ & ->); [lia|].
  destruct (randint_inside 3 64 (fun n => g (S (S n)))) as (c & _ & ->); [lia|].
  by eexists _, _, _, _.
Qed.

Lemma contractive_total (shape : list Z) (k c s : Z) :
  shape <> [] ->
  exists h1 w1, compute_output shape 0 [k; k; c] [s; s; 1] = Some [h1; w1; c].
Proof.
  intros Hshape. unfold compute_output. rewrite bool_decide_eq_true_2 by lia.
  destruct shape as [|a [|b shape]]; [done| |]; simpl; by eexists _, _.
Qed.

Lemma too_small_total (h w c : Z) (d : ConvDescriptor.t) :
  exists small, ConvDescriptor.too_small [h; w; c] d = Some small.
Proof.
  unfold ConvDescriptor.too_small. simpl.
  case_bool_decide; [by eexists|]. case_bool_decide; by eexists.
Qed.

Lemma conv_accept_total cs cf ps pf shape d g :
  exists d' g', ConvDescriptor.accept cs cf ps pf shape d g = Some (d', g').
Proof.
  unfold ConvDescriptor.accept. unfold_M.
  destruct (choice_inside (drop 1 initializations) g) as (init & _ & ->); [done|].
  destruct (choice_inside activations (fun n => g (S n))) as (act & _ & ->); [done|].
  by eexists _, _.
Qed.

Lemma conv_random_init_loop_total (todo : nat) :
  forall (i : Z) (shape : list Z) (ms mf : Z) (d : ConvDescriptor.t) (g : rng),
  2 <= ms -> 3 <= mf -> shape <> [] ->
  exists d' g', ConvDescriptor.random_init_loop todo i shape ms mf d g = Some (d', g').
Proof.
  induction todo as [|todo IH]; intros i shape ms mf d g Hms Hmf Hshape.
  { by eexists _, _. }
  cbn [ConvDescriptor.random_init_loop]. unfold_M.
  destruct (choice_inside [0; 1; 2] g) as (kind & _ & ->); [done|].
  set (d1 := ConvDescriptor.with_layers _ d).
  destruct (draw_strides_filters_total ms mf (fun n => g (S n)) Hms Hmf)
    as (s & k & c & g2 & ->).
  destruct (contractive_total shape k c s Hshape) as (h1 & w1 & ->).
  destruct (too_small_total h1 w1 c d1) as ([|] & ->); [by eexists _, _|].
  unfold ConvDescriptor.companion. unfold_M.
  case_bool_decide as Hcomp.
  - destruct (draw_strides_filters_total ms mf g2 Hms Hmf) as (s' & k' & c' & g3 & ->).
    destruct (contractive_total [h1; w1; c] k' c' s' ltac:(done)) as (h2 & w2 & ->).
    destruct (too_small_total h2 w2 c' d1) as ([|] & ->); [by eexists _, _|].
    destruct (conv_accept_total [s; s; 1] [k; k; c] (Some [s'; s'; 1]) (Some [k'; k'; c'])
                [h2; w2; c'] d1 g3) as (d2 & g4 & ->).
    by apply IH.
  - destruct (conv_accept_total [s; s; 1] [k; k; c] None None [h1; w1; c] d1 g2)
      as (d2 & g4 & ->).
    by apply IH.
Qed.

Lemma conv_random_init_loop_needs (todo : nat) (i : Z) (shape : list Z) (ms mf : Z)
    (d : ConvDescriptor.t) (g : rng) (d' : ConvDescriptor.t) (g' : rng) :
  ConvDescriptor.random_init_loop (S todo) i shape ms mf d g = Some (d', g') ->
  2 <= ms /\ 3 <= mf /\ shape <> [].
Proof.
  cbn [ConvDescriptor.random_init_loop]. unfold_M.
  destruct (choice [0; 1; 2] g) as [[kind g1]|]; [|done].
  destruct (ConvDescriptor.draw_strides_filters ms mf g1) as [[[cs cf] g2]|] eqn:Hdraw; [|done].
  apply draw_strides_filters_inv in Hdraw as (s & k & c & -> & -> & Hs & Hk & Hc).
  destruct shape as [|a shape]; [done|]. intros _. repeat split; try lia. done.
Qed.

(** X14.  [random_init] on a [ConvDescriptor] with the target given as one
    integer.  It returns only when [nlayers >= 1], [max_stride >= 2],
    [max_filter >= 3] and the input shape is not empty; otherwise it raises,
    in [np.random.randint] on an empty range or in the shape arithmetic.
    When the three bounds are moreover at most [2^63], which is what
    [np.random.randint] accepts, and the shape and the target are [int64]
    integers, it does return, for every draw. *)
Theorem conv_random_init_returns (d : ConvDescriptor.t) (input_size : list Z)
    (output_size nlayers max_stride max_filter : Z) (no_batch : option bool) (g : rng) :
  ((exists d' g',
      ConvDescriptor.random_init d input_size output_size nlayers max_stride max_filter
        no_batch g = Some (d', g')) ->
   1 <= nlayers /\ 2 <= max_stride /\ 3 <= max_filter /\ input_size <> []) /\
  (1 <= nlayers <= 2 ^ 63 -> 2 <= max_stride <= 2 ^ 63 -> 3 <= max_filter <= 2 ^ 63 ->
   input_size <> [] -> Forall Py.int64 input_size -> Py.int64 output_size ->
   exists d' g',
     ConvDescriptor.random_init d input_size output_size nlayers max_stride max_filter
       no_batch g = Some (d', g')).
Proof.
  unfold ConvDescriptor.random_init. unfold_M. split.
  - intros (d' & g' & Hrun). revert Hrun.
    destruct (randint 0 nlayers g) as [[r g1]|] eqn:Hr; [|done].
    assert (1 <= nlayers) as Hn.
    { unfold randint in Hr. case_bool_decide; [lia | done]. }
    destruct (Z.to_nat nlayers) as [|todo] eqn:Htodo; [lia|].
    match goal with
    | |- context [ConvDescriptor.random_init_loop _ _ _ _ _ ?x g1] => set (d0 := x)
    end.
    destruct (ConvDescriptor.random_init_loop _ _ _ _ _ d0 g1) as [[d1 g2]|] eqn:Hloop; [|done].
    intros _. apply conv_random_init_loop_needs in Hloop. unfold d0 in Hloop. conv_fields.
    destruct Hloop as (Hms & Hmf & Hin). done.
  - intros [Hn _] [Hms _] [Hmf _] Hin _ _.
    destruct (randint_inside 0 nlayers g) as (r & _ & ->); [lia|].
    match goal with
    | |- context [ConvDescriptor.random_init_loop ?todo ?i ?shape _ _ ?x ?g0] =>
        destruct (conv_random_init_loop_total todo i shape max_stride max_filter x g0)
          as (d1 & g1 & ->); try done
    end.
    destruct no_batch as [[|]|]; try (by eexists _, _).
    destruct (choice_inside [true; false] g1) as (b & _ & ->); [done|].
    by eexists _, _.
Qed.

Lemma conv_random_init_returns_witness :
  (exists d' g',
     ConvDescriptor.random_init conv_blank [28; 28; 3] 10 2 2 3 None (replay []) = Some (d', g')) /\
  ~ (exists d' g',
       ConvDescriptor.random_init conv_blank [28; 28; 3] 10 2 1 3 None (replay [])
       = Some (d', g')).
Proof.
  split.
  - apply (conv_random_init_returns conv_blank [28; 28; 3] 10 2 2 3 None (replay []));
      try lia; try done; solve_int64.
  - intros H.
    apply (conv_random_init_returns conv_blank [28; 28; 3] 10 2 1 3 None (replay [])) in H.
    lia.
Defined.

(** ** CNN: the model built from a [ConvDescriptor] *)

Lemma omap_lookup_seq {A} (l : list A) (n : nat) :
  (n <= length l)%nat -> omap (fun i => l !! i) (seq 0 n) = take n l.
Proof.
  induction n as [|n IH]; intros Hn; [done|].
  rewrite seq_S, omap_app. simpl.
  destruct (lookup_lt_is_Some_2 l n) as [x Hx]; [lia|].
  rewrite Hx, IH by lia. by rewrite (take_S_r _ _ x).
Qed.

Lemma cnn_convolutions_plan (d : ConvDescriptor.t) (lays : list nat) :
  Forall3 drawn_layer (ConvDescriptor.layers d) (ConvDescriptor.filters d)
    (ConvDescriptor.strides d) ->
  length (ConvDescriptor.act_functions d) = length (ConvDescriptor.filters d) ->
  length (ConvDescriptor.init_functions d) = length (ConvDescriptor.filters d) ->
  Forall (fun lay => (lay < length (ConvDescriptor.filters d))%nat) lays ->
  forall x : tensor,
  exists plan,
    CNN.convolutions lays d x = Some (x ++ plan) /\
    Forall2 (fun lay t =>
      exists k c st pf ps act init,
        ConvDescriptor.filters d !! lay = Some (ConvDescriptor.Paired [k; k; c] pf) /\
        ConvDescriptor.strides d !! lay = Some (ConvDescriptor.Paired [st; st; 1] ps) /\
        ConvDescriptor.act_functions d !! lay = Some act /\
        ConvDescriptor.init_functions d !! lay = Some init /\
        t = (c, (k, k), (st, st), act, init)) lays (omap conv_of plan) /\
    omap pool_of plan
    = filter (fun kind => kind <> 2) (omap (fun lay => ConvDescriptor.layers d !! lay) lays) /\
    length (omap norm_of plan)
    = (if NetworkDescriptor.batch_norm (ConvDescriptor.base d) then length lays else 0%nat).
Proof.
  intros Hall Hla Hli Hlays.
  induction Hlays as [|lay lays Hlay _ IH]; intros x.
  { exists []. rewrite app_nil_r. simpl. repeat split; try done; try constructor.
    by destruct (NetworkDescriptor.batch_norm _). }
  destruct (lookup_lt_is_Some_2 _ _ Hlay) as [f Hf].
  destruct (Forall3_lookup_m _ _ _ _ _ _ Hall Hf)
    as (kind & s & Hkind & Hs & Hrange & k & c & st & pf & ps & -> & -> & Hk & Hst & Hc & Hpool).
  destruct (lookup_lt_is_Some_2 (ConvDescriptor.act_functions d) lay) as [act Hact]; [lia|].
  destruct (lookup_lt_is_Some_2 (ConvDescriptor.init_functions d) lay) as [init Hinit]; [lia|].
  cbn [CNN.convolutions]. rewrite Hf, Hs, Hact, Hinit.
  cbn [mbind option_bind CNN.primary lookup list_lookup].
  set (conv := Conv2D c (k, k) (st, st) act init).
  set (norm := if NetworkDescriptor.batch_norm (ConvDescriptor.base d)
               then [BatchNormalization] else []).
  assert (Hx1 : (if NetworkDescriptor.batch_norm (ConvDescriptor.base d)
                 then (x ++ [conv]) ++ [BatchNormalization] else x ++ [conv])
                = x ++ [conv] ++ norm).
  { unfold norm. destruct (NetworkDescriptor.batch_norm _); by rewrite <- ?app_assoc. }
  rewrite Hx1.
  assert (Hpooling : exists pool,
    CNN.pooling d lay (x ++ [conv] ++ norm) = Some (x ++ [conv] ++ norm ++ pool) /\
    omap conv_of pool = [] /\ omap norm_of pool = [] /\
    omap pool_of pool = filter (fun kind => kind <> 2) [kind]).
  { unfold CNN.pooling. rewrite Hkind, Hf, Hs. cbn [mbind option_bind CNN.secondary].
    destruct (decide (kind = 0 \/ kind = 1)) as [Hk01|Hk2].
    - rewrite (bool_decide_eq_true_2 (kind = 0 \/ kind = 1)) by done.
      rewrite bool_decide_eq_false_2 in Hpool by lia.
      destruct Hpool as (k' & c' & st' & -> & -> & _).
      cbn [mbind option_bind lookup list_lookup].
      eexists [_]. split; [by rewrite <- !app_assoc|].
      destruct Hk01 as [-> | ->]; by vm_compute.
    - rewrite (bool_decide_eq_false_2 (kind = 0 \/ kind = 1)) by done.
      exists []. rewrite !app_nil_r. assert (kind = 2) as -> by lia. done. }
  destruct Hpooling as (pool & -> & Hpc & Hpn & Hpp). cbn [mbind option_bind].
  destruct (IH (x ++ [conv] ++ norm ++ pool)) as (plan & Hrun & Hconv & Hpoolk & Hnorm).
  exists ([conv] ++ norm ++ pool ++ plan).
  split; [by rewrite Hrun, <- !app_assoc|].
  rewrite !omap_app, Hpc, Hpn, Hpp, Hpoolk.
  assert (omap conv_of norm = [] /\ omap pool_of norm = []) as [-> ->]
    by (unfold norm; by destruct (NetworkDescriptor.batch_norm _)).
  split.
  { simpl. constructor; [|done]. by exists k, c, st, pf, ps, act, init. }
  split.
  { cbn [omap list_omap]. rewrite Hkind.
    change (filter (fun kind0 => kind0 <> 2)
              (kind :: omap (fun lay0 => ConvDescriptor.layers d !! lay0) lays))
      with (filter (fun kind0 => kind0 <> 2)
              ([kind] ++ omap (fun lay0 => ConvDescriptor.layers d !! lay0) lays)).
    by rewrite filter_app. }
  rewrite !length_app, Hnorm. unfold norm.
  destruct (NetworkDescriptor.batch_norm _); simpl; lia.
Qed.

(** X15.  Every genome that [random_init] stores in a [ConvDescriptor] can be
    built, for every draw: [building] appends to its input one [Conv2D] per
    counted layer, with the channels, sides and stride of that layer's
    convolution array and its activation and initializer, one
    [BatchNormalization] after each when batch normalization is on, and after
    the layers of kind 0 and 1, in their order, an average and a max pooling
    respectively. *)
Theorem cnn_building_after_random_init (d : ConvDescriptor.t) (input_size : list Z)
    (output_size nlayers max_stride max_filter : Z) (no_batch : option bool) (g : rng)
    (d' : ConvDescriptor.t) (g' : rng) (x : tensor) :
  ConvDescriptor.random_init d input_size output_size nlayers max_stride max_filter no_batch g
  = Some (d', g') ->
  let n := Z.to_nat (ConvDescriptor.number_hidden_layers d') in
  exists plan,
    CNN.building d' x = Some (x ++ plan) /\
    length (omap conv_of plan) = n /\
    (forall i : nat, (i < n)%nat ->
       exists k c st pf ps act init,
         ConvDescriptor.filters d' !! i = Some (ConvDescriptor.Paired [k; k; c] pf) /\
         ConvDescriptor.strides d' !! i = Some (ConvDescriptor.Paired [st; st; 1] ps) /\
         ConvDescriptor.act_functions d' !! i = Some act /\
         ConvDescriptor.init_functions d' !! i = Some init /\
         omap conv_of plan !! i = Some (c, (k, k), (st, st), act, init)) /\
    omap pool_of plan = filter (fun kind => kind <> 2) (take n (ConvDescriptor.layers d')) /\
    length (omap norm_of plan)
    = (if NetworkDescriptor.batch_norm (ConvDescriptor.base d') then n else 0%nat).
Proof.
  intros Hrun n.
  destruct (conv_random_init_genome _ _ _ _ _ _ _ _ _ _ Hrun)
    as (new & _ & _ & Hall & _ & _ & _ & Hla & Hli & _ & _ & Hn & _).
  assert (n <= length (ConvDescriptor.filters d'))%nat as Hcount by (unfold n; lia).
  destruct (cnn_convolutions_plan d' (seq 0 n) Hall Hla Hli) with (x := x)
    as (plan & Hb & Hconv & Hpool & Hnorm).
  { apply Forall_forall. intros lay Hlay. apply elem_of_seq in Hlay. lia. }
  exists plan. split; [exact Hb|].
  pose proof (Forall2_length _ _ _ Hconv) as Hlen. rewrite length_seq in Hlen.
  split; [done|]. split.
  { intros i Hi.
    destruct (Forall2_lookup_l _ _ _ i i Hconv)
      as (t & Hat & k & c & st & pf & ps & act & init & Hf & Hs & Ha & Hin & ->).
    { apply lookup_seq. lia. }
    by exists k, c, st, pf, ps, act, init. }
  split.
  { rewrite Hpool, omap_lookup_seq; [done|].
    apply Forall3_length_lm in Hall. lia. }
  by rewrite Hnorm, length_seq.
Qed.

Lemma cnn_building_after_random_init_witness :
  exists d' g' plan,
    ConvDescriptor.random_init conv_blank [28; 28; 3] 10 2 2 3 None (replay [1])
    = Some (d', g') /\
    CNN.building d' [] = Some ([] ++ plan) /\
    length (omap conv_of plan) = Z.to_nat (ConvDescriptor.number_hidden_layers d').
Proof.
  assert (exists d' g',
    ConvDescriptor.random_init conv_blank [28; 28; 3] 10 2 2 3 None (replay [1])
    = Some (d', g')) as (d' & g' & Hrun) by (vm_compute; by eexists _, _).
  destruct (cnn_building_after_random_init _ _ _ _ _ _ _ _ _ _ [] Hrun)
    as (plan & Hb & Hlen & _).
  exists d', g', plan. split; [exact Hrun|]. split; [exact Hb | exact Hlen].
Defined.

(** The plan of the first sample genome: a convolution and, the kind being 0,
    an average pooling. *)
Example cnn_building_conv_one :
  (conv_one ≫= fun '(d, _) => CNN.building d [])
  = Some [Conv2D 3 (2, 2) (1, 1) None (Some RandomUniform);
          AveragePooling2D (2, 2) (1, 1)].
Proof. by vm_compute. Qed.

(** ** The two layouts of a [ConvDescriptor] exclude each other *)

Lemma conv_reset_shapes_flat_head (d d' : ConvDescriptor.t) :
  ConvDescriptor.reset_shapes d = Some d' ->
  ConvDescriptor.number_hidden_layers d' = ConvDescriptor.number_hidden_layers d /\
  ConvDescriptor.filters d' = ConvDescriptor.filters d /\
  (1 <= ConvDescriptor.number_hidden_layers d ->
   exists v, ConvDescriptor.filters d !! 0%nat = Some (ConvDescriptor.Triple v)).
Proof.
  unfold ConvDescriptor.reset_shapes.
  destruct (ConvDescriptor.reset_shapes_loop _ _ d []) as [acc|] eqn:Hloop; [|done].
  intros [= <-]. split; [done|]. split; [done|]. intros Hn.
  destruct (Z.to_nat (ConvDescriptor.number_hidden_layers d)) as [|m] eqn:Hm; [lia|].
  cbn [seq ConvDescriptor.reset_shapes_loop] in Hloop.
  destruct (ConvDescriptor.filters d !! 0%nat) as [[v|conv pool]|]; [by exists v| |done].
  simpl in Hloop. by destruct (ConvDescriptor.strides d !! 0%nat).
Qed.

Lemma cnn_building_flat_head (d : ConvDescriptor.t) (v : list Z) (x : tensor) :
  1 <= ConvDescriptor.number_hidden_layers d ->
  ConvDescriptor.filters d !! 0%nat = Some (ConvDescriptor.Triple v) ->
  CNN.building d x = None.
Proof.
  intros Hn Hf. unfold CNN.building.
  destruct (Z.to_nat (ConvDescriptor.number_hidden_layers d)) as [|m] eqn:Hm; [lia|].
  cbn [seq CNN.convolutions]. by rewrite Hf.
Qed.

Lemma cnn_building_after_reset_shapes (d d' : ConvDescriptor.t) (x : tensor) :
  ConvDescriptor.reset_shapes d = Some d' ->
  1 <= ConvDescriptor.number_hidden_layers d' ->
  CNN.building d' x = None.
Proof.
  intros Hreset Hn.
  destruct (conv_reset_shapes_flat_head d d' Hreset) as (Hn' & Hf & Hhead).
  destruct Hhead as [v Hv]; [lia|].
  apply (cnn_building_flat_head d' v); [done | by rewrite Hf].
Qed.

(** X16.  [CNN.building] and the mutation operators of [ConvDescriptor] read
    opposite layouts of [filters]: whatever descriptor with one layer or more
    comes back from [reset_shapes], or from [remove_layer], [change_filters],
    [change_stride] or a successful [add_layer], which all end in
    [reset_shapes], makes [building] raise. *)
Theorem cnn_building_raises_after_mutation (d d' : ConvDescriptor.t) (x : tensor) :
  1 <= ConvDescriptor.number_hidden_layers d' ->
  ConvDescriptor.reset_shapes d = Some d' \/
  (exists pos, ConvDescriptor.remove_layer d pos = Some d') \/
  (exists pos side channels, ConvDescriptor.change_filters d pos side channels = Some d') \/
  (exists pos stride, ConvDescriptor.change_stride d pos stride = Some d') \/
  (exists pos kind p g g', ConvDescriptor.add_layer d pos kind p g = Some ((d', 0), g')) ->
  CNN.building d' x = None.
Proof.
  intros Hn [Hrun | [(pos & Hrun) | [(pos & side & channels & Hrun)
                  | [(pos & stride & Hrun) | (pos & kind & p & g & g' & Hrun)]]]].
  - by eapply cnn_building_after_reset_shapes.
  - unfold ConvDescriptor.remove_layer in Hrun.
    destruct (Py.list_pop pos (ConvDescriptor.filters d)); [|done].
    destruct (Py.list_pop pos (ConvDescriptor.act_functions d)); [|done].
    destruct (Py.list_pop pos (ConvDescriptor.init_functions d)); [|done].
    destruct (Py.list_pop pos (ConvDescriptor.strides d)); [|done].
    by eapply cnn_building_after_reset_shapes.
  - unfold ConvDescriptor.change_filters in Hrun.
    destruct (ConvDescriptor.assign_sides _ _ _ _); [|done].
    by eapply cnn_building_after_reset_shapes.
  - unfold ConvDescriptor.change_stride in Hrun.
    destruct (ConvDescriptor.assign_sides _ _ _ _); [|done].
    by eapply cnn_building_after_reset_shapes.
  - unfold ConvDescriptor.add_layer in Hrun. unfold_M.
    destruct (Py.getitem _ (-1)) as [last|]; [|done].
    destruct (last !! 0%nat) as [h|]; [|done].
    assert (Hend : forall (m : M ConvDescriptor.t),
      match m g with
      | Some (x0, g'0) =>
          match match ConvDescriptor.reset_shapes x0 with
                | Some x1 => Some (x1, g'0)
                | None => None
                end with
          | Some (x1, g'1) => Some (x1, 0, g'1)
          | None => None
          end
      | None => None
      end = Some (d', 0, g') -> CNN.building d' x = None).
    { intros m Hm. destruct (m g) as [[d1 g1]|]; [|done].
      destruct (ConvDescriptor.reset_shapes d1) as [d2|] eqn:Hreset; [|done].
      injection Hm as <- _. by eapply cnn_building_after_reset_shapes. }
    case_bool_decide.
    + destruct (last !! 1%nat) as [w|]; [|done].
      case_bool_decide; [|done]. by eapply Hend.
    + done.
Qed.

Lemma cnn_building_raises_after_mutation_witness :
  exists d' g',
    ConvDescriptor.add_layer conv_flat_two 1 2 sample_params (replay [7]) = Some ((d', 0), g') /\
    CNN.building d' [] = None.
Proof.
  assert (exists d' g',
    ConvDescriptor.add_layer conv_flat_two 1 2 sample_params (replay [7]) = Some ((d', 0), g') /\
    1 <= ConvDescriptor.number_hidden_layers d') as (d' & g' & Hrun & Hn)
    by (vm_compute; by eexists _, _).
  exists d', g'. split; [exact Hrun|].
  apply (cnn_building_raises_after_mutation conv_flat_two d' [] Hn).
  do 4 right. by exists 1, 2, sample_params, (replay [7]), g'.
Defined.

(** ** ConvDescriptor: the mutation operators on a drawn genome *)

Lemma conv_assign_sides_paired (l : list ConvDescriptor.entry) (pos a : Z) (c : option Z) :
  Forall paired_entry l -> ConvDescriptor.assign_sides l pos a c = None.
Proof.
  intros Hl. unfold ConvDescriptor.assign_sides.
  destruct (Py.getitem l pos) as [e|] eqn:He; [|done].
  unfold Py.getitem in He.
  destruct (Py.subscript (length l) pos) as [j|]; [|done]. simpl in He.
  by destruct (Forall_lookup_1 _ _ _ _ Hl He) as (conv & pool & ->).
Qed.

Lemma conv_reset_shapes_not_flat (d : ConvDescriptor.t) :
  1 <= ConvDescriptor.number_hidden_layers d ->
  Forall paired_entry (ConvDescriptor.filters d) ->
  ConvDescriptor.reset_shapes d = None.
Proof.
  intros Hn Hp.
  destruct (ConvDescriptor.reset_shapes d) as [d'|] eqn:Hreset; [|done].
  destruct (conv_reset_shapes_flat_head d d' Hreset) as (_ & _ & Hhead).
  destruct (Hhead Hn) as [v Hv].
  by destruct (Forall_lookup_1 _ _ _ _ Hp Hv) as (conv & pool & ?).
Qed.

(** X17.  On a [ConvDescriptor] as [random_init] leaves it, whatever the
    draws, [change_filters] and [change_stride] raise at every position: the
    item they assign into is a pair.  With two counted layers or more
    [remove_layer] raises at every position and [remove_random_layer] for
    every draw, in the [reset_shapes] that ends them. *)
Theorem conv_mutations_raise_after_random_init (d : ConvDescriptor.t) (input_size : list Z)
    (output_size nlayers max_stride max_filter : Z) (no_batch : option bool) (g : rng)
    (d' : ConvDescriptor.t) (g' : rng) :
  ConvDescriptor.random_init d input_size output_size nlayers max_stride max_filter no_batch g
  = Some (d', g') ->
  (forall pos side channels, ConvDescriptor.change_filters d' pos side channels = None) /\
  (forall pos stride, ConvDescriptor.change_stride d' pos stride = None) /\
  (2 <= ConvDescriptor.number_hidden_layers d' ->
   (forall pos, ConvDescriptor.remove_layer d' pos = None) /\
   (forall g0, ConvDescriptor.remove_random_layer d' g0 = None)).
Proof.
  intros Hrun.
  destruct (conv_random_init_layout _ _ _ _ _ _ _ _ _ _ Hrun) as (Hp & _ & Hls & _).
  destruct (conv_random_init_genome _ _ _ _ _ _ _ _ _ _ Hrun)
    as (new & _ & _ & Hall & _).
  assert (Forall paired_entry (ConvDescriptor.strides d')) as Hps.
  { apply Forall_lookup_2. intros i s Hs.
    destruct (Forall3_lookup_r _ _ _ _ _ _ Hall Hs)
      as (kind & f & _ & _ & _ & k & c & st & pf & ps & _ & -> & _).
    by eexists _, _. }
  assert (Hremove : 2 <= ConvDescriptor.number_hidden_layers d' ->
    forall pos, ConvDescriptor.remove_layer d' pos = None).
  { intros Hn pos. unfold ConvDescriptor.remove_layer.
    destruct (Py.list_pop pos (ConvDescriptor.filters d')) as [fs|] eqn:Hpop; [|done].
    destruct (Py.list_pop pos (ConvDescriptor.act_functions d')); [|done].
    destruct (Py.list_pop pos (ConvDescriptor.init_functions d')); [|done].
    destruct (Py.list_pop pos (ConvDescriptor.strides d')); [|done].
    cbn [mbind option_bind]. apply conv_reset_shapes_not_flat.
    - conv_fields. lia.
    - conv_fields. unfold Py.list_pop in Hpop.
      destruct (Py.subscript _ pos) as [j|]; [|done]. injection Hpop as <-.
      by apply Forall_delete. }
  split; [|split; [|intros Hn; split]].
  - intros pos side channels. unfold ConvDescriptor.change_filters.
    by rewrite conv_assign_sides_paired.
  - intros pos stride. unfold ConvDescriptor.change_stride.
    by rewrite conv_assign_sides_paired.
  - exact (Hremove Hn).
  - intros g0. unfold ConvDescriptor.remove_random_layer. unfold_M.
    rewrite bool_decide_eq_true_2 by lia.
    destruct (randint 0 _ g0) as [[pos g1]|]; [|done].
    by rewrite Hremove.
Qed.

Lemma conv_mutations_raise_after_random_init_witness :
  exists d' g',
    ConvDescriptor.random_init conv_blank [28; 28; 3] 10 2 2 3 None (replay [1])
    = Some (d', g') /\
    ConvDescriptor.change_filters d' 0 3 16 = None /\
    ConvDescriptor.change_stride d' 1 2 = None /\
    ConvDescriptor.remove_layer d' 0 = None.
Proof.
  assert (exists d' g',
    ConvDescriptor.random_init conv_blank [28; 28; 3] 10 2 2 3 None (replay [1])
    = Some (d', g') /\ 2 <= ConvDescriptor.number_hidden_layers d') as (d' & g' & Hrun & Hn)
    by (vm_compute; by eexists _, _).
  destruct (conv_mutations_raise_after_random_init _ _ _ _ _ _ _ _ _ _ Hrun)
    as (Hf & Hs & Hr).
  exists d', g'. split; [exact Hrun|]. split; [apply Hf|]. split; [apply Hs|].
  by apply Hr.
Defined.

(** ** ConvDescriptor: [add_layer] by kind *)





(** ** TConvDescriptor: the genomes that [random_init] draws *)

Lemma expansive_inv (shape : list Z) (k c s : Z) (sides : list Z) :
  compute_output shape 4 [k; k; c] [s; s; 1] = Some sides ->
  exists h w, shape !! 0%nat = Some h /\ shape !! 1%nat = Some w /\
              sides = [(h - 1) * s + k; (w - 1) * s + k].
Proof.
  unfold compute_output. rewrite bool_decide_eq_false_2 by lia.
  destruct (shape !! 0%nat) as [h|]; [|done].
  destruct (shape !! 1%nat) as [w|]; [|done].
  simpl. intros [= <-]. by exists h, w.
Qed.

Lemma tconv_random_init_loop_step (todo : nat) (i : Z) (shape : list Z) (ms mf : Z)
    (d : TConvDescriptor.t) (g : rng) (d' : TConvDescriptor.t) (broke : bool) (g' : rng) :
  TConvDescriptor.random_init_loop (S todo) i shape ms mf d g = Some ((d', broke), g') ->
  exists s k c init act h w g2,
    drop 1 shape !! 0%nat = Some h /\ drop 1 shape !! 1%nat = Some w /\
    1 <= s < ms /\ 2 <= k < mf /\ 3 <= c < 65 /\
    init ∈ drop 1 initializations /\ act ∈ activations /\
    let h1 := (h - 1) * s + k in
    let w1 := (w - 1) * s + k in
    let b := NetworkDescriptor.mk (TConvDescriptor.number_hidden_layers d)
               (TConvDescriptor.init_functions d ++ [init])
               (TConvDescriptor.act_functions d ++ [act])
               (NetworkDescriptor.batch_norm (TConvDescriptor.base d))
               (NetworkDescriptor.dropout (TConvDescriptor.base d))
               (NetworkDescriptor.dropout_probs (TConvDescriptor.base d)) in
    (exists t0 t1 tc,
       TConvDescriptor.output_dim d !! 0%nat = Some t0 /\
       TConvDescriptor.output_dim d !! 1%nat = Some t1 /\
       TConvDescriptor.output_dim d !! 2%nat = Some tc /\
       t0 <= h1 /\ t1 <= w1 /\ broke = true /\
       d' = TConvDescriptor.mk (NetworkDescriptor.with_number_hidden_layers (i + 1) b)
              (TConvDescriptor.input_dim d) (TConvDescriptor.output_dim d)
              (TConvDescriptor.filters d ++ [[k; k; tc]])
              (TConvDescriptor.strides d ++ [[s; s; 1]])
              (TConvDescriptor.output_shapes d ++ [[-1; h1; w1; tc]])) \/
    ((exists t0, TConvDescriptor.output_dim d !! 0%nat = Some t0 /\
        (h1 < t0 \/ exists t1, TConvDescriptor.output_dim d !! 1%nat = Some t1 /\ w1 < t1)) /\
     TConvDescriptor.random_init_loop todo (i + 1) [-1; h1; w1; c] ms mf
       (TConvDescriptor.mk b (TConvDescriptor.input_dim d) (TConvDescriptor.output_dim d)
          (TConvDescriptor.filters d ++ [[k; k; c]])
          (TConvDescriptor.strides d ++ [[s; s; 1]])
          (TConvDescriptor.output_shapes d ++ [[-1; h1; w1; c]])) g2
     = Some ((d', broke), g')).
Proof.
  cbn [TConvDescriptor.random_init_loop]. unfold_M. intros Hrun.
  destruct (randint 1 ms g) as [[s g1]|] eqn:Hs; [|done].
  destruct (randint 2 mf g1) as [[k g2]|] eqn:Hk; [|done].
  destruct (randint 3 65 g2) as [[c g3]|] eqn:Hc; [|done].
  apply randint_inv in Hs as [Hs _], Hk as [Hk _], Hc as [Hc _].
  revert Hrun. tconv_fields. rewrite !getitem_last.
  destruct (compute_output (drop 1 shape) 4 [k; k; c] [s; s; 1]) as [sides|] eqn:Hout; [|done].
  apply expansive_inv in Hout as (h & w & Hh & Hw & ->).
  cbn [lookup list_lookup app].
  destruct (choice (drop 1 initializations) g3) as [[init g4]|] eqn:Hinit; [|done].
  destruct (choice activations g4) as [[act g5]|] eqn:Hact; [|done].
  apply choice_elem_of in Hinit, Hact.
  unfold TConvDescriptor.reached. tconv_fields. cbn [lookup list_lookup mbind option_bind].
  intros Hrun.
  exists s, k, c, init, act, h, w, g5.
  do 7 (split; [done|]). cbn zeta.
  destruct (TConvDescriptor.output_dim d !! 0%nat) as [t0|] eqn:Ht0; [|done].
  cbn [mbind option_bind] in Hrun.
  destruct (decide ((h - 1) * s + k >= t0)) as [Hreach0|Hshort0].
  - rewrite (bool_decide_eq_true_2 _ Hreach0) in Hrun.
    destruct (TConvDescriptor.output_dim d !! 1%nat) as [t1|] eqn:Ht1; [|done].
    cbn [mbind option_bind] in Hrun.
    destruct (decide ((w - 1) * s + k >= t1)) as [Hreach1|Hshort1].
    + rewrite (bool_decide_eq_true_2 _ Hreach1) in Hrun.
      left. unfold TConvDescriptor.finish in Hrun. revert Hrun. tconv_fields.
      destruct (TConvDescriptor.output_dim d !! 2%nat) as [tc|] eqn:Htc; [|done].
      cbn [mbind option_bind]. rewrite !getitem_last. cbn [mbind option_bind].
      destruct (Py.to_int64 tc) as [item|] eqn:Hitem; [|done].
      apply to_int64_Some in Hitem as [-> _]. cbn [mbind option_bind].
      replace (Py.setitem [k; k; c] 2 tc) with (Some [k; k; tc]) by reflexivity.
      replace (Py.setitem [-1; (h - 1) * s + k; (w - 1) * s + k; c] (-1) tc)
        with (Some [-1; (h - 1) * s + k; (w - 1) * s + k; tc]) by reflexivity.
      cbn [mbind option_bind]. rewrite !setitem_last. cbn [mbind option_bind].
      intros [= <- <- <-].
      exists t0, t1, tc. repeat split; try done; lia.
    + rewrite (bool_decide_eq_false_2 _ Hshort1) in Hrun.
      right. split; [|exact Hrun].
      exists t0. split; [done|]. right. exists t1. split; [done | lia].
  - rewrite (bool_decide_eq_false_2 _ Hshort0) in Hrun.
    right. split; [|exact Hrun].
    exists t0. split; [done|]. left. lia.
Qed.

(** What the loop of [random_init] appends, and how the shapes it caches
    relate to the loop of [reset_shapes] over the appended layers. *)
Lemma tconv_random_init_loop_genome (todo : nat) :
  forall (i : Z) (shape : list Z) (ms mf : Z) (d : TConvDescriptor.t) (g : rng)
         (d' : TConvDescriptor.t) (broke : bool) (g' : rng),
  TConvDescriptor.random_init_loop todo i shape ms mf d g = Some ((d', broke), g') ->
  length (TConvDescriptor.strides d) = length (TConvDescriptor.filters d) ->
  exists fs ss new acts inits,
    TConvDescriptor.filters d' = TConvDescriptor.filters d ++ fs /\
    TConvDescriptor.strides d' = TConvDescriptor.strides d ++ ss /\
    TConvDescriptor.output_shapes d' = TConvDescriptor.output_shapes d ++ new /\
    TConvDescriptor.act_functions d' = TConvDescriptor.act_functions d ++ acts /\
    TConvDescriptor.init_functions d' = TConvDescriptor.init_functions d ++ inits /\
    TConvDescriptor.input_dim d' = TConvDescriptor.input_dim d /\
    TConvDescriptor.output_dim d' = TConvDescriptor.output_dim d /\
    NetworkDescriptor.batch_norm (TConvDescriptor.base d')
    = NetworkDescriptor.batch_norm (TConvDescriptor.base d) /\
    length ss = length fs /\ length new = length fs /\
    length acts = length fs /\ length inits = length fs /\
    Forall (fun f => exists k c, f = [k; k; c] /\ 2 <= k < mf) fs /\
    Forall (fun s => exists st, s = [st; st; 1] /\ 1 <= st < ms) ss /\
    Forall (fun f => f ∈ activations) acts /\
    Forall (fun f => f ∈ drop 1 initializations) inits /\
    (if broke
     then TConvDescriptor.number_hidden_layers d' = i + Z.of_nat (length fs) /\
          (1 <= length fs <= todo)%nat /\
          exists t0 t1 tc k h w,
            TConvDescriptor.output_dim d !! 0%nat = Some t0 /\
            TConvDescriptor.output_dim d !! 1%nat = Some t1 /\
            TConvDescriptor.output_dim d !! 2%nat = Some tc /\
            last fs = Some [k; k; tc] /\ last new = Some [-1; h; w; tc] /\
            t0 <= h /\ t1 <= w
     else TConvDescriptor.number_hidden_layers d' = TConvDescriptor.number_hidden_layers d /\
          length fs = todo) /\
    (forall dd sh acc h w,
       drop 1 shape !! 0%nat = Some h -> drop 1 shape !! 1%nat = Some w ->
       sh !! 0%nat = Some h -> sh !! 1%nat = Some w ->
       TConvDescriptor.filters dd = TConvDescriptor.filters d' ->
       TConvDescriptor.strides dd = TConvDescriptor.strides d' ->
       TConvDescriptor.reset_shapes_loop
         (seq (length (TConvDescriptor.filters d)) (length fs)) sh dd acc
       = Some (acc ++ new)).
Proof.
  induction todo as [|todo IH]; intros i shape ms mf d g d' broke g' Hrun Hlen.
  { simpl in Hrun. injection Hrun as <- <- <-.
    exists [], [], [], [], []. rewrite !app_nil_r.
    do 12 (split; [done|]). do 4 (split; [constructor|]). split; [done|].
    intros. simpl. by rewrite app_nil_r. }
  apply tconv_random_init_loop_step in Hrun
    as (s & k & c & init & act & h & w & g2 & Hh & Hw & Hs & Hk & Hc & Hinit & Hact & Hcase).
  cbn zeta in Hcase.
  assert (Hone : forall (c0 : Z) dd sh acc,
    sh !! 0%nat = Some h -> sh !! 1%nat = Some w ->
    TConvDescriptor.filters dd !! length (TConvDescriptor.filters d) = Some [k; k; c0] ->
    TConvDescriptor.strides dd !! length (TConvDescriptor.filters d) = Some [s; s; 1] ->
    forall rest,
    TConvDescriptor.reset_shapes_loop (length (TConvDescriptor.filters d) :: rest) sh dd acc
    = TConvDescriptor.reset_shapes_loop rest [(h - 1) * s + k; (w - 1) * s + k] dd
        (acc ++ [[-1; (h - 1) * s + k; (w - 1) * s + k; c0]])).
  { intros c0 dd sh acc Hsh0 Hsh1 Hf Hst rest. cbn [TConvDescriptor.reset_shapes_loop].
    rewrite Hf, Hst. cbn [mbind option_bind]. unfold compute_output.
    rewrite bool_decide_eq_false_2 by lia. rewrite Hsh0, Hsh1. done. }
  destruct Hcase as [(t0 & t1 & tc & Ht0 & Ht1 & Htc & Hreach0 & Hreach1 & -> & ->) | [_ Hrun]].
  - exists [[k; k; tc]], [[s; s; 1]], [[-1; (h - 1) * s + k; (w - 1) * s + k; tc]],
      [act], [init].
    tconv_fields.
    do 12 (split; [done|]).
    split; [apply Forall_singleton; by exists k, tc|].
    split; [apply Forall_singleton; by exists s|].
    split; [by apply Forall_singleton|]. split; [by apply Forall_singleton|].
    split.
    { split; [simpl; lia|]. split; [simpl; lia|].
      by exists t0, t1, tc, k, ((h - 1) * s + k), ((w - 1) * s + k). }
    intros dd sh acc h' w' Hh' Hw' Hsh0 Hsh1 Hf Hst.
    assert (h' = h) as -> by congruence. assert (w' = w) as -> by congruence.
    cbn [length seq]. rewrite (Hone tc); try done.
    + rewrite Hf. by rewrite lookup_app_r, Nat.sub_diag by lia.
    + rewrite Hst, <- Hlen. by rewrite lookup_app_r, Nat.sub_diag by lia.
  - apply IH in Hrun
      as (fs & ss & new & acts & inits & Hf & Hst & Hsh & Ha & Hi & Hin & Hout & Hbn
          & Hlss & Hlnew & Hlacts & Hlinits & Hfs & Hss & Hacts & Hinits & Hn & Hcache);
      [|tconv_fields; rewrite !length_app; simpl; lia].
    tconv_fields.
    exists ([k; k; c] :: fs), ([s; s; 1] :: ss),
      ([-1; (h - 1) * s + k; (w - 1) * s + k; c] :: new), (act :: acts), (init :: inits).
    rewrite Hf, Hst, Hsh, Ha, Hi, <- !app_assoc. cbn [app length].
    do 8 (split; [done|]).
    do 4 (split; [by f_equal|]).
    split; [constructor; [by exists k, c | done]|].
    split; [constructor; [by exists s | done]|].
    split; [by constructor|]. split; [by constructor|].
    split.
    { destruct broke.
      - destruct Hn as (Hn & Hcount & t0 & t1 & tc & k' & h' & w' & Ht0 & Ht1 & Htc
                        & Hlastf & Hlastn & Hreach).
        split; [lia|]. split; [lia|].
        exists t0, t1, tc, k', h', w'. do 3 (split; [done|]).
        split.
        { destruct fs; [simpl in Hcount; lia | done]. }
        split; [|done].
        destruct new; [simpl in Hlnew; simpl in Hcount; lia | done].
      - destruct Hn as [Hn Hcount]. split; [done | lia]. }
    intros dd sh acc h' w' Hh' Hw' Hsh0 Hsh1 Hfd Hsd.
    assert (h' = h) as -> by congruence. assert (w' = w) as -> by congruence.
    cbn [seq]. rewrite (Hone c); try done.
    + rewrite length_app in Hcache. simpl in Hcache.
      replace (S (length (TConvDescriptor.filters d)))
        with (length (TConvDescriptor.filters d) + 1)%nat by lia.
      rewrite (Hcache dd _ _ ((h - 1) * s + k) ((w - 1) * s + k)); try done.
      * by rewrite <- app_assoc.
      * by rewrite Hf, Hfd, <- app_assoc.
      * by rewrite Hst, Hsd, <- app_assoc.
    + rewrite Hfd. by rewrite lookup_app_r, Nat.sub_diag by lia.
    + rewrite Hsd, <- Hlen. by rewrite lookup_app_r, Nat.sub_diag by lia.
Qed.

Lemma tconv_random_init_genome (d : TConvDescriptor.t) (input_size output_size : list Z)
    (max_stride max_filter : Z) (no_batch : option bool) (g : rng)
    (d' : TConvDescriptor.t) (broke : bool) (g' : rng) :
  TConvDescriptor.random_init d input_size output_size max_stride max_filter no_batch g
  = Some ((d', broke), g') ->
  exists new,
    TConvDescriptor.input_dim d' = input_size /\
    TConvDescriptor.output_dim d' = output_size /\
    TConvDescriptor.output_shapes d' = TConvDescriptor.output_shapes d ++ new /\
    length new = length (TConvDescriptor.filters d') /\
    length (TConvDescriptor.strides d') = length (TConvDescriptor.filters d') /\
    length (TConvDescriptor.act_functions d') = length (TConvDescriptor.filters d') /\
    length (TConvDescriptor.init_functions d') = length (TConvDescriptor.filters d') /\
    Forall (fun f => exists k c, f = [k; k; c] /\ 2 <= k < max_filter)
      (TConvDescriptor.filters d') /\
    Forall (fun s => exists st, s = [st; st; 1] /\ 1 <= st < max_stride)
      (TConvDescriptor.strides d') /\
    Forall (fun f => f ∈ activations) (TConvDescriptor.act_functions d') /\
    Forall (fun f => f ∈ drop 1 initializations) (TConvDescriptor.init_functions d') /\
    (if broke
     then TConvDescriptor.number_hidden_layers d'
          = Z.of_nat (length (TConvDescriptor.filters d')) /\
          (1 <= length (TConvDescriptor.filters d') <= 300)%nat /\
          exists t0 t1 tc k h w,
            output_size !! 0%nat = Some t0 /\ output_size !! 1%nat = Some t1 /\
            output_size !! 2%nat = Some tc /\
            last (TConvDescriptor.filters d') = Some [k; k; tc] /\
            last new = Some [-1; h; w; tc] /\ t0 <= h /\ t1 <= w
     else TConvDescriptor.number_hidden_layers d' = TConvDescriptor.number_hidden_layers d /\
          length (TConvDescriptor.filters d') = 300%nat) /\
    TConvDescriptor.reset_shapes_loop (seq 0 (length (TConvDescriptor.filters d')))
      input_size d' [] = Some new.
Proof.
  unfold TConvDescriptor.random_init. unfold_M.
  match goal with
  | |- context [TConvDescriptor.random_init_loop _ _ _ _ _ ?x] => set (d0 := x)
  end.
  destruct (TConvDescriptor.random_init_loop 300 0 _ _ _ d0 g) as [[[d1 broke1] g1]|] eqn:Hloop;
    [|done].
  pose proof Hloop as Hstep.
  apply tconv_random_init_loop_step in Hstep
    as (_ & _ & _ & _ & _ & h & w & _ & Hh & Hw & _).
  apply tconv_random_init_loop_genome in Hloop
    as (fs & ss & new & acts & inits & Hf & Hst & Hsh & Ha & Hi & Hin & Hout & Hbn
        & Hlss & Hlnew & Hlacts & Hlinits & Hfs & Hss & Hacts & Hinits & Hn & Hcache);
    [|done].
  unfold d0 in Hf, Hst, Hsh, Ha, Hi, Hin, Hout, Hn, Hcache, Hh, Hw. tconv_fields.
  simpl in Hf, Hst, Ha, Hi, Hcache, Hh, Hw.
  assert (Hgoal : forall d2,
    TConvDescriptor.input_dim d2 = TConvDescriptor.input_dim d1 ->
    TConvDescriptor.output_dim d2 = TConvDescriptor.output_dim d1 ->
    TConvDescriptor.filters d2 = TConvDescriptor.filters d1 ->
    TConvDescriptor.strides d2 = TConvDescriptor.strides d1 ->
    TConvDescriptor.output_shapes d2 = TConvDescriptor.output_shapes d1 ->
    NetworkDescriptor.act_functions (TConvDescriptor.base d2)
    = NetworkDescriptor.act_functions (TConvDescriptor.base d1) ->
    NetworkDescriptor.init_functions (TConvDescriptor.base d2)
    = NetworkDescriptor.init_functions (TConvDescriptor.base d1) ->
    NetworkDescriptor.number_hidden_layers (TConvDescriptor.base d2)
    = NetworkDescriptor.number_hidden_layers (TConvDescriptor.base d1) ->
    exists new,
      TConvDescriptor.input_dim d2 = input_size /\
      TConvDescriptor.output_dim d2 = output_size /\
      TConvDescriptor.output_shapes d2 = TConvDescriptor.output_shapes d ++ new /\
      length new = length (TConvDescriptor.filters d2) /\
      length (TConvDescriptor.strides d2) = length (TConvDescriptor.filters d2) /\
      length (NetworkDescriptor.act_functions (TConvDescriptor.base d2))
      = length (TConvDescriptor.filters d2) /\
      length (NetworkDescriptor.init_functions (TConvDescriptor.base d2))
      = length (TConvDescriptor.filters d2) /\
      Forall (fun f => exists k c, f = [k; k; c] /\ 2 <= k < max_filter)
        (TConvDescriptor.filters d2) /\
      Forall (fun s => exists st, s = [st; st; 1] /\ 1 <= st < max_stride)
        (TConvDescriptor.strides d2) /\
      Forall (fun f => f ∈ activations)
        (NetworkDescriptor.act_functions (TConvDescriptor.base d2)) /\
      Forall (fun f => f ∈ drop 1 initializations)
        (NetworkDescriptor.init_functions (TConvDescriptor.base d2)) /\
      (if broke1
       then NetworkDescriptor.number_hidden_layers (TConvDescriptor.base d2)
            = Z.of_nat (length (TConvDescriptor.filters d2)) /\
            (1 <= length (TConvDescriptor.filters d2) <= 300)%nat /\
            exists t0 t1 tc k h w,
              output_size !! 0%nat = Some t0 /\ output_size !! 1%nat = Some t1 /\
              output_size !! 2%nat = Some tc /\
              last (TConvDescriptor.filters d2) = Some [k; k; tc] /\
              last new = Some [-1; h; w; tc] /\ t0 <= h /\ t1 <= w
       else NetworkDescriptor.number_hidden_layers (TConvDescriptor.base d2)
            = NetworkDescriptor.number_hidden_layers (TConvDescriptor.base d) /\
            length (TConvDescriptor.filters d2) = 300%nat) /\
      TConvDescriptor.reset_shapes_loop (seq 0 (length (TConvDescriptor.filters d2)))
        input_size d2 [] = Some new).
  { intros d2 E1 E2 E3 E4 E5 E6 E7 E8. exists new.
    rewrite E1, E2, E3, E4, E5, E6, E7, E8, Hf, Hst, Ha, Hi.
    do 11 (split; [done|]). split.
    - destruct broke1; [|done].
      destruct Hn as (Hn & Hcount & Hlast). split; [lia|]. done.
    - apply (Hcache d2 input_size [] h w); try done; congruence. }
  destruct no_batch as [[|]|].
  - intros [= <- <- <-]. by apply Hgoal.
  - destruct (choice [true; false] g1) as [[b g2]|]; [|done].
    intros [= <- <- <-]. by apply Hgoal.
  - intros [= <- <- <-]. by apply Hgoal.
Qed.

Lemma tconv_with_own_output_shapes (d : TConvDescriptor.t) :
  TConvDescriptor.with_output_shapes (TConvDescriptor.output_shapes d) d = d.
Proof. by destruct d. Qed.

(** X19.  When [random_init] leaves its loop through the [break], the shapes
    it has appended to the cache are those that [reset_shapes] computes from
    the drawn filters and strides, one per counted layer; the cache is
    appended to, never emptied, so [reset_shapes] gives the descriptor back
    unchanged exactly when the cache was empty before. *)
Theorem tconv_random_init_cache_is_recomputed (d : TConvDescriptor.t)
    (input_size output_size : list Z) (max_stride max_filter : Z) (no_batch : option bool)
    (g : rng) (d' : TConvDescriptor.t) (g' : rng) :
  TConvDescriptor.random_init d input_size output_size max_stride max_filter no_batch g
  = Some ((d', true), g') ->
  exists new,
    TConvDescriptor.output_shapes d' = TConvDescriptor.output_shapes d ++ new /\
    Z.of_nat (length new) = TConvDescriptor.number_hidden_layers d' /\
    TConvDescriptor.reset_shapes d' = Some (TConvDescriptor.with_output_shapes new d') /\
    (TConvDescriptor.reset_shapes d' = Some d' <-> TConvDescriptor.output_shapes d = []).
Proof.
  intros Hrun.
  destruct (tconv_random_init_genome _ _ _ _ _ _ _ _ _ _ Hrun)
    as (new & Hin & _ & Hsh & Hlen & _ & _ & _ & _ & _ & _ & _ & (Hn & _) & Hreset).
  assert (TConvDescriptor.reset_shapes d' = Some (TConvDescriptor.with_output_shapes new d'))
    as Hrecomputed.
  { unfold TConvDescriptor.reset_shapes. rewrite Hn, Nat2Z.id, Hin, Hreset. done. }
  exists new. split; [exact Hsh|]. split; [lia|]. split; [exact Hrecomputed|].
  rewrite Hrecomputed. split.
  - intros [= Heq]. apply (f_equal TConvDescriptor.output_shapes) in Heq.
    rewrite Hsh in Heq. simpl in Heq.
    apply (f_equal length) in Heq. rewrite length_app in Heq.
    destruct (TConvDescriptor.output_shapes d); [done | simpl in Heq; lia].
  - intros Hempty. rewrite Hempty in Hsh. simpl in Hsh.
    by rewrite <- Hsh, tconv_with_own_output_shapes.
Qed.

Lemma tconv_random_init_cache_is_recomputed_witness :
  exists d' g',
    TConvDescriptor.random_init tconv_blank [7; 7; 50] [28; 28; 3] 3 4 None
      (replay [1; 1; 13; 1; 0; 1; 1; 0; 2; 1]) = Some ((d', true), g') /\
    TConvDescriptor.reset_shapes d' = Some d'.
Proof.
  assert (exists d' g',
    TConvDescriptor.random_init tconv_blank [7; 7; 50] [28; 28; 3] 3 4 None
      (replay [1; 1; 13; 1; 0; 1; 1; 0; 2; 1]) = Some ((d', true), g')) as (d' & g' & Hrun)
    by (vm_compute; by eexists _, _).
  destruct (tconv_random_init_cache_is_recomputed _ _ _ _ _ _ _ _ _ Hrun)
    as (new & _ & _ & _ & Hsame).
  exists d', g'. split; [exact Hrun|]. by apply Hsame.
Defined.

(** ** TConvDescriptor: when [random_init] reaches its target *)

Lemma tconv_random_init_loop_total (todo : nat) :
  forall (i : Z) (s0 h w : Z) (rest : list Z) (ms mf : Z) (d : TConvDescriptor.t) (g : rng)
         (t0 t1 tc : Z) (trest : list Z),
  2 <= ms -> 3 <= mf ->
  TConvDescriptor.output_dim d = t0 :: t1 :: tc :: trest ->
  Py.int64 tc ->
  exists d' broke g',
    TConvDescriptor.random_init_loop todo i (s0 :: h :: w :: rest) ms mf d g
    = Some ((d', broke), g').
Proof.
  induction todo as [|todo IH]; intros i s0 h w rest ms mf d g t0 t1 tc trest Hms Hmf Hdim Htc.
  { by eexists _, _, _. }
  destruct (randint_inside 1 ms g) as (s & Hs & Hdraw_s); [lia|].
  destruct (randint_inside 2 mf (fun n => g (S n))) as (k & Hk & Hdraw_k); [lia|].
  destruct (randint_inside 3 65 (fun n => g (S (S n)))) as (c & Hc & Hdraw_c); [lia|].
  destruct (choice_inside (drop 1 initializations) (fun n => g (S (S (S n)))))
    as (ini & _ & Hdraw_i); [done|].
  destruct (choice_inside activations (fun n => g (S (S (S (S n))))))
    as (ac & _ & Hdraw_a); [done|].
  cbn [TConvDescriptor.random_init_loop]. unfold_M.
  rewrite Hdraw_s, Hdraw_k, Hdraw_c.
  tconv_fields. rewrite !getitem_last.
  replace (compute_output (drop 1 (s0 :: h :: w :: rest)) 4 [k; k; c] [s; s; 1])
    with (Some [(h - 1) * s + k; (w - 1) * s + k]) by reflexivity.
  cbn [lookup list_lookup]. rewrite Hdraw_i, Hdraw_a.
  unfold TConvDescriptor.reached. tconv_fields. rewrite ?Hdim.
  cbn [app lookup list_lookup mbind option_bind].
  set (d1 := TConvDescriptor.mk _ _ _ _ _ _).
  assert (Hnext : exists d' broke g',
    TConvDescriptor.random_init_loop todo (i + 1)
      [-1; (h - 1) * s + k; (w - 1) * s + k; c] ms mf d1
      (fun n => g (S (S (S (S (S n)))))) = Some ((d', broke), g')).
  { apply (IH _ _ _ _ _ _ _ _ _ t0 t1 tc trest); try done. }
  case_bool_decide; [|exact Hnext].
  case_bool_decide; [|exact Hnext].
  unfold TConvDescriptor.finish, d1. tconv_fields. rewrite ?Hdim.
  cbn [lookup list_lookup mbind option_bind].
  rewrite !getitem_last. cbn [mbind option_bind].
  rewrite (to_int64_inside tc Htc). cbn [mbind option_bind].
  replace (Py.setitem [k; k; c] 2 tc) with (Some [k; k; tc]) by reflexivity.
  replace (Py.setitem [-1; (h - 1) * s + k; (w - 1) * s + k; c] (-1) tc)
    with (Some [-1; (h - 1) * s + k; (w - 1) * s + k; tc]) by reflexivity.
  cbn [mbind option_bind]. rewrite !setitem_last. cbn [mbind option_bind].
  by eexists _, _, _.
Qed.

(** Every attempt adds one at least to each side, so the [break] is taken
    before the larger of the two distances to the target is used up. *)
Lemma tconv_random_init_loop_breaks (todo : nat) :
  forall (i : Z) (shape : list Z) (ms mf : Z) (d : TConvDescriptor.t) (g : rng)
         (d' : TConvDescriptor.t) (broke : bool) (g' : rng) (h w t0 t1 : Z),
  TConvDescriptor.random_init_loop todo i shape ms mf d g = Some ((d', broke), g') ->
  drop 1 shape !! 0%nat = Some h -> drop 1 shape !! 1%nat = Some w ->
  TConvDescriptor.output_dim d !! 0%nat = Some t0 ->
  TConvDescriptor.output_dim d !! 1%nat = Some t1 ->
  1 <= h -> 1 <= w ->
  (1 <= todo)%nat ->
  Z.max (t0 - h) (t1 - w) <= Z.of_nat todo ->
  broke = true /\
  i + 1 <= TConvDescriptor.number_hidden_layers d' <= i + Z.max 1 (Z.max (t0 - h) (t1 - w)).
Proof.
  induction todo as [|todo IH];
    intros i shape ms mf d g d' broke g' h w t0 t1 Hrun Hh Hw Ht0 Ht1 Hh1 Hw1 Htodo Hdist;
    [lia|].
  apply tconv_random_init_loop_step in Hrun
    as (s & k & c & init & act & h' & w' & g2 & Hh' & Hw' & Hs & Hk & Hc & _ & _ & Hcase).
  assert (h' = h) as -> by congruence. assert (w' = w) as -> by congruence.
  cbn zeta in Hcase.
  assert (h + 1 <= (h - 1) * s + k) as Hgrow_h by nia.
  assert (w + 1 <= (w - 1) * s + k) as Hgrow_w by nia.
  destruct Hcase as [(t0' & t1' & tc & _ & _ & _ & _ & _ & -> & ->) | [Hshort Hrun]].
  { split; [done|]. tconv_fields. lia. }
  assert (Z.max (t0 - ((h - 1) * s + k)) (t1 - ((w - 1) * s + k)) >= 1) as Hleft.
  { destruct Hshort as (t0' & Ht0' & [Hlt | (t1' & Ht1' & Hlt)]).
    - assert (t0' = t0) as -> by congruence. lia.
    - assert (t1' = t1) as -> by congruence. lia. }
  destruct (IH _ _ _ _ _ _ _ _ _ ((h - 1) * s + k) ((w - 1) * s + k) t0 t1 Hrun)
    as [-> Hcount]; try done; try lia; try (split; [done | lia]).
Qed.

Lemma furthest_ge (ms mf : Z) (n : nat) (x : Z) :
  2 <= ms -> 3 <= mf -> 1 <= x -> x <= furthest ms mf n x.
Proof.
  intros Hms Hmf. revert x. induction n as [|n IH]; intros x Hx; simpl; [lia|].
  etrans; [|apply IH; nia]. nia.
Qed.

Lemma furthest_mono (ms mf : Z) (n : nat) (x y : Z) :
  2 <= ms -> x <= y -> furthest ms mf n x <= furthest ms mf n y.
Proof.
  intros Hms. revert x y. induction n as [|n IH]; intros x y Hxy; simpl; [done|].
  apply IH. nia.
Qed.

Lemma furthest_more (ms mf : Z) (n m : nat) (x : Z) :
  2 <= ms -> 3 <= mf -> 1 <= x -> (n <= m)%nat -> furthest ms mf n x <= furthest ms mf m x.
Proof.
  intros Hms Hmf Hx Hnm. induction Hnm as [|m _ IH]; [done|].
  etrans; [exact IH|]. clear IH. revert x Hx.
  induction m as [|m IH]; intros x Hx.
  - simpl. nia.
  - change (furthest ms mf (S m) x)
      with (furthest ms mf m ((x - 1) * (ms - 1) + (mf - 1))).
    change (furthest ms mf (S (S m)) x)
      with (furthest ms mf (S m) ((x - 1) * (ms - 1) + (mf - 1))).
    apply IH. nia.
Qed.

(** The sides that the loop of [reset_shapes] computes over drawn layers stay
    between 1 and what that many attempts can reach. *)
Lemma tconv_reset_loop_sides (d : TConvDescriptor.t) (ms mf : Z) (lays : list nat) :
  forall (shape : list Z) (acc acc' : list (list Z)) (h w b : Z),
  2 <= ms -> 3 <= mf ->
  Forall (fun lay => exists k c st,
            TConvDescriptor.filters d !! lay = Some [k; k; c] /\
            TConvDescriptor.strides d !! lay = Some [st; st; 1] /\
            2 <= k < mf /\ 1 <= st < ms) lays ->
  shape !! 0%nat = Some h -> shape !! 1%nat = Some w ->
  1 <= h <= b -> 1 <= w <= b ->
  TConvDescriptor.reset_shapes_loop lays shape d acc = Some acc' ->
  exists new,
    acc' = acc ++ new /\
    Forall (fun sh => exists a b' c,
              sh = [-1; a; b'; c] /\
              1 <= a <= furthest ms mf (length lays) b /\
              1 <= b' <= furthest ms mf (length lays) b) new.
Proof.
  induction lays as [|lay lays IH]; intros shape acc acc' h w b Hms Hmf Hlays Hh Hw Hhb Hwb.
  { simpl. intros [= <-]. exists []. by rewrite app_nil_r. }
  apply Forall_cons in Hlays as [(k & c & st & Hf & Hs & Hk & Hst) Hlays].
  cbn [TConvDescriptor.reset_shapes_loop]. rewrite Hf, Hs. cbn [mbind option_bind].
  destruct shape as [|h0 [|w0 shape]]; simpl in Hh, Hw; try done.
  injection Hh as ->. injection Hw as ->.
  replace (compute_output (h :: w :: shape) 4 [k; k; c] [st; st; 1])
    with (Some [(h - 1) * st + k; (w - 1) * st + k]) by reflexivity.
  cbn [mbind option_bind lookup list_lookup app].
  intros Hrun.
  set (b1 := (b - 1) * (ms - 1) + (mf - 1)).
  destruct (IH [(h - 1) * st + k; (w - 1) * st + k] _ _
              ((h - 1) * st + k) ((w - 1) * st + k) b1 Hms Hmf Hlays eq_refl eq_refl
              ltac:(unfold b1; nia) ltac:(unfold b1; nia) Hrun) as (new & -> & Hall).
  exists ([-1; (h - 1) * st + k; (w - 1) * st + k; c] :: new).
  split; [by rewrite <- app_assoc|].
  change (furthest ms mf (length (lay :: lays)) b) with (furthest ms mf (length lays) b1).
  constructor; [|exact Hall].
  exists ((h - 1) * st + k), ((w - 1) * st + k), c. split; [done|].
  pose proof (furthest_ge ms mf (length lays) b1 Hms Hmf ltac:(unfold b1; nia)).
  unfold b1 in *. nia.
Qed.

(** X20.  Towards any target of three [int64] entries whose sides are at most
    300 above the positive sides of the input, with
    [2 <= max_stride <= 2^63] and [3 <= max_filter <= 2^63] and such that the
    largest side that the attempts can reach ([furthest], over as many
    attempts as the larger of the two distances) is below [2^63],
    [random_init] returns after leaving its loop through the [break], for
    every draw: the layer count is the number of stored filters, at least 1
    and at most the larger of the two distances (each attempt gains one at
    least on each side); the last filter carries the channel count of the
    target, and the last cached shape has both sides at the target's or above
    and that channel count.  Every shape it has cached has sides from 1 to
    that largest side, so inside [int64]. *)
Theorem tconv_random_init_breaks_within_distance (d : TConvDescriptor.t) (h w : Z)
    (rest : list Z) (t0 t1 tc : Z) (trest : list Z) (max_stride max_filter : Z)
    (no_batch : option bool) (g : rng) :
  2 <= max_stride <= 2 ^ 63 -> 3 <= max_filter <= 2 ^ 63 ->
  1 <= h -> 1 <= w -> t0 - h <= 300 -> t1 - w <= 300 ->
  Forall Py.int64 [t0; t1; tc] ->
  furthest max_stride max_filter (Z.to_nat (Z.max 1 (Z.max (t0 - h) (t1 - w)))) (Z.max h w)
  < 2 ^ 63 ->
  exists d' g',
    TConvDescriptor.random_init d (h :: w :: rest) (t0 :: t1 :: tc :: trest)
      max_stride max_filter no_batch g = Some ((d', true), g') /\
    TConvDescriptor.number_hidden_layers d' = Z.of_nat (length (TConvDescriptor.filters d')) /\
    1 <= TConvDescriptor.number_hidden_layers d' <= Z.max 1 (Z.max (t0 - h) (t1 - w)) /\
    (exists k, last (TConvDescriptor.filters d') = Some [k; k; tc]) /\
    (exists h' w', last (TConvDescriptor.output_shapes d') = Some [-1; h'; w'; tc] /\
                   t0 <= h' /\ t1 <= w') /\
    (exists new,
       TConvDescriptor.output_shapes d' = TConvDescriptor.output_shapes d ++ new /\
       Forall (fun shape => exists a b c,
                 shape = [-1; a; b; c] /\ 1 <= a < 2 ^ 63 /\ 1 <= b < 2 ^ 63) new).
Proof.
  intros [Hms _] [Hmf _] Hh Hw Hdh Hdw Htarget Hfar.
  assert (Py.int64 tc) as Htc.
  { apply Forall_cons_1 in Htarget as [_ Htarget].
    apply Forall_cons_1 in Htarget as [_ Htarget].
    by apply Forall_cons_1 in Htarget as [Htc _]. }
  assert (exists d' broke g',
    TConvDescriptor.random_init d (h :: w :: rest) (t0 :: t1 :: tc :: trest)
      max_stride max_filter no_batch g = Some ((d', broke), g') /\
    (broke = true /\
     1 <= TConvDescriptor.number_hidden_layers d' <= Z.max 1 (Z.max (t0 - h) (t1 - w))))
    as (d' & broke & g' & Hrun & -> & Hcount).
  { unfold TConvDescriptor.random_init. unfold_M.
    match goal with
    | |- context [TConvDescriptor.random_init_loop _ _ _ _ _ ?x] => set (d0 := x)
    end.
    change ([-1] ++ TConvDescriptor.input_dim d0) with (-1 :: h :: w :: rest).
    destruct (tconv_random_init_loop_total 300 0 (-1) h w rest max_stride max_filter d0 g
                t0 t1 tc trest)
      as (d1 & broke & g1 & Hloop); try done.
    rewrite Hloop.
    destruct (tconv_random_init_loop_breaks 300 _ _ _ _ _ _ _ _ _ h w t0 t1 Hloop)
      as [-> Hcount]; try done; try lia.
    destruct no_batch as [[|]|].
    - by exists d1, true, g1.
    - destruct (choice_inside [true; false] g1) as (b & _ & ->); [done|].
      eexists _, true, _. split; [reflexivity|]. split; [done|]. by tconv_fields.
    - by exists d1, true, g1. }
  exists d', g'. split; [exact Hrun|].
  destruct (tconv_random_init_genome _ _ _ _ _ _ _ _ _ _ Hrun)
    as (new & _ & _ & Hsh & Hlen & Hls & _ & _ & Hfs & Hss & _ & _ & Hn & Hreset).
  destruct Hn as (Hn & Hlf & t0' & t1' & tc' & k & h' & w' & Ht0 & Ht1 & Htc'
                  & Hlastf & Hlastn & Hreach0 & Hreach1).
  simpl in Ht0, Ht1, Htc'. injection Ht0 as <-. injection Ht1 as <-. injection Htc' as <-.
  split; [exact Hn|]. split; [exact Hcount|]. split; [by exists k|].
  split.
  { exists h', w'. split; [|done].
    rewrite Hsh. destruct new as [|x new]; [done|].
    by rewrite last_app, Hlastn. }
  exists new. split; [exact Hsh|].
  destruct (tconv_reset_loop_sides d' max_stride max_filter
              (seq 0 (length (TConvDescriptor.filters d'))) (h :: w :: rest) [] new
              h w (Z.max h w) Hms Hmf) as (new' & Hnew' & Hall); try done; try lia.
  { apply Forall_forall. intros lay Hlay. apply elem_of_seq in Hlay.
    destruct (lookup_lt_is_Some_2 (TConvDescriptor.filters d') lay) as [f Hf]; [lia|].
    destruct (lookup_lt_is_Some_2 (TConvDescriptor.strides d') lay) as [st Hst]; [lia|].
    destruct (Forall_lookup_1 _ _ _ _ Hfs Hf) as (k0 & c0 & -> & Hk0).
    destruct (Forall_lookup_1 _ _ _ _ Hss Hst) as (st0 & -> & Hst0).
    by exists k0, c0, st0. }
  simpl in Hnew'. subst new'.
  eapply Forall_impl; [exact Hall|].
  intros shape (a & b & c & -> & Ha & Hb). exists a, b, c. split; [done|].
  rewrite length_seq in Ha, Hb.
  pose proof (furthest_more max_stride max_filter (length (TConvDescriptor.filters d'))
                (Z.to_nat (Z.max 1 (Z.max (t0 - h) (t1 - w)))) (Z.max h w) Hms Hmf
                ltac:(lia) ltac:(lia)).
  lia.
Qed.

Lemma tconv_random_init_breaks_within_distance_witness :
  exists d' g',
    TConvDescriptor.random_init tconv_blank [4; 6; 100] [64; 32; 1] 2 3 (Some false)
      (replay []) = Some ((d', true), g') /\
    1 <= TConvDescriptor.number_hidden_layers d' <= 60 /\
    (exists k, last (TConvDescriptor.filters d') = Some [k; k; 1]).
Proof.
  destruct (tconv_random_init_breaks_within_distance tconv_blank 4 6 [100] 64 32 1 [] 2 3
              (Some false) (replay [])) as (d' & g' & Hrun & _ & Hcount & Hlast & _);
    try lia; [solve_int64 | by vm_compute |].
  exists d', g'. split; [exact Hrun|]. split; [lia | exact Hlast].
Defined.

(** X21.  When the 300 attempts of [random_init] end without the [break], the
    descriptor holds 300 filters, strides, activations and initializers and
    300 more cached shapes, while the layer count keeps the value it had
    before the call. *)
Theorem tconv_random_init_exhausted (d : TConvDescriptor.t)
    (input_size output_size : list Z) (max_stride max_filter : Z) (no_batch : option bool)
    (g : rng) (d' : TConvDescriptor.t) (g' : rng) :
  TConvDescriptor.random_init d input_size output_size max_stride max_filter no_batch g
  = Some ((d', false), g') ->
  TConvDescriptor.number_hidden_layers d' = TConvDescriptor.number_hidden_layers d /\
  length (TConvDescriptor.filters d') = 300%nat /\
  length (TConvDescriptor.strides d') = 300%nat /\
  length (TConvDescriptor.act_functions d') = 300%nat /\
  length (TConvDescriptor.init_functions d') = 300%nat /\
  length (TConvDescriptor.output_shapes d')
  = (length (TConvDescriptor.output_shapes d) + 300)%nat.
Proof.
  intros Hrun.
  destruct (tconv_random_init_genome _ _ _ _ _ _ _ _ _ _ Hrun)
    as (new & _ & _ & Hsh & Hlen & Hls & Hla & Hli & _ & _ & _ & _ & (Hn & Hcount) & _).
  rewrite Hsh, length_app. repeat split; try done; lia.
Qed.

Lemma tconv_random_init_exhausted_witness :
  exists d' g',
    TConvDescriptor.random_init tconv_blank [7; 7; 50] [1000; 1000; 3] 2 3 None (replay [])
    = Some ((d', false), g') /\
    TConvDescriptor.number_hidden_layers d' = 2 /\
    length (TConvDescriptor.filters d') = 300%nat.
Proof.
  assert (exists d' g',
    TConvDescriptor.random_init tconv_blank [7; 7; 50] [1000; 1000; 3] 2 3 None (replay [])
    = Some ((d', false), g')) as (d' & g' & Hrun) by (vm_compute; by eexists _, _).
  destruct (tconv_random_init_exhausted _ _ _ _ _ _ _ _ _ Hrun) as (Hn & Hlf & _).
  exists d', g'. split; [exact Hrun|]. split; [exact Hn | exact Hlf].
Defined.

(** ** TCNN: the model built from a [TConvDescriptor] *)

Lemma tcnn_transposed_plan (d : TConvDescriptor.t) (lays : list nat) :
  Forall (fun f => (3 <= length f)%nat) (TConvDescriptor.filters d) ->
  Forall (fun s => (2 <= length s)%nat) (TConvDescriptor.strides d) ->
  Forall (fun lay =>
    (lay < length (TConvDescriptor.filters d))%nat /\
    (lay < length (TConvDescriptor.strides d))%nat /\
    (lay < length (TConvDescriptor.act_functions d))%nat /\
    (lay < length (TConvDescriptor.init_functions d))%nat) lays ->
  forall x : tensor,
  exists plan,
    TCNN.transposed lays d x = Some (x ++ plan) /\
    Forall2 (fun lay l =>
      exists k0 k1 c frest s0 s1 srest act init,
        TConvDescriptor.filters d !! lay = Some (k0 :: k1 :: c :: frest) /\
        TConvDescriptor.strides d !! lay = Some (s0 :: s1 :: srest) /\
        TConvDescriptor.act_functions d !! lay = Some act /\
        TConvDescriptor.init_functions d !! lay = Some init /\
        l = Conv2DTranspose c (k0, k1) (s0, s1) act init) lays plan.
Proof.
  intros Hf Hs Hlays.
  induction Hlays as [|lay lays (Hlf & Hls & Hla & Hli) _ IH]; intros x.
  { exists []. rewrite app_nil_r. split; [done | constructor]. }
  destruct (lookup_lt_is_Some_2 _ _ Hlf) as [f Hf_at].
  destruct (lookup_lt_is_Some_2 _ _ Hls) as [s Hs_at].
  destruct (lookup_lt_is_Some_2 _ _ Hla) as [act Hact].
  destruct (lookup_lt_is_Some_2 _ _ Hli) as [init Hinit].
  pose proof (Forall_lookup_1 _ _ _ _ Hf Hf_at) as Hflen.
  pose proof (Forall_lookup_1 _ _ _ _ Hs Hs_at) as Hslen. simpl in Hflen, Hslen.
  destruct f as [|k0 [|k1 [|c frest]]]; simpl in Hflen; try lia.
  destruct s as [|s0 [|s1 srest]]; simpl in Hslen; try lia.
  cbn [TCNN.transposed]. rewrite Hf_at, Hs_at, Hact, Hinit.
  cbn [mbind option_bind lookup list_lookup].
  destruct (IH (x ++ [Conv2DTranspose c (k0, k1) (s0, s1) act init])) as (plan & Hrun & Hall).
  exists (Conv2DTranspose c (k0, k1) (s0, s1) act init :: plan).
  split; [by rewrite Hrun, <- app_assoc|].
  constructor; [|done]. by exists k0, k1, c, frest, s0, s1, srest, act, init.
Qed.

(** X22.  Every genome with which [random_init] leaves its loop through the
    [break] can be built: [TCNN.building] appends exactly one
    [Conv2DTranspose] per counted layer, with the channels, sides and stride
    of that layer's filter and stride and its activation and initializer; the
    last one has the channel count of the target shape. *)
Theorem tcnn_building_after_random_init (d : TConvDescriptor.t)
    (input_size output_size : list Z) (max_stride max_filter : Z) (no_batch : option bool)
    (g : rng) (d' : TConvDescriptor.t) (g' : rng) (x : tensor) :
  TConvDescriptor.random_init d input_size output_size max_stride max_filter no_batch g
  = Some ((d', true), g') ->
  exists plan,
    TCNN.building d' x = Some (x ++ plan) /\
    Z.of_nat (length plan) = TConvDescriptor.number_hidden_layers d' /\
    (forall (i : nat) l, plan !! i = Some l ->
       exists k c s act init,
         TConvDescriptor.filters d' !! i = Some [k; k; c] /\
         TConvDescriptor.strides d' !! i = Some [s; s; 1] /\
         TConvDescriptor.act_functions d' !! i = Some act /\
         TConvDescriptor.init_functions d' !! i = Some init /\
         l = Conv2DTranspose c (k, k) (s, s) act init) /\
    (exists tc k s act init,
       output_size !! 2%nat = Some tc /\
       last plan = Some (Conv2DTranspose tc (k, k) (s, s) act init)).
Proof.
  intros Hrun.
  destruct (tconv_random_init_genome _ _ _ _ _ _ _ _ _ _ Hrun)
    as (new & _ & _ & _ & _ & Hls & Hla & Hli & Hfs & Hss & _ & _ & Hn & _).
  destruct Hn as (Hn & Hcount & t0 & t1 & tc & k & h & w & _ & _ & Htc & Hlast & _).
  destruct (tcnn_transposed_plan d' (seq 0 (length (TConvDescriptor.filters d'))))
    with (x := x) as (plan & Hb & Hall).
  { eapply Forall_impl; [exact Hfs|]. intros f (? & ? & -> & _). simpl. lia. }
  { eapply Forall_impl; [exact Hss|]. intros s (? & -> & _). simpl. lia. }
  { apply Forall_forall. intros lay Hlay. apply elem_of_seq in Hlay. lia. }
  pose proof (Forall2_length _ _ _ Hall) as Hlen. rewrite length_seq in Hlen.
  assert (Hentry : forall (i : nat) l, plan !! i = Some l ->
    exists k c s act init,
      TConvDescriptor.filters d' !! i = Some [k; k; c] /\
      TConvDescriptor.strides d' !! i = Some [s; s; 1] /\
      TConvDescriptor.act_functions d' !! i = Some act /\
      TConvDescriptor.init_functions d' !! i = Some init /\
      l = Conv2DTranspose c (k, k) (s, s) act init).
  { intros i l Hl.
    destruct (Forall2_lookup_r _ _ _ i l Hall Hl)
      as (lay & Hlay & k0 & k1 & c & frest & s0 & s1 & srest & act & init
          & Hf & Hs & Ha & Hi & ->).
    apply lookup_seq in Hlay as [-> _]. simpl in Hf, Hs, Ha, Hi.
    destruct (Forall_lookup_1 _ _ _ _ Hfs Hf) as (k' & c' & [= -> -> -> ->] & _).
    destruct (Forall_lookup_1 _ _ _ _ Hss Hs) as (s' & [= -> -> ->] & _).
    by exists k', c', s', act, init. }
  exists plan. split.
  { unfold TCNN.building. by rewrite Hn, Nat2Z.id. }
  split; [lia|]. split; [exact Hentry|].
  destruct (last plan) as [l|] eqn:Hl.
  - rewrite last_lookup in Hl. rewrite last_lookup in Hlast.
    destruct (Hentry _ _ Hl) as (k' & c' & s' & act & init & Hf & _ & _ & _ & ->).
    rewrite <- Hlen, Hlast in Hf.
    assert (k' = k /\ c' = tc) as [-> ->] by (split; congruence).
    by exists tc, k, s', act, init.
  - apply last_None in Hl. subst plan. simpl in Hlen. lia.
Qed.

Lemma tcnn_building_after_random_init_witness :
  (TConvDescriptor.random_init tconv_blank [7; 7; 50] [28; 28; 3] 3 4 None
     (replay [1; 1; 13; 1; 0; 1; 1; 0; 2; 1]) ≫= fun '(d', _, _) => TCNN.building d' [])
  = Some [Conv2DTranspose 16 (3, 3) (2, 2) None (Some GlorotNormal);
          Conv2DTranspose 3 (3, 3) (2, 2) (Some relu) (Some GlorotUniform)] /\
  exists d' g' plan,
    TConvDescriptor.random_init tconv_blank [7; 7; 50] [28; 28; 3] 3 4 None
      (replay [1; 1; 13; 1; 0; 1; 1; 0; 2; 1]) = Some ((d', true), g') /\
    TCNN.building d' [] = Some ([] ++ plan) /\
    Z.of_nat (length plan) = TConvDescriptor.number_hidden_layers d'.
Proof.
  split; [by vm_compute|].
  assert (exists d' g',
    TConvDescriptor.random_init tconv_blank [7; 7; 50] [28; 28; 3] 3 4 None
      (replay [1; 1; 13; 1; 0; 1; 1; 0; 2; 1]) = Some ((d', true), g')) as (d' & g' & Hrun)
    by (vm_compute; by eexists _, _).
  destruct (tcnn_building_after_random_init _ _ _ _ _ _ _ _ _ [] Hrun)
    as (plan & Hb & Hlen & _).
  exists d', g', plan. split; [exact Hrun|]. split; [exact Hb | exact Hlen].
Defined.

(** ** TConvDescriptor: [add_layer], [remove_layer] and the edits of one layer *)

(** X23.  On a [TConvDescriptor] whose sequences cover its layer count with
    triples, for every position inside or at the end of its four sequences
    and every parameter tuple and draw, [add_layer] followed by [remove_layer]
    at the same position gives the descriptor that [reset_shapes] computes
    from the original: filters, strides, activations, initializers and the
    layer count are restored and the cache is the recomputed one. *)
Theorem tconv_add_then_remove_is_reset (d : TConvDescriptor.t) (pos : Z) (p : lay_params)
    (g : rng) :
  tconv_consistent d ->
  0 <= pos <= Z.of_nat (length (TConvDescriptor.filters d)) ->
  pos <= Z.of_nat (length (TConvDescriptor.strides d)) ->
  pos <= Z.of_nat (length (TConvDescriptor.act_functions d)) ->
  pos <= Z.of_nat (length (TConvDescriptor.init_functions d)) ->
  exists d1 g1 d2,
    TConvDescriptor.add_layer d pos p g = Some ((d1, 0), g1) /\
    TConvDescriptor.number_hidden_layers d1 = TConvDescriptor.number_hidden_layers d + 1 /\
    TConvDescriptor.remove_layer d1 pos = Some d2 /\
    TConvDescriptor.reset_shapes d = Some d2.
Proof.
  intros Hd Hpf Hps Hpa Hpi.
  destruct (tconv_add_then_remove d pos p g Hd Hpf Hps Hpa Hpi)
    as (d1 & g1 & d2 & Hadd & Hn & Hdel & Hreset & _).
  by exists d1, g1, d2.
Qed.

Lemma tconv_add_then_remove_is_reset_witness :
  exists d1 g1,
    TConvDescriptor.add_layer tconv_two 1 sample_params (replay [7]) = Some ((d1, 0), g1) /\
    TConvDescriptor.number_hidden_layers d1 = 3 /\
    TConvDescriptor.remove_layer d1 1 = Some tconv_two.
Proof.
  destruct (tconv_add_then_remove_is_reset tconv_two 1 sample_params (replay [7])
              tconv_two_consistent)
    as (d1 & g1 & d2 & Hadd & Hn & Hdel & Hreset); try (simpl; lia).
  exists d1, g1. split; [exact Hadd|]. split; [exact Hn|].
  rewrite Hdel, <- Hreset. reflexivity.
Defined.

Lemma subscript_Some (len : nat) (i : Z) (j : nat) :
  Py.subscript len i = Some j -> (j < len)%nat.
Proof.
  unfold Py.subscript. case_bool_decide; [intros [= <-]; lia|].
  case_bool_decide; [intros [= <-]; lia | done].
Qed.

Lemma tconv_assign_sides_filter (l : list (list Z)) (pos side channels : Z) (j : nat)
    (f0 f1 f2 : Z) (frest : list Z) :
  Py.subscript (length l) pos = Some j ->
  l !! j = Some (f0 :: f1 :: f2 :: frest) ->
  TConvDescriptor.assign_sides l pos side (Some channels)
  = Some (<[j := side :: side :: channels :: frest]> l).
Proof.
  intros Hj Hf. unfold TConvDescriptor.assign_sides, Py.getitem.
  rewrite Hj. cbn [mbind option_bind]. rewrite Hf. cbn [mbind option_bind].
  rewrite (setitem_inside (f0 :: f1 :: f2 :: frest) 0) by (simpl; lia).
  cbn [mbind option_bind]. change (Z.to_nat 0) with 0%nat. cbn [insert list_insert].
  rewrite (setitem_inside (side :: f1 :: f2 :: frest) 1) by (simpl; lia).
  cbn [mbind option_bind]. change (Z.to_nat 1) with 1%nat. cbn [insert list_insert].
  rewrite (setitem_inside (side :: side :: f2 :: frest) 2) by (simpl; lia).
  cbn [mbind option_bind]. change (Z.to_nat 2) with 2%nat. cbn [insert list_insert].
  unfold Py.setitem. by rewrite Hj.
Qed.

Lemma tconv_assign_sides_stride (l : list (list Z)) (pos stride : Z) (j : nat)
    (s0 s1 : Z) (srest : list Z) :
  Py.subscript (length l) pos = Some j ->
  l !! j = Some (s0 :: s1 :: srest) ->
  TConvDescriptor.assign_sides l pos stride None
  = Some (<[j := stride :: stride :: srest]> l).
Proof.
  intros Hj Hs. unfold TConvDescriptor.assign_sides, Py.getitem.
  rewrite Hj. cbn [mbind option_bind]. rewrite Hs. cbn [mbind option_bind].
  rewrite (setitem_inside (s0 :: s1 :: srest) 0) by (simpl; lia).
  cbn [mbind option_bind]. change (Z.to_nat 0) with 0%nat. cbn [insert list_insert].
  rewrite (setitem_inside (stride :: s1 :: srest) 1) by (simpl; lia).
  cbn [mbind option_bind]. change (Z.to_nat 1) with 1%nat. cbn [insert list_insert].
  unfold Py.setitem. by rewrite Hj.
Qed.

Lemma tconv_assign_sides_outside (l : list (list Z)) (pos a : Z) (c : option Z) :
  Py.subscript (length l) pos = None -> TConvDescriptor.assign_sides l pos a c = None.
Proof.
  intros Hj. unfold TConvDescriptor.assign_sides, Py.getitem. by rewrite Hj.
Qed.

(** X24.  [change_filters] and [change_stride] on a [TConvDescriptor] whose
    sequences cover its layer count with triples, with new values in [int64]
    (an item that [random_init] stored is an [int64] array and takes no
    other).  At a position that subscripts the sequence (from the front, or
    from the end when negative) they return, having overwritten the two
    sides, and for a filter the channel count, of that one item; the other
    items, the other sequences and the layer count are unchanged and the
    cache is the recomputed one.  At any other position they raise. *)
Theorem tconv_change_filters_stride (d : TConvDescriptor.t) (pos : Z) :
  tconv_consistent d ->
  (forall side channels j,
     Py.int64 side -> Py.int64 channels ->
     Py.subscript (length (TConvDescriptor.filters d)) pos = Some j ->
     exists f d',
       TConvDescriptor.filters d !! j = Some f /\
       TConvDescriptor.change_filters d pos side channels = Some d' /\
       TConvDescriptor.filters d'
       = <[j := side :: side :: channels :: drop 3 f]> (TConvDescriptor.filters d) /\
       TConvDescriptor.strides d' = TConvDescriptor.strides d /\
       TConvDescriptor.base d' = TConvDescriptor.base d /\
       tconv_consistent d' /\
       TConvDescriptor.reset_shapes d' = Some d') /\
  (forall stride j,
     Py.int64 stride ->
     Py.subscript (length (TConvDescriptor.strides d)) pos = Some j ->
     exists s d',
       TConvDescriptor.strides d !! j = Some s /\
       TConvDescriptor.change_stride d pos stride = Some d' /\
       TConvDescriptor.strides d'
       = <[j := stride :: stride :: drop 2 s]> (TConvDescriptor.strides d) /\
       TConvDescriptor.filters d' = TConvDescriptor.filters d /\
       TConvDescriptor.base d' = TConvDescriptor.base d /\
       tconv_consistent d' /\
       TConvDescriptor.reset_shapes d' = Some d') /\
  (Py.subscript (length (TConvDescriptor.filters d)) pos = None ->
   forall side channels, TConvDescriptor.change_filters d pos side channels = None) /\
  (Py.subscript (length (TConvDescriptor.strides d)) pos = None ->
   forall stride, TConvDescriptor.change_stride d pos stride = None).
Proof.
  intros Hd. pose proof Hd as (Hnf & Hns & Hf & Hs & Hin).
  split; [|split; [|split]].
  - intros side channels j _ _ Hj.
    destruct (lookup_lt_is_Some_2 (TConvDescriptor.filters d) j) as [f Hf_at];
      [by eapply subscript_Some|].
    pose proof (Forall_lookup_1 _ _ _ _ Hf Hf_at) as Hflen. simpl in Hflen.
    destruct f as [|f0 [|f1 [|f2 frest]]]; simpl in Hflen; try lia.
    unfold TConvDescriptor.change_filters.
    rewrite (tconv_assign_sides_filter _ _ _ _ j f0 f1 f2 frest Hj Hf_at).
    cbn [mbind option_bind].
    set (d1 := TConvDescriptor.with_filters _ d).
    assert (tconv_consistent d1) as Hd1.
    { unfold tconv_consistent, d1. tconv_fields. rewrite length_insert.
      do 2 (split; [done|]). split; [|done].
      apply Forall_insert; [done | simpl; lia]. }
    destruct (tconv_reset_shapes_total d1 Hd1) as (acc & Hreset & _).
    exists (f0 :: f1 :: f2 :: frest), (TConvDescriptor.with_output_shapes acc d1).
    split; [done|]. split; [exact Hreset|].
    do 3 (split; [done|]). split; [exact Hd1|].
    by apply (tconv_reset_shapes_idempotent d1).
  - intros stride j _ Hj.
    destruct (lookup_lt_is_Some_2 (TConvDescriptor.strides d) j) as [s Hs_at];
      [by eapply subscript_Some|].
    pose proof (Forall_lookup_1 _ _ _ _ Hs Hs_at) as Hslen. simpl in Hslen.
    destruct s as [|s0 [|s1 srest]]; simpl in Hslen; try lia.
    unfold TConvDescriptor.change_stride.
    rewrite (tconv_assign_sides_stride _ _ _ j s0 s1 srest Hj Hs_at).
    cbn [mbind option_bind].
    set (d1 := TConvDescriptor.with_strides _ d).
    assert (tconv_consistent d1) as Hd1.
    { unfold tconv_consistent, d1. tconv_fields. rewrite length_insert.
      do 3 (split; [done|]). split; [|done].
      apply Forall_insert; [done | simpl; lia]. }
    destruct (tconv_reset_shapes_total d1 Hd1) as (acc & Hreset & _).
    exists (s0 :: s1 :: srest), (TConvDescriptor.with_output_shapes acc d1).
    split; [done|]. split; [exact Hreset|].
    do 3 (split; [done|]). split; [exact Hd1|].
    by apply (tconv_reset_shapes_idempotent d1).
  - intros Hj side channels. unfold TConvDescriptor.change_filters.
    by rewrite tconv_assign_sides_outside.
  - intros Hj stride. unfold TConvDescriptor.change_stride.
    by rewrite tconv_assign_sides_outside.
Qed.

Lemma tconv_change_filters_stride_witness :
  (exists d',
     TConvDescriptor.change_filters tconv_two (-1) 5 3 = Some d' /\
     TConvDescriptor.filters d' = [[3; 3; 16]; [5; 5; 3]] /\
     TConvDescriptor.reset_shapes d' = Some d') /\
  TConvDescriptor.change_stride tconv_two 2 2 = None.
Proof.
  destruct (tconv_change_filters_stride tconv_two (-1) tconv_two_consistent)
    as (Hfilters & _ & _ & _).
  destruct (tconv_change_filters_stride tconv_two 2 tconv_two_consistent)
    as (_ & _ & _ & Hraise).
  split.
  - destruct (Hfilters 5 3 1%nat) as (f & d' & Hf & Hrun & Hnew & _ & _ & _ & Hreset);
      [solve_int64 | solve_int64 | reflexivity |].
    injection Hf as <-.
    exists d'. split; [exact Hrun|]. split; [exact Hnew | exact Hreset].
  - apply Hraise. reflexivity.
Defined.
